(** * jike-skill: the authenticated request executor and the QR poll loop

    A shallow embedding of [src/jike/types.py], [src/jike/auth.py],
    [src/jike/client.py] and of the refresh helpers of the standalone
    scripts, together with the properties the specification states about
    them.

    Python objects live in a store: a [TokenPair] is a heap cell, the client
    attribute [self._tokens] is a reference into that heap.  The network is
    a deterministic server that answers a request from the history of the
    requests issued so far; every call is appended to a log, and every
    [time.sleep] to a list of pauses. *)

From stdpp Require Import gmap strings list fin_maps.
From Stdlib Require Import ZArith.

Local Open Scope string_scope.
Local Open Scope Z_scope.

(* ===================================================================== *)
(** ** Values exchanged with the server                                   *)
(* ===================================================================== *)

(** What [json.loads] builds: [None], [bool], numbers (kept as a fraction;
    only their being zero or not is ever observed), [str], [list] and
    [dict]. *)
#[warnings="-register-all"]
Inductive Json : Type :=
  | JNull
  | JBool (b : bool)
  | JNum (num : Z) (den : positive)
  | JStr (s : string)
  | JArr (l : list Json)
  | JObj (d : gmap string Json).

(** Python truth value of a non-empty/empty [str] or [bytes]. *)
Definition str_truthy (s : string) : bool :=
  match s with
  | EmptyString => false
  | String _ _ => true
  end.

(** Python truth value, as used by [or], [and] and [if]. *)
Definition truthy (v : Json) : bool :=
  match v with
  | JNull => false
  | JBool b => b
  | JNum n _ => negb (n =? 0)
  | JStr s => str_truthy s
  | JArr l => match l with [] => false | _ :: _ => true end
  | JObj d => negb (bool_decide (d = ∅))
  end.

(** A call handed to the [requests] library.  [requests.post] and
    [requests.get] are [requests.request] with the method fixed. *)
Record Request : Type := mkRequest {
  method : string;
  url : string;
  headers : gmap string string;
  kwargs : gmap string Json;
}.

(** A [requests.Response].  [resp_headers] is keyed by the lower-cased
    header name, as the library's case-insensitive dictionary stores it; the
    program only ever looks up lower-case literals.  [json_body] is the
    outcome of [resp.json()]: [None] when decoding raises. *)
Record Response : Type := mkResponse {
  status_code : Z;
  resp_headers : gmap string string;
  content : string;
  json_body : option Json;
}.

(** Outcome of one network exchange: a response, or a transport failure
    ([requests.ConnectionError] and the like). *)
Inductive NetResult : Type :=
  | Resp (r : Response)
  | NetFail.

(** Exceptions that the modelled code can raise. *)
Inductive exn : Type :=
  | HTTPError (r : Response)        (* [resp.raise_for_status()] *)
  | ConnectionError                 (* transport failure inside [requests] *)
  | ValueError                      (* [resp.json()] on an undecodable body *)
  | AttributeError                  (* [.get] on a value that is not a dict *)
  | FrozenInstanceError             (* assignment to a frozen dataclass *)
  | IllTyped                        (* a non-[str] token value, see [as_str] *)
  | DanglingRef                     (* a reference outside the heap *)
  | RecursionError.                 (* recursion budget exhausted *)

(** [isinstance(e, requests.RequestException)]. *)
Definition is_RequestException (e : exn) : bool :=
  match e with
  | HTTPError _ | ConnectionError => true
  | _ => false
  end.

(** [isinstance(e, (ValueError, KeyError))]. *)
Definition is_ValueError_or_KeyError (e : exn) : bool :=
  match e with
  | ValueError => true
  | _ => false
  end.

(* ===================================================================== *)
(** ** [src/jike/types.py]                                               *)
(* ===================================================================== *)

Module jike_types.

Definition API_BASE : string := "https://api.ruguoapp.com".

Definition DEFAULT_HEADERS : gmap string string :=
  <["DNT" := "1"]>
  (<["Accept" := "application/json, text/plain, */*"]>
  (<["User-Agent" :=
       "Mozilla/5.0 (iPhone; CPU iPhone OS 18_5 like Mac OS X) " +:+
       "AppleWebKit/605.1.15 (KHTML, like Gecko) Version/18.5 " +:+
       "Mobile/15E148 Safari/604.1"]>
  (<["Origin" := "https://web.okjike.com"]> ∅))).

(** The fields of the dataclass, typed as declared. *)
Record TokenPair : Type := mkTokenPair {
  access_token : string;
  refresh_token : string;
}.

Definition to_dict (self : TokenPair) : gmap string string :=
  <["refresh_token" := refresh_token self]>
  (<["access_token" := access_token self]> ∅).

End jike_types.
Export jike_types.

(* ===================================================================== *)
(** ** The store, the network and the monad of effects                    *)
(* ===================================================================== *)

Abbreviation loc := nat.

Record World : Type := mkWorld {
  heap : gmap loc TokenPair;        (* the [TokenPair] objects allocated *)
  client_tokens : loc;              (* the attribute [self._tokens] *)
  server : list Request -> Request -> NetResult;
  log : list Request;               (* calls issued so far, oldest first *)
  sleeps : list Z;                  (* arguments of [time.sleep], in order *)
}.

Definition set_heap (h : gmap loc TokenPair) (w : World) : World :=
  mkWorld h (client_tokens w) (server w) (log w) (sleeps w).
Definition set_client_tokens (l : loc) (w : World) : World :=
  mkWorld (heap w) l (server w) (log w) (sleeps w).
Definition set_log (lg : list Request) (w : World) : World :=
  mkWorld (heap w) (client_tokens w) (server w) lg (sleeps w).
Definition set_sleeps (s : list Z) (w : World) : World :=
  mkWorld (heap w) (client_tokens w) (server w) (log w) s.

Inductive Result (A : Type) : Type :=
  | Ok (a : A)
  | Raise (e : exn).
Arguments Ok {A} a.
Arguments Raise {A} e.

Definition M (A : Type) : Type := World -> Result A * World.

Definition ret {A} (a : A) : M A := fun w => (Ok a, w).
Definition raise {A} (e : exn) : M A := fun w => (Raise e, w).
Definition bind {A B} (c : M A) (k : A -> M B) : M B :=
  fun w =>
    match c w with
    | (Ok a, w') => k a w'
    | (Raise e, w') => (Raise e, w')
    end.

Notation "x <- c ;; k" := (bind c (fun x => k))
  (at level 100, c at next level, right associativity).
Notation "c ;;; k" := (bind c (fun _ => k))
  (at level 100, right associativity).

(** [try: c  except <handles>: h]. *)
Definition try_except {A} (c : M A) (handles : exn -> bool) (h : M A) : M A :=
  fun w =>
    match c w with
    | (Ok a, w') => (Ok a, w')
    | (Raise e, w') => if handles e then h w' else (Raise e, w')
    end.

(** Reading a [TokenPair] through a reference. *)
Definition deref (l : loc) : M TokenPair :=
  fun w =>
    match heap w !! l with
    | Some tp => (Ok tp, w)
    | None => (Raise DanglingRef, w)
    end.

(** [TokenPair(access_token=a, refresh_token=r)]: a new object. *)
Definition new_TokenPair (a r : string) : M loc :=
  fun w =>
    let l := fresh (dom (heap w)) in
    (Ok l, set_heap (<[l := mkTokenPair a r]> (heap w)) w).

(** [time.sleep(d)]. *)
Definition sleep (d : Z) : M unit :=
  fun w => (Ok tt, set_sleeps (sleeps w ++ [d]) w).

(* ===================================================================== *)
(** ** The fragment of [requests] the program uses                        *)
(* ===================================================================== *)

Definition requests_request (meth u : string) (hdrs : gmap string string)
    (kw : gmap string Json) : M Response :=
  fun w =>
    let rq := mkRequest meth u hdrs kw in
    let w' := set_log (log w ++ [rq]) w in
    match server w (log w) rq with
    | Resp r => (Ok r, w')
    | NetFail => (Raise ConnectionError, w')
    end.

Definition requests_post (u : string) (hdrs : gmap string string)
    (kw : gmap string Json) : M Response :=
  requests_request "POST" u hdrs kw.

Definition requests_get (u : string) (hdrs : gmap string string) : M Response :=
  requests_request "GET" u hdrs ∅.

(** The statuses [raise_for_status] turns into [HTTPError]: 4xx and 5xx. *)
Definition is_error_status (s : Z) : bool := (400 <=? s) && (s <? 600).

Definition raise_for_status (resp : Response) : M unit :=
  if is_error_status (status_code resp) then raise (HTTPError resp) else ret tt.

(** [resp.json()]. *)
Definition resp_json (resp : Response) : M Json :=
  match json_body resp with
  | Some j => ret j
  | None => raise ValueError
  end.

(** [resp.headers.get(k, default)]. *)
Definition headers_get (resp : Response) (k : string) (dflt : string) : string :=
  default dflt (resp_headers resp !! k).

(** [resp.headers.get(k)], with Python's [None] for a missing header. *)
Definition headers_get_opt (resp : Response) (k : string) : Json :=
  match resp_headers resp !! k with
  | Some s => JStr s
  | None => JNull
  end.

(** [body.get(k)]: only a dict has [.get]. *)
Definition dict_get (body : Json) (k : string) : M Json :=
  match body with
  | JObj d => ret (default JNull (d !! k))
  | _ => raise AttributeError
  end.

(** [a or b], the right operand evaluated only when needed. *)
Definition py_or (a b : M Json) : M Json :=
  v <- a ;; if truthy v then ret v else b.

(** A token value entering a [TokenPair].  The dataclass declares its
    fields [str] and checks nothing at run time; the record of this
    development holds strings only, so a value of another type is marked
    [IllTyped] here.  Statements about [_extract_tokens] say explicitly
    when they assume token values to be strings. *)
Definition as_str (v : Json) : M string :=
  match v with
  | JStr s => ret s
  | _ => raise IllTyped
  end.

(* ===================================================================== *)
(** ** The process around the network: console, exit, optional modules    *)
(* ===================================================================== *)

(** Exceptions of the code that runs above the request layer. *)
Inductive pyexn : Type :=
  | Exn (e : exn)                   (* anything the request layer raises *)
  | KeyError                        (* [d[k]] on a missing key *)
  | TypeError                       (* subscripting what is not a dict *)
  | SystemExit (code : Z).          (* [sys.exit(code)] *)

(** The world, the lines printed to [sys.stderr], and the [qrcode] module
    when it is installed: what it draws for a text. *)
Record Process : Type := mkProcess {
  world : World;
  stderr : list string;
  qrcode : option (string -> string);
}.

Definition set_world (w : World) (p : Process) : Process :=
  mkProcess w (stderr p) (qrcode p).
Definition set_stderr (e : list string) (p : Process) : Process :=
  mkProcess (world p) e (qrcode p).

Inductive Outcome (A : Type) : Type :=
  | Returns (a : A)
  | Raises (e : pyexn).
Arguments Returns {A} a.
Arguments Raises {A} e.

Definition P (A : Type) : Type := Process -> Outcome A * Process.

Definition pret {A} (a : A) : P A := fun p => (Returns a, p).
Definition praise {A} (e : pyexn) : P A := fun p => (Raises e, p).
Definition pbind {A B} (c : P A) (k : A -> P B) : P B :=
  fun p =>
    match c p with
    | (Returns a, p') => k a p'
    | (Raises e, p') => (Raises e, p')
    end.

Notation "x <~ c ;; k" := (pbind c (fun x => k))
  (at level 100, c at next level, right associativity).
Notation "c ;;~ k" := (pbind c (fun _ => k))
  (at level 100, right associativity).

(** Code without effects: an outcome only. *)
Definition obind {A B} (c : Outcome A) (k : A -> Outcome B) : Outcome B :=
  match c with
  | Returns a => k a
  | Raises e => Raises e
  end.

Notation "x <-? c ;; k" := (obind c (fun x => k))
  (at level 100, c at next level, right associativity).

(** [v.get(k, dflt)], without effects. *)
Definition get_or (v : Json) (k : string) (dflt : Json) : Outcome Json :=
  match v with
  | JObj d => Returns (default dflt (d !! k))
  | _ => Raises (Exn AttributeError)
  end.

(** [a or b] on values already computed. *)
Definition or_else (a b : Json) : Json := if truthy a then a else b.

(** A computation of the request layer, run inside the process. *)
Definition lift {A} (c : M A) : P A :=
  fun p =>
    match c (world p) with
    | (Ok a, w') => (Returns a, set_world w' p)
    | (Raise e, w') => (Raises (Exn e), set_world w' p)
    end.

(** [print(line, file=sys.stderr)]. *)
Definition print_stderr (line : string) : P unit :=
  fun p => (Returns tt, set_stderr (stderr p ++ [line]) p).

(** [sys.exit(code)]. *)
Definition sys_exit {A} (code : Z) : P A := praise (SystemExit code).

(** [v[k]] for a string key. *)
Definition subscript (v : Json) (k : string) : P Json :=
  match v with
  | JObj d =>
      match d !! k with
      | Some x => pret x
      | None => praise KeyError
      end
  | _ => praise TypeError
  end.

(* ===================================================================== *)
(** ** [src/jike/client.py]                                              *)
(* ===================================================================== *)

Module jike_client.

(** [self._tokens], dereferenced. *)
Definition self_tokens : M TokenPair :=
  fun w => deref (client_tokens w) w.

(** The property [tokens]. *)
Definition tokens : M loc := fun w => (Ok (client_tokens w), w).

(** [JikeClient.__init__]. *)
Definition __init__ (tokens : loc) : M unit :=
  fun w => (Ok tt, set_client_tokens tokens w).

Definition build_headers (tok_header tok : string) : gmap string string :=
  <[tok_header := tok]>
  (<["Content-Type" := "application/json"]> DEFAULT_HEADERS).

Definition _headers : M (gmap string string) :=
  tp <- self_tokens ;;
  ret (build_headers "x-jike-access-token" (access_token tp)).

Definition _refresh : M unit :=
  tp <- self_tokens ;;
  resp <- requests_post (API_BASE +:+ "/app_auth_tokens.refresh")
            (build_headers "x-jike-refresh-token" (refresh_token tp))
            {["json" := JObj ∅]} ;;
  raise_for_status resp ;;;
  tpa <- self_tokens ;;
  tpr <- self_tokens ;;
  l <- new_TokenPair
         (headers_get resp "x-jike-access-token" (access_token tpa))
         (headers_get resp "x-jike-refresh-token" (refresh_token tpr)) ;;
  (fun w => (Ok tt, set_client_tokens l w)).

(** [resp.json() if resp.content else {}]. *)
Definition body_or_empty (resp : Response) : M Json :=
  if str_truthy (content resp) then resp_json resp else ret (JObj ∅).

(** [_request], with the depth of the Python call stack it may still use:
    the method calls itself, always with [retry_on_401=False]. *)
Fixpoint _request_rec (depth : nat) (meth path : string)
    (retry_on_401 : bool) (kw : gmap string Json) : M Json :=
  match depth with
  | O => raise RecursionError
  | S depth' =>
      hdrs <- _headers ;;
      resp <- requests_request meth (API_BASE +:+ path) hdrs kw ;;
      if (status_code resp =? 401) && retry_on_401 then
        _refresh ;;;
        _request_rec depth' meth path false kw
      else
        raise_for_status resp ;;;
        body_or_empty resp
  end.

(** Two frames are all the method ever needs, see
    [_request_rec_depth_irrelevant]. *)
Definition _request (meth path : string) (retry_on_401 : bool)
    (kw : gmap string Json) : M Json :=
  _request_rec 2 meth path retry_on_401 kw.

(** *** The API methods

    Optional arguments are passed explicitly; [JNull] is Python's [None]. *)

Definition feed (limit : Z) (load_more_key : Json) : M Json :=
  let body : gmap string Json := {["limit" := JNum limit 1]} in
  let body :=
    if truthy load_more_key then <["loadMoreKey" := load_more_key]> body
    else body in
  _request "POST" "/1.0/personalUpdate/followingUpdates" true
    {["json" := JObj body]}.

Definition get_post (post_id : string) : M Json :=
  _request "GET" ("/1.0/originalPosts/get?id=" +:+ post_id) true ∅.

Definition create_post (content : string) (picture_keys : Json) : M Json :=
  _request "POST" "/1.0/originalPosts/create" true
    {["json" :=
        JObj (<["pictureKeys" :=
                  if truthy picture_keys then picture_keys else JArr []]>
              {["content" := JStr content]})]}.

Definition delete_post (post_id : string) : M Json :=
  _request "POST" "/1.0/originalPosts/remove" true
    {["json" := JObj {["id" := JStr post_id]}]}.

Definition add_comment (post_id content : string) : M Json :=
  _request "POST" "/1.0/comments/add" true
    {["json" :=
        JObj (<["force" := JBool false]>
             (<["pictureKeys" := JArr []]>
             (<["syncToPersonalUpdates" := JBool false]>
             (<["content" := JStr content]>
             (<["targetId" := JStr post_id]>
              {["targetType" := JStr "ORIGINAL_POST"]})))))]}.

Definition delete_comment (comment_id : string) : M Json :=
  _request "POST" "/1.0/comments/remove" true
    {["json" :=
        JObj (<["targetType" := JStr "ORIGINAL_POST"]>
              {["id" := JStr comment_id]})]}.

Definition search (keyword : string) (limit : Z) (load_more_key : Json) : M Json :=
  let body : gmap string Json :=
    <["limit" := JNum limit 1]> {["keyword" := JStr keyword]} in
  let body :=
    if truthy load_more_key then <["loadMoreKey" := load_more_key]> body
    else body in
  _request "POST" "/1.0/search/integrate" true {["json" := JObj body]}.

Definition profile (username : string) : M Json :=
  _request "GET" ("/1.0/users/profile?username=" +:+ username) true ∅.

Definition followers (user_id : string) (load_more_key : Json) : M Json :=
  let body : gmap string Json := {["userId" := JStr user_id]} in
  let body :=
    if truthy load_more_key then <["loadMoreKey" := load_more_key]> body
    else body in
  _request "POST" "/1.0/userRelation/getFollowerList" true
    {["json" := JObj body]}.

Definition following (user_id : string) (load_more_key : Json) : M Json :=
  let body : gmap string Json := {["userId" := JStr user_id]} in
  let body :=
    if truthy load_more_key then <["loadMoreKey" := load_more_key]> body
    else body in
  _request "POST" "/1.0/userRelation/getFollowingList" true
    {["json" := JObj body]}.

Definition unread_notifications : M Json :=
  _request "GET" "/1.0/notifications/unread" true ∅.

Definition list_notifications (load_more_key : Json) : M Json :=
  let body : gmap string Json := ∅ in
  let body :=
    if truthy load_more_key then <["loadMoreKey" := load_more_key]> body
    else body in
  _request "POST" "/1.0/notifications/list" true {["json" := JObj body]}.

(** *** The command table of the CLI

    The attributes [argparse] puts in the namespace, typed as the parser
    declares them; a handler reads only those of its own sub-command. *)
Record Namespace : Type := mkNamespace {
  arg_command : string;
  arg_limit : Z;
  arg_load_more_key : Json;
  arg_content : string;
  arg_picture_keys : list string;
  arg_post_id : string;
  arg_comment_id : string;
  arg_keyword : string;
  arg_username : string;
}.

Definition _DISPATCH : gmap string (Namespace -> M Json) :=
  <["notifications" := fun _ =>
      u <- unread_notifications ;;
      l <- list_notifications JNull ;;
      ret (JObj (<["list" := l]> {["unread" := u]}))]>
  (<["profile" := fun a => profile (arg_username a)]>
  (<["search" := fun a => search (arg_keyword a) (arg_limit a) JNull]>
  (<["delete-comment" := fun a => delete_comment (arg_comment_id a)]>
  (<["comment" := fun a => add_comment (arg_post_id a) (arg_content a)]>
  (<["delete-post" := fun a => delete_post (arg_post_id a)]>
  (<["post" := fun a =>
      create_post (arg_content a) (JArr (JStr <$> arg_picture_keys a))]>
  (<["feed" := fun a => feed (arg_limit a) (arg_load_more_key a)]> ∅))))))).

End jike_client.

(* ===================================================================== *)
(** ** [src/jike/auth.py]                                                *)
(* ===================================================================== *)

Module jike_auth.

Definition POLL_INTERVAL_SEC : Z := 1.
Definition POLL_TIMEOUT_SEC : Z := 180.

Definition _post (path : string) (hdrs : option (gmap string string))
    (kw : gmap string Json) : M Response :=
  let merged := <["Content-Type" := "application/json"]> DEFAULT_HEADERS in
  let merged :=
    match hdrs with
    | Some h => if bool_decide (h = ∅) then merged else h ∪ merged
    | None => merged
    end in
  requests_post (API_BASE +:+ path) merged kw.

Definition _get (path : string) : M Response :=
  requests_get (API_BASE +:+ path) DEFAULT_HEADERS.

Definition _extract_tokens (resp : Response) : M (option loc) :=
  body <- try_except (resp_json resp) is_ValueError_or_KeyError
            (ret (JObj ∅)) ;;
  access <- py_or (dict_get body "x-jike-access-token")
              (py_or (dict_get body "access_token")
                 (ret (headers_get_opt resp "x-jike-access-token"))) ;;
  refresh <- py_or (dict_get body "x-jike-refresh-token")
               (py_or (dict_get body "refresh_token")
                  (ret (headers_get_opt resp "x-jike-refresh-token"))) ;;
  if truthy access && truthy refresh then
    a <- as_str access ;;
    r <- as_str refresh ;;
    l <- new_TokenPair a r ;;
    ret (Some l)
  else
    ret None.

(** The URL polled for a session. *)
Definition wait_path (uuid : string) : string :=
  "/sessions.wait_for_confirmation?uuid=" +:+ uuid.

(** The body of [for _ in range(attempts)], [n] iterations remaining. *)
Fixpoint poll_loop (uuid : string) (n : nat) : M (option loc) :=
  match n with
  | O => ret None
  | S n' =>
      r <- try_except (resp <- _get (wait_path uuid) ;; ret (Some resp))
             is_RequestException
             (sleep POLL_INTERVAL_SEC ;;; ret None) ;;
      match r with
      | None => poll_loop uuid n'
      | Some resp =>
          if status_code resp =? 200 then
            _extract_tokens resp
          else if status_code resp =? 400 then
            sleep POLL_INTERVAL_SEC ;;;
            poll_loop uuid n'
          else
            sleep POLL_INTERVAL_SEC ;;;
            poll_loop uuid n'
      end
  end.

Definition poll_confirmation (uuid : string) : M (option loc) :=
  let attempts := POLL_TIMEOUT_SEC `div` POLL_INTERVAL_SEC in
  poll_loop uuid (Z.to_nat attempts).

Definition refresh_tokens (token_pair : loc) : M loc :=
  tp <- deref token_pair ;;
  resp <- _post "/app_auth_tokens.refresh"
            (Some {["x-jike-refresh-token" := refresh_token tp]})
            {["json" := JObj ∅]} ;;
  raise_for_status resp ;;;
  tpa <- deref token_pair ;;
  tpr <- deref token_pair ;;
  new_TokenPair
    (headers_get resp "x-jike-access-token" (access_token tpa))
    (headers_get resp "x-jike-refresh-token" (refresh_token tpr)).

(** *** The QR payload *)

(** The bytes [urllib.parse.quote] never escapes: ASCII letters, digits and
    [_.-~]. *)
Definition _ALWAYS_SAFE (c : Ascii.ascii) : bool :=
  let n := Ascii.N_of_ascii c in
  ((65 <=? n) && (n <=? 90) || (97 <=? n) && (n <=? 122)
   || (48 <=? n) && (n <=? 57)
   || (n =? 95) || (n =? 46) || (n =? 45) || (n =? 126))%N.

(** One upper-case hexadecimal digit: ["0"] is byte 48, ["A"] is byte 65. *)
Definition hex_digit (n : N) : Ascii.ascii :=
  Ascii.ascii_of_N (if (n <? 10)%N then 48 + n else 55 + n)%N.

(** Membership of a byte in a string. *)
Fixpoint byte_in (c : Ascii.ascii) (s : string) : bool :=
  match s with
  | EmptyString => false
  | String c' s' => Ascii.eqb c c' || byte_in c s'
  end.

(** [urllib.parse.quote(s, safe=safe)] on the UTF-8 bytes of [s]: a byte
    that is always safe or listed in [safe] stays, any other becomes [%XX]. *)
Fixpoint quote (s safe : string) : string :=
  match s with
  | EmptyString => EmptyString
  | String c s' =>
      if _ALWAYS_SAFE c || byte_in c safe
      then String c (quote s' safe)
      else "%" +:+
           String (hex_digit (Ascii.N_of_ascii c / 16))
             (String (hex_digit (Ascii.N_of_ascii c mod 16))
                (quote s' safe))
  end.

Definition build_qr_payload (uuid : string) : string :=
  let scan_url := "https://www.okjike.com/account/scan?uuid=" +:+ uuid in
  "jike://page.jk/web?url="
  +:+ quote scan_url ""
  +:+ "&displayHeader=false&displayFooter=false".

(** *** The login flow *)

(** [create_session]: whatever the body holds under ["uuid"]. *)
Definition create_session : P Json :=
  resp <~ lift (_post "/sessions.create" None ∅) ;;
  lift (raise_for_status resp) ;;~
  body <~ lift (resp_json resp) ;;
  subscript body "uuid".

(** [render_qr]: draws on [sys.stderr] when [qrcode] can be imported. *)
Definition render_qr (data : string) : P bool :=
  fun p =>
    match qrcode p with
    | Some print_ascii => (Returns true, set_stderr (stderr p ++ [print_ascii data]) p)
    | None => (Returns false, p)
    end.

(** [authenticate].  The session identifier is formatted into text twice;
    [create_session] declares it a [str], and a value of another type is
    marked [IllTyped] as in [as_str]. *)
Definition authenticate : P loc :=
  uuid_value <~ create_session ;;
  uuid <~ lift (as_str uuid_value) ;;
  print_stderr ("[+] Session: " +:+ uuid) ;;~
  let qr_payload := build_qr_payload uuid in
  rendered <~ render_qr qr_payload ;;
  (if negb rendered then
     print_stderr "[*] Install 'qrcode' for terminal QR:" ;;~
     print_stderr ("    " +:+ qr_payload)
   else pret tt) ;;~
  print_stderr "[*] Waiting for scan..." ;;~
  tokens <~ lift (poll_confirmation uuid) ;;
  match tokens with
  | None =>
      print_stderr "[!] Timeout — no scan detected" ;;~
      sys_exit 1
  | Some tokens =>
      print_stderr "[+] Scan confirmed, refreshing tokens..." ;;~
      tokens <~ lift (refresh_tokens tokens) ;;
      print_stderr "[+] Ready" ;;~
      pret tokens
  end.

End jike_auth.

(* ===================================================================== *)
(** ** What [@dataclass(frozen=True)] generates for [TokenPair]           *)
(* ===================================================================== *)

Module TokenPair_methods.

(** The class statement of [types.py], lines 23-26: [@dataclass(frozen=True)]
    over two fields.  [dataclass] reads the flag and the names of the
    fields, and generates the methods below from them. *)
Definition frozen : bool := true.
Definition fields : list string := ["access_token"; "refresh_token"].

(** [type(self) is cls]: every object of the heap was built by
    [TokenPair(...)], and the repository derives no class from it. *)
Definition type_is_cls (self : loc) : bool := true.

Section Inherited.
(** [object.__setattr__] and [object.__delattr__]: what a class that is
    not frozen uses, and what the generated methods fall through to. *)
Variable object_setattr : loc -> string -> string -> M unit.
Variable object_delattr : loc -> string -> M unit.

(** [obj.name = value].  With [frozen=True] the class gets
    [[
      def __setattr__(self, name, value):
          if type(self) is cls or name in {'access_token', 'refresh_token'}:
              raise FrozenInstanceError(...)
          super(cls, self).__setattr__(name, value)
    ]]
    and without it keeps [object]'s. *)
Definition __setattr__ (self : loc) (name value : string) : M unit :=
  if frozen
  then if type_is_cls self || bool_decide (name ∈ fields)
       then raise FrozenInstanceError
       else object_setattr self name value
  else object_setattr self name value.

(** [del obj.name], generated alike. *)
Definition __delattr__ (self : loc) (name : string) : M unit :=
  if frozen
  then if type_is_cls self || bool_decide (name ∈ fields)
       then raise FrozenInstanceError
       else object_delattr self name
  else object_delattr self name.
End Inherited.

(** [a == b] for two [TokenPair]s: the tuples of fields are compared. *)
Definition __eq__ (self other : loc) : M bool :=
  s <- deref self ;;
  o <- deref other ;;
  ret (bool_decide (access_token s = access_token o)
       && bool_decide (refresh_token s = refresh_token o)).

Section Hash.
(** The interpreter's hash of a [str] and of a tuple of hashes. *)
Variable hash_str : string -> Z.
Variable hash_tuple : list Z -> Z.

(** [hash(obj)]: the hash of the tuple of fields. *)
Definition __hash__ (self : loc) : M Z :=
  s <- deref self ;;
  ret (hash_tuple [hash_str (access_token s); hash_str (refresh_token s)]).
End Hash.

End TokenPair_methods.

(* ===================================================================== *)
(** ** More of the Python runtime                                         *)
(* ===================================================================== *)

(** [isinstance(e, requests.HTTPError)]. *)
Definition is_HTTPError (e : exn) : bool :=
  match e with
  | HTTPError _ => true
  | _ => false
  end.

(** [body.get(k, dflt)]. *)
Definition dict_get_or (body : Json) (k : string) (dflt : Json) : M Json :=
  match body with
  | JObj d => ret (default dflt (d !! k))
  | _ => raise AttributeError
  end.

(* ===================================================================== *)
(** ** The refresh helpers of the standalone scripts                      *)
(* ===================================================================== *)

(** Every script carries its own copy of the static headers. *)
Module scripts_client.

Definition API_BASE : string := "https://api.ruguoapp.com".
Definition HEADERS : gmap string string :=
  <["DNT" := "1"]>
  (<["Accept" := "application/json, text/plain, */*"]>
  (<["User-Agent" :=
       "Mozilla/5.0 (iPhone; CPU iPhone OS 18_5 like Mac OS X) " +:+
       "AppleWebKit/605.1.15 (KHTML, like Gecko) Version/18.5 " +:+
       "Mobile/15E148 Safari/604.1"]>
  (<["Origin" := "https://web.okjike.com"]> ∅))).

Definition _refresh (refresh_token : string) : M (string * string) :=
  resp <- requests_post (API_BASE +:+ "/app_auth_tokens.refresh")
            (<["x-jike-refresh-token" := refresh_token]>
             (<["Content-Type" := "application/json"]> HEADERS))
            {["json" := JObj ∅]} ;;
  raise_for_status resp ;;;
  ret (headers_get resp "x-jike-access-token" "",
       headers_get resp "x-jike-refresh-token" refresh_token).

(** [_call], with the depth of the call stack it may still use. *)
Fixpoint _call_rec (depth : nat) (meth path access_token refresh_token : string)
    (retry : bool) (kw : gmap string Json) : M Json :=
  match depth with
  | O => raise RecursionError
  | S depth' =>
      let hdrs :=
        <["x-jike-access-token" := access_token]>
        (<["Content-Type" := "application/json"]> HEADERS) in
      resp <- requests_request meth (API_BASE +:+ path) hdrs kw ;;
      if (status_code resp =? 401) && retry then
        new <- _refresh refresh_token ;;
        _call_rec depth' meth path new.1 new.2 false kw
      else
        raise_for_status resp ;;;
        if str_truthy (content resp) then resp_json resp else ret (JObj ∅)
  end.

Definition _call (meth path access_token refresh_token : string)
    (retry : bool) (kw : gmap string Json) : M Json :=
  _call_rec 2 meth path access_token refresh_token retry kw.

End scripts_client.

Module scripts_auth.

Definition API_BASE : string := "https://api.ruguoapp.com".
Definition HEADERS : gmap string string :=
  <["DNT" := "1"]>
  (<["Accept" := "application/json, text/plain, */*"]>
  (<["User-Agent" :=
       "Mozilla/5.0 (iPhone; CPU iPhone OS 18_5 like Mac OS X) " +:+
       "AppleWebKit/605.1.15 (KHTML, like Gecko) Version/18.5 " +:+
       "Mobile/15E148 Safari/604.1"]>
  (<["Origin" := "https://web.okjike.com"]> ∅))).

Definition refresh_tokens (refresh_token : string) : M (gmap string string) :=
  resp <- requests_post (API_BASE +:+ "/app_auth_tokens.refresh")
            (<["x-jike-refresh-token" := refresh_token]>
             (<["Content-Type" := "application/json"]> HEADERS))
            {["json" := JObj ∅]} ;;
  raise_for_status resp ;;;
  ret (<["refresh_token" :=
           headers_get resp "x-jike-refresh-token" refresh_token]>
       (<["access_token" := headers_get resp "x-jike-access-token" ""]> ∅)).

(** The body of [for _ in range(timeout)], [n] iterations remaining.
    On a 200 the body is decoded without a guard and only the body is
    searched; the result is a dictionary, or [None] ([JNull]). *)
Fixpoint poll_loop (uuid : string) (n : nat) : M Json :=
  match n with
  | O => ret JNull
  | S n' =>
      r <- try_except
             (resp <- requests_get
                        (API_BASE +:+ "/sessions.wait_for_confirmation?uuid="
                         +:+ uuid) HEADERS ;;
              ret (Some resp))
             is_RequestException
             (sleep 1 ;;; ret None) ;;
      match r with
      | None => poll_loop uuid n'
      | Some resp =>
          if status_code resp =? 200 then
            body <- resp_json resp ;;
            access <- py_or (dict_get body "x-jike-access-token")
                        (dict_get body "access_token") ;;
            refresh <- py_or (dict_get body "x-jike-refresh-token")
                         (dict_get body "refresh_token") ;;
            if truthy access && truthy refresh then
              ret (JObj (<["refresh_token" := refresh]>
                         {["access_token" := access]}))
            else ret JNull
          else if status_code resp =? 400 then
            sleep 1 ;;;
            poll_loop uuid n'
          else
            sleep 1 ;;;
            poll_loop uuid n'
      end
  end.

Definition poll_confirmation (uuid : string) (timeout : Z) : M Json :=
  poll_loop uuid (Z.to_nat timeout).

End scripts_auth.

Module scripts_find_users.

Definition API_BASE : string := "https://api.ruguoapp.com".
Definition HEADERS : gmap string string :=
  <["DNT" := "1"]>
  (<["Accept" := "application/json, text/plain, */*"]>
  (<["User-Agent" :=
       "Mozilla/5.0 (iPhone; CPU iPhone OS 18_5 like Mac OS X) " +:+
       "AppleWebKit/605.1.15 (KHTML, like Gecko) Version/18.5 " +:+
       "Mobile/15E148 Safari/604.1"]>
  (<["Origin" := "https://web.okjike.com"]> ∅))).

Definition _refresh (rt : string) : M (string * string) :=
  resp <- requests_post (API_BASE +:+ "/app_auth_tokens.refresh")
            (<["x-jike-refresh-token" := rt]>
             (<["Content-Type" := "application/json"]> HEADERS))
            {["json" := JObj ∅]} ;;
  raise_for_status resp ;;;
  ret (headers_get resp "x-jike-access-token" "",
       headers_get resp "x-jike-refresh-token" rt).

(** [_call], with the depth of the call stack it may still use. *)
Fixpoint _call_rec (depth : nat) (meth path access_token refresh_token : string)
    (retry : bool) (kw : gmap string Json) : M (Json * string * string) :=
  match depth with
  | O => raise RecursionError
  | S depth' =>
      let hdrs :=
        <["x-jike-access-token" := access_token]>
        (<["Content-Type" := "application/json"]> HEADERS) in
      resp <- requests_request meth (API_BASE +:+ path) hdrs kw ;;
      if (status_code resp =? 401) && retry then
        new <- _refresh refresh_token ;;
        _call_rec depth' meth path new.1 new.2 false kw
      else
        raise_for_status resp ;;;
        data <- (if str_truthy (content resp) then resp_json resp
                 else ret (JObj ∅)) ;;
        ret (data, access_token, refresh_token)
  end.

Definition _call (meth path access_token refresh_token : string)
    (retry : bool) (kw : gmap string Json) : M (Json * string * string) :=
  _call_rec 2 meth path access_token refresh_token retry kw.

(** [fetch_profile]: the profile as a dictionary, or [None] ([JNull]) when
    the call raised [HTTPError]; either way with a token pair. *)
Definition fetch_profile (username at_ rt : string) : M (Json * string * string) :=
  try_except
    (res <- _call "GET" ("/1.0/users/profile?username=" +:+ username)
              at_ rt true ∅ ;;
     let '(data, at', rt') := res in
     user <- dict_get_or data "user" data ;;
     screen_name <- dict_get_or user "screenName" (JStr "") ;;
     bio <- dict_get_or user "bio" (JStr "") ;;
     followers_count <- dict_get_or user "followersCount" (JNum 0 1) ;;
     ret (JObj (<["followers_count" := followers_count]>
               (<["profile_url" := JStr ("https://okjike.com/u/" +:+ username)]>
               (<["bio" := if truthy bio then bio else JStr ""]>
               (<["screen_name" := screen_name]>
                {["username" := JStr username]})))),
          at', rt'))
    is_HTTPError
    (ret (JNull, at_, rt)).

(** *** Users of a list of posts

    A Python dict in insertion order, its keys compared as Python compares
    them: strings with strings, numbers and booleans by value. *)

Definition key_number (v : Json) : option (Z * positive) :=
  match v with
  | JNum n d => Some (n, d)
  | JBool b => Some (if b then 1 else 0, 1%positive)
  | _ => None
  end.

(** [a == b] for two hashable values. *)
Definition py_eq (a b : Json) : bool :=
  match a, b with
  | JStr x, JStr y => String.eqb x y
  | JNull, JNull => true
  | _, _ =>
      match key_number a, key_number b with
      | Some (n, d), Some (n', d') => n * Z.pos d' =? n' * Z.pos d
      | _, _ => false
      end
  end.

(** [k in d]: lists and dicts cannot be hashed. *)
Definition key_in (k : Json) (d : list (Json * Json)) : Outcome bool :=
  match k with
  | JArr _ | JObj _ => Raises TypeError
  | _ => Returns (existsb (py_eq k) (d.*1))
  end.

(** The body of [for post in posts], with the dict built so far. *)
Fixpoint users_loop (posts : list Json) (users : list (Json * Json))
    : Outcome (list (Json * Json)) :=
  match posts with
  | [] => Returns users
  | post :: rest =>
      user <-? get_or post "user" (JObj ∅) ;;
      if negb (truthy user) then users_loop rest users else
      a <-? get_or user "username" JNull ;;
      username <-? (if truthy a then Returns a else get_or user "id" JNull) ;;
      if negb (truthy username) then users_loop rest users else
      present <-? key_in username users ;;
      if present : bool then users_loop rest users else
      screen_name <-? get_or user "screenName" (JStr "") ;;
      users_loop rest
        (users ++ [(username,
                    JObj (<["screen_name" := screen_name]>
                          {["username" := username]}))])
  end.

Definition extract_users_from_posts (posts : list Json)
    : Outcome (list (Json * Json)) :=
  users_loop posts [].

End scripts_find_users.

Module scripts_export.

Definition API_BASE : string := "https://api.ruguoapp.com".
Definition HEADERS : gmap string string :=
  <["DNT" := "1"]>
  (<["Accept" := "application/json, text/plain, */*"]>
  (<["User-Agent" :=
       "Mozilla/5.0 (iPhone; CPU iPhone OS 18_5 like Mac OS X) " +:+
       "AppleWebKit/605.1.15 (KHTML, like Gecko) Version/18.5 " +:+
       "Mobile/15E148 Safari/604.1"]>
  (<["Origin" := "https://web.okjike.com"]> ∅))).

Definition _refresh_tokens (refresh_token : string) : M (string * string) :=
  resp <- requests_post (API_BASE +:+ "/app_auth_tokens.refresh")
            (<["x-jike-refresh-token" := refresh_token]>
             (<["Content-Type" := "application/json"]> HEADERS))
            {["json" := JObj ∅]} ;;
  raise_for_status resp ;;;
  ret (headers_get resp "x-jike-access-token" "",
       headers_get resp "x-jike-refresh-token" refresh_token).

(** [_api_call], with the depth of the call stack it may still use. *)
Fixpoint _api_call_rec (depth : nat) (meth path access_token refresh_token : string)
    (retry : bool) (kw : gmap string Json) : M (Json * string * string) :=
  match depth with
  | O => raise RecursionError
  | S depth' =>
      let hdrs :=
        <["x-jike-access-token" := access_token]>
        (<["Content-Type" := "application/json"]> HEADERS) in
      resp <- requests_request meth (API_BASE +:+ path) hdrs kw ;;
      if (status_code resp =? 401) && retry then
        new <- _refresh_tokens refresh_token ;;
        _api_call_rec depth' meth path new.1 new.2 false kw
      else
        raise_for_status resp ;;;
        data <- (if str_truthy (content resp) then resp_json resp
                 else ret (JObj ∅)) ;;
        ret (data, access_token, refresh_token)
  end.

Definition _api_call (meth path access_token refresh_token : string)
    (retry : bool) (kw : gmap string Json) : M (Json * string * string) :=
  _api_call_rec 2 meth path access_token refresh_token retry kw.

(** *** Reading a post *)

(** The body of [for pic in pictures] over a list. *)
Fixpoint pictures_loop (pictures : list Json) : Outcome (list Json) :=
  match pictures with
  | [] => Returns []
  | pic :: rest =>
      a <-? get_or pic "picUrl" JNull ;;
      url <-? (if truthy a then Returns a else
               b <-? get_or pic "middlePicUrl" JNull ;;
               if truthy b then Returns b else
               c <-? get_or pic "thumbnailUrl" JNull ;;
               Returns (or_else c (JStr ""))) ;;
      urls <-? pictures_loop rest ;;
      Returns (if truthy url then url :: urls else urls)
  end.

(** [_extract_pictures].  Iterating a non-empty dict or string yields
    strings, which have no [.get]; a number or [True] cannot be iterated. *)
Definition _extract_pictures (post : Json) : Outcome (list Json) :=
  v <-? get_or post "pictures" (JArr []) ;;
  match or_else v (JArr []) with
  | JArr pictures => pictures_loop pictures
  | JObj _ | JStr _ => Raises (Exn AttributeError)
  | JNum _ _ | JBool _ | JNull => Raises TypeError
  end.

Definition _extract_link (post : Json) : Outcome Json :=
  link <-? get_or post "linkInfo" JNull ;;
  if negb (truthy link) then Returns JNull else
  title <-? get_or link "title" (JStr "") ;;
  url_ <-? get_or link "linkUrl" (JStr "") ;;
  Returns (JObj (<["url" := url_]> {["title" := title]})).

Definition _extract_topic (post : Json) : Outcome Json :=
  topic <-? get_or post "topic" JNull ;;
  if negb (truthy topic) then Returns JNull else
  get_or topic "content" (JStr "").

Definition _extract_repost_target (post : Json) : Outcome Json :=
  target <-? get_or post "target" JNull ;;
  if negb (truthy target) then Returns JNull else
  user <-? get_or target "user" (JObj ∅) ;;
  content_ <-? get_or target "content" (JStr "") ;;
  username <-? get_or user "username" (JStr "unknown") ;;
  author <-? get_or user "screenName" username ;;
  pictures <-? _extract_pictures target ;;
  link <-? _extract_link target ;;
  id_ <-? get_or target "id" (JStr "") ;;
  type_ <-? get_or target "type" (JStr "") ;;
  Returns (JObj (<["type" := type_]>
                (<["id" := id_]>
                (<["link" := link]>
                (<["pictures" := JArr pictures]>
                (<["author" := author]>
                 {["content" := content_]})))))).

End scripts_export.

(* ===================================================================== *)
(** ** Vocabulary of the specification                                    *)
(* ===================================================================== *)

(** The authenticated call for [meth], [path] and body [kw] under the
    pair [tp]: the access token travels in a header. *)
Definition api_request (meth path : string) (tp : TokenPair)
    (kw : gmap string Json) : Request :=
  mkRequest meth (API_BASE +:+ path)
    (jike_client.build_headers "x-jike-access-token" (access_token tp)) kw.

(** The call to the refresh endpoint under the pair [tp]. *)
Definition refresh_request (tp : TokenPair) : Request :=
  mkRequest "POST" (API_BASE +:+ "/app_auth_tokens.refresh")
    (jike_client.build_headers "x-jike-refresh-token" (refresh_token tp))
    {["json" := JObj ∅]}.

(** The poll of the confirmation endpoint for a session. *)
Definition poll_request (uuid : string) : Request :=
  mkRequest "GET" (API_BASE +:+ jike_auth.wait_path uuid) DEFAULT_HEADERS ∅.

(** The pair a refresh answered by [resp] leaves behind [prior]: a token
    the response names replaces the old one, the other stays. *)
Definition refreshed (prior : TokenPair) (resp : Response) : TokenPair :=
  mkTokenPair
    (default (access_token prior) (resp_headers resp !! "x-jike-access-token"))
    (default (refresh_token prior) (resp_headers resp !! "x-jike-refresh-token")).

(** "Any field not returned is carried over unchanged from the prior
    pair." *)
Definition carries_over (prior new : TokenPair) (resp : Response) : Prop :=
  (resp_headers resp !! "x-jike-access-token" = None ->
   access_token new = access_token prior) /\
  (resp_headers resp !! "x-jike-refresh-token" = None ->
   refresh_token new = refresh_token prior).

(** "A successful response with an empty body yields an empty result
    structure; otherwise the body is parsed as structured data and returned
    verbatim."  Parsing can fail, hence the [Result]. *)
Definition parsed_body (r : Response) : Result Json :=
  if bool_decide (content r = "") then Ok (JObj ∅)
  else match json_body r with
       | Some j => Ok j
       | None => Raise ValueError
       end.

(** The dictionary token extraction reads: the decoded body when it is an
    object, the empty dictionary when the body does not decode. *)
Definition body_dict (resp : Response) : option (gmap string Json) :=
  match json_body resp with
  | None => Some ∅
  | Some (JObj d) => Some d
  | Some _ => None
  end.

(** "Taking the first value present": the first candidate, in the order
    given, that exists and is not empty (Python-true). *)
Fixpoint first_present (candidates : list (option Json)) : option Json :=
  match candidates with
  | [] => None
  | Some v :: rest => if truthy v then Some v else first_present rest
  | None :: rest => first_present rest
  end.

(** The candidates for a token, in the order of the specification: primary
    body field, alternate body field, response header. *)
Definition token_candidates (resp : Response) (d : gmap string Json)
    (primary alternate header : string) : list (option Json) :=
  [d !! primary; d !! alternate; JStr <$> (resp_headers resp !! header)].

(** The world a successful refresh leaves: one more call in the log, a new
    object in the heap, and the client attribute pointing at it. *)
Definition after_refresh (w : World) (tp : TokenPair) (resp : Response) : World :=
  let l := fresh (dom (heap w)) in
  set_client_tokens l
    (set_heap (<[l := refreshed tp resp]> (heap w))
       (set_log (log w ++ [refresh_request tp]) w)).

(** What a refresh helper of the standalone scripts hands back when the
    caller held the refresh token [rt]: the scripts pass the helper the
    refresh token only. *)
Definition script_refreshed (rt : string) (resp : Response) : string * string :=
  (default "" (resp_headers resp !! "x-jike-access-token"),
   default rt (resp_headers resp !! "x-jike-refresh-token")).

(** The world a [TokenPair(...)] call leaves. *)
Definition after_new (w : World) (tp : TokenPair) : World :=
  set_heap (<[fresh (dom (heap w)) := tp]> (heap w)) w.

(** *** Concrete worlds used to exercise the statements *)

(** A server that answers the n-th call with the n-th entry of a script,
    whatever is asked, the way a mock with a list of side effects does. *)
Definition scripted (script : list NetResult) : list Request -> Request -> NetResult :=
  fun lg _ => nth (length lg) script NetFail.

(** A server that always gives the same answer. *)
Definition constant_server (r : Response) : list Request -> Request -> NetResult :=
  fun _ _ => Resp r.

(** A world whose client holds [tp] and in which nothing has happened. *)
Definition initial_world (tp : TokenPair)
    (srv : list Request -> Request -> NetResult) : World :=
  mkWorld {[0%nat := tp]} 0%nat srv [] [].

Definition tp_a1_r1 : TokenPair := mkTokenPair "a1" "r1".

Definition resp_status (s : Z) : Response := mkResponse s ∅ "" None.

Definition resp_ok_data : Response :=
  mkResponse 200 ∅ "{data: ok}" (Some (JObj {["data" := JStr "ok"]})).

(** A refresh answer that exposes only a new access token. *)
Definition resp_only_access_a2 : Response :=
  mkResponse 200 {["x-jike-access-token" := "a2"]} "" None.

(** A refresh answer that exposes only a new refresh token. *)
Definition resp_only_refresh_r2 : Response :=
  mkResponse 200 {["x-jike-refresh-token" := "r2"]} "" None.

(** A confirmation answer whose body is a JSON array. *)
Definition resp_array_body : Response :=
  mkResponse 200 ∅ "[]" (Some (JArr [])).

(** A confirmation answer with the access token in the body and the
    refresh token in a header. *)
Definition resp_mixed_sources : Response :=
  mkResponse 200 {["x-jike-refresh-token" := "hr"]} "{}"
    (Some (JObj {["x-jike-access-token" := JStr "ba"]})).

(** Stand-ins for the interpreter's hash functions. *)
Definition toy_hash_str (s : string) : Z := Z.of_nat (String.length s).
Definition toy_hash_tuple (hs : list Z) : Z := foldr Z.add 0 hs.

(** A world with two equal pairs at different addresses; the client holds
    the first. *)
Definition two_pairs_world (srv : list Request -> Request -> NetResult) : World :=
  mkWorld (<[1%nat := tp_a1_r1]> {[0%nat := tp_a1_r1]}) 0%nat srv [] [].

(** The two calls the [notifications] command makes. *)
Definition unread_request (tp : TokenPair) : Request :=
  api_request "GET" "/1.0/notifications/unread" tp ∅.
Definition list_request (tp : TokenPair) : Request :=
  api_request "POST" "/1.0/notifications/list" tp {["json" := JObj ∅]}.

(** What a call returns for a response that is not an error. *)
Definition with_tokens (r : Result Json) (access refresh : string)
    : Result (Json * string * string) :=
  match r with
  | Ok j => Ok (j, access, refresh)
  | Raise e => Raise e
  end.

(** The fixed text around the session identifier in the QR payload. *)
Definition qr_prefix : string :=
  "jike://page.jk/web?url=https%3A%2F%2Fwww.okjike.com%2Faccount%2Fscan%3Fuuid%3D".
Definition qr_suffix : string := "&displayHeader=false&displayFooter=false".

(** A byte that may appear in a percent-encoded text: always safe, or the
    percent sign. *)
Definition percent_encoded_byte (c : Ascii.ascii) : bool :=
  jike_auth._ALWAYS_SAFE c || Ascii.eqb c (Ascii.ascii_of_N 37).

Fixpoint all_bytes (p : Ascii.ascii -> bool) (s : string) : bool :=
  match s with
  | EmptyString => true
  | String c s' => p c && all_bytes p s'
  end.

(** The value of a hexadecimal digit written by [hex_digit]. *)
Definition hex_value (c : Ascii.ascii) : N :=
  let n := Ascii.N_of_ascii c in
  (if n <? 65 then n - 48 else n - 55)%N.

(** Percent-decoding, the inverse of [quote] on its image. *)
Fixpoint percent_decode (fuel : nat) (s : string) : string :=
  match fuel with
  | O => EmptyString
  | S fuel' =>
      match s with
      | EmptyString => EmptyString
      | String c rest =>
          if Ascii.eqb c (Ascii.ascii_of_N 37) then
            match rest with
            | String h (String l rest') =>
                String (Ascii.ascii_of_N (16 * hex_value h + hex_value l))
                  (percent_decode fuel' rest')
            | _ => String c (percent_decode fuel' rest)
            end
          else String c (percent_decode fuel' rest)
      end
  end.

(** The call that creates a login session. *)
Definition create_request : Request :=
  mkRequest "POST" (API_BASE +:+ "/sessions.create")
    (<["Content-Type" := "application/json"]> DEFAULT_HEADERS) ∅.

(** A session-creation answer carrying an identifier. *)
Definition resp_session (uuid : string) : Response :=
  mkResponse 200 ∅ "{uuid}" (Some (JObj {["uuid" := JStr uuid]})).

(** A confirmation answer with both tokens in the body. *)
Definition resp_tokens_in_body : Response :=
  mkResponse 200 ∅ "{tokens}"
    (Some (JObj (<["x-jike-refresh-token" := JStr "r1"]>
                 {["x-jike-access-token" := JStr "a1"]}))).

(** A process that has printed nothing, without the [qrcode] module. *)
Definition initial_process (w : World) : Process := mkProcess w [] None.

(** The URL chosen for a picture: the first present among the full-size,
    the medium and the thumbnail one. *)
Definition picture_url (pic : gmap string Json) : option Json :=
  first_present [pic !! "picUrl"; pic !! "middlePicUrl"; pic !! "thumbnailUrl"].

(** A confirmation answer with both tokens in headers and an empty JSON
    object as body. *)
Definition resp_tokens_in_headers : Response :=
  mkResponse 200
    (<["x-jike-refresh-token" := "hr"]> {["x-jike-access-token" := "ha"]})
    "{}" (Some (JObj ∅)).

(** The same with a body that is not JSON. *)
Definition resp_tokens_in_headers_no_json : Response :=
  mkResponse 200
    (<["x-jike-refresh-token" := "hr"]> {["x-jike-access-token" := "ha"]})
    "OK" None.

(** No key of the dict equals, as Python compares, a key inserted before
    it; and every key is a true value. *)
Inductive keys_distinct : list (Json * Json) -> Prop :=
  | keys_distinct_nil : keys_distinct []
  | keys_distinct_snoc d k v :
      keys_distinct d ->
      existsb (scripts_find_users.py_eq k) (d.*1) = false ->
      truthy k = true ->
      keys_distinct (d ++ [(k, v)]).

(** The key under which a user object is filed, [username] or else [id],
    and the entry stored for it. *)
Definition user_key (d : gmap string Json) : Json :=
  or_else (default JNull (d !! "username")) (default JNull (d !! "id")).

Definition user_entry (d : gmap string Json) : Json :=
  JObj (<["screen_name" := default (JStr "") (d !! "screenName")]>
        {["username" := user_key d]}).

(** The user object of a post, when the post names a user: its [user] is
    an object with a true [username] or [id]. *)
Definition post_user (post : Json) : option (gmap string Json) :=
  match post with
  | JObj p =>
      match p !! "user" with
      | Some (JObj d) => if truthy (user_key d) then Some d else None
      | _ => None
      end
  | _ => None
  end.

(** A computation that reads the world and leaves it as it found it. *)
Definition pure_comp {A} (c : M A) : Prop := forall w, (c w).2 = w.

(** The outcome of one poll is "not yet": a transport failure or a status
    other than 200. *)
Definition not_yet (out : NetResult) : Prop :=
  match out with
  | NetFail => True
  | Resp r => status_code r <> 200
  end.

(** The world after [polls] polls of [uuid] and [pauses] pauses. *)
Definition after_polls (w : World) (uuid : string) (polls pauses : nat) : World :=
  set_sleeps (sleeps w ++ replicate pauses jike_auth.POLL_INTERVAL_SEC)
    (set_log (log w ++ replicate polls (poll_request uuid)) w).

(* ===================================================================== *)
(** ** Running the monad                                                  *)
(* ===================================================================== *)

Lemma bind_ok {A B} (c : M A) (k : A -> M B) w a w' :
  c w = (Ok a, w') -> bind c k w = k a w'.
Proof. intros H. unfold bind. now rewrite H. Qed.

Lemma bind_raise {A B} (c : M A) (k : A -> M B) w e w' :
  c w = (Raise e, w') -> bind c k w = (Raise e, w').
Proof. intros H. unfold bind. now rewrite H. Qed.

Lemma deref_ok w l tp : heap w !! l = Some tp -> deref l w = (Ok tp, w).
Proof. intros H. unfold deref. now rewrite H. Qed.

Lemma requests_request_resp w meth u hdrs kw r :
  server w (log w) (mkRequest meth u hdrs kw) = Resp r ->
  requests_request meth u hdrs kw w
  = (Ok r, set_log (log w ++ [mkRequest meth u hdrs kw]) w).
Proof. intros H. unfold requests_request. now rewrite H. Qed.

Lemma raise_for_status_ok resp w :
  is_error_status (status_code resp) = false ->
  raise_for_status resp w = (Ok tt, w).
Proof. intros H. unfold raise_for_status. now rewrite H. Qed.

Lemma raise_for_status_error resp w :
  is_error_status (status_code resp) = true ->
  raise_for_status resp w = (Raise (HTTPError resp), w).
Proof. intros H. unfold raise_for_status. now rewrite H. Qed.

Lemma status_401_is_error s : s = 401 -> is_error_status s = true.
Proof. intros ->. reflexivity. Qed.

Lemma headers_get_default resp k dflt :
  headers_get resp k dflt = default dflt (resp_headers resp !! k).
Proof. reflexivity. Qed.

(** *** The client's primitives *)

Lemma self_tokens_ok w tp :
  heap w !! client_tokens w = Some tp ->
  jike_client.self_tokens w = (Ok tp, w).
Proof. intros H. unfold jike_client.self_tokens. now apply deref_ok. Qed.

Lemma _headers_ok w tp :
  heap w !! client_tokens w = Some tp ->
  jike_client._headers w
  = (Ok (jike_client.build_headers "x-jike-access-token" (access_token tp)), w).
Proof.
  intros H. unfold jike_client._headers.
  now rewrite (bind_ok _ _ _ _ _ (self_tokens_ok _ _ H)).
Qed.

Lemma _refresh_ok w tp resp :
  heap w !! client_tokens w = Some tp ->
  server w (log w) (refresh_request tp) = Resp resp ->
  is_error_status (status_code resp) = false ->
  jike_client._refresh w = (Ok tt, after_refresh w tp resp).
Proof.
  intros Htp Hsrv Hst. unfold jike_client._refresh.
  rewrite (bind_ok _ _ _ _ _ (self_tokens_ok _ _ Htp)).
  unfold requests_post.
  rewrite (bind_ok _ _ _ _ _ (requests_request_resp _ _ _ _ _ _ Hsrv)).
  rewrite (bind_ok _ _ _ _ _ (raise_for_status_ok _ _ Hst)).
  set (w1 := set_log _ w).
  assert (Htp1 : heap w1 !! client_tokens w1 = Some tp) by exact Htp.
  rewrite (bind_ok _ _ _ _ _ (self_tokens_ok _ _ Htp1)).
  rewrite (bind_ok _ _ _ _ _ (self_tokens_ok _ _ Htp1)).
  reflexivity.
Qed.

Lemma _refresh_error w tp resp :
  heap w !! client_tokens w = Some tp ->
  server w (log w) (refresh_request tp) = Resp resp ->
  is_error_status (status_code resp) = true ->
  jike_client._refresh w
  = (Raise (HTTPError resp), set_log (log w ++ [refresh_request tp]) w).
Proof.
  intros Htp Hsrv Hst. unfold jike_client._refresh.
  rewrite (bind_ok _ _ _ _ _ (self_tokens_ok _ _ Htp)).
  unfold requests_post.
  rewrite (bind_ok _ _ _ _ _ (requests_request_resp _ _ _ _ _ _ Hsrv)).
  now rewrite (bind_raise _ _ _ _ _ (raise_for_status_error _ _ Hst)).
Qed.

Lemma body_or_empty_parsed resp w :
  jike_client.body_or_empty resp w = (parsed_body resp, w).
Proof.
  unfold jike_client.body_or_empty, parsed_body, resp_json.
  destruct (content resp) as [|c s]; case_bool_decide as Hc;
    try discriminate Hc; try (exfalso; now apply Hc); simpl.
  - reflexivity.
  - now destruct (json_body resp).
Qed.

(** One frame of [_request]: the call is issued, then the status decides. *)
Lemma _request_rec_step depth meth path retry kw w tp r :
  heap w !! client_tokens w = Some tp ->
  server w (log w) (api_request meth path tp kw) = Resp r ->
  jike_client._request_rec (S depth) meth path retry kw w
  = (if (status_code r =? 401) && retry
     then jike_client._refresh ;;;
          jike_client._request_rec depth meth path false kw
     else raise_for_status r ;;; jike_client.body_or_empty r)
      (set_log (log w ++ [api_request meth path tp kw]) w).
Proof.
  intros Htp Hsrv. simpl.
  rewrite (bind_ok _ _ _ _ _ (_headers_ok _ _ Htp)).
  now rewrite (bind_ok _ _ _ _ _ (requests_request_resp _ _ _ _ _ _ Hsrv)).
Qed.

(** Without the retry flag a frame never calls itself, so the stack budget
    beyond one frame does not matter... *)
Lemma _request_rec_no_retry depth depth' meth path kw w :
  jike_client._request_rec (S depth) meth path false kw w
  = jike_client._request_rec (S depth') meth path false kw w.
Proof.
  simpl. unfold bind.
  destruct (jike_client._headers w) as [[hdrs|e] w1]; [|reflexivity].
  destruct (requests_request _ _ _ _ w1) as [[resp|e] w2]; [|reflexivity].
  now rewrite andb_false_r.
Qed.

(** ... and with it, beyond two: [_request] never exhausts its budget. *)
Lemma _request_rec_depth_irrelevant depth meth path retry kw w :
  jike_client._request_rec (S (S depth)) meth path retry kw w
  = jike_client._request meth path retry kw w.
Proof.
  unfold jike_client._request.
  change (jike_client._request_rec (S (S depth)) meth path retry kw w)
    with ((hdrs <- jike_client._headers ;;
           resp <- requests_request meth (API_BASE +:+ path) hdrs kw ;;
           if (status_code resp =? 401) && retry
           then jike_client._refresh ;;;
                jike_client._request_rec (S depth) meth path false kw
           else raise_for_status resp ;;; jike_client.body_or_empty resp) w).
  change (jike_client._request_rec 2 meth path retry kw w)
    with ((hdrs <- jike_client._headers ;;
           resp <- requests_request meth (API_BASE +:+ path) hdrs kw ;;
           if (status_code resp =? 401) && retry
           then jike_client._refresh ;;;
                jike_client._request_rec 1 meth path false kw
           else raise_for_status resp ;;; jike_client.body_or_empty resp) w).
  unfold bind.
  destruct (jike_client._headers w) as [[hdrs|e] w1]; [|reflexivity].
  destruct (requests_request _ _ _ _ w1) as [[resp|e] w2]; [|reflexivity].
  destruct ((status_code resp =? 401) && retry); [|reflexivity].
  destruct (jike_client._refresh w2) as [[[]|e] w3]; [|reflexivity].
  apply _request_rec_no_retry.
Qed.

(** No primitive raises [RecursionError]; neither does [_request]. *)
Lemma bind_never {A B} (c : M A) (k : A -> M B) w e :
  fst (c w) <> Raise e ->
  (forall a w', fst (k a w') <> Raise e) ->
  fst (bind c k w) <> Raise e.
Proof.
  intros Hc Hk. unfold bind.
  destruct (c w) as [[a|e'] w']; [apply Hk |].
  simpl in *. intros [= ->]. now apply Hc.
Qed.

Lemma self_tokens_never w : fst (jike_client.self_tokens w) <> Raise RecursionError.
Proof.
  unfold jike_client.self_tokens, deref.
  destruct (heap w !! client_tokens w); discriminate.
Qed.

Lemma requests_request_never meth u hdrs kw w :
  fst (requests_request meth u hdrs kw w) <> Raise RecursionError.
Proof. unfold requests_request. destruct (server w _ _); discriminate. Qed.

Lemma raise_for_status_never resp w :
  fst (raise_for_status resp w) <> Raise RecursionError.
Proof.
  unfold raise_for_status. destruct (is_error_status _); discriminate.
Qed.

Lemma body_or_empty_never resp w :
  fst (jike_client.body_or_empty resp w) <> Raise RecursionError.
Proof.
  rewrite body_or_empty_parsed. unfold parsed_body. simpl.
  case_bool_decide; [discriminate|]. destruct (json_body resp); discriminate.
Qed.

Lemma _refresh_never w : fst (jike_client._refresh w) <> Raise RecursionError.
Proof.
  unfold jike_client._refresh.
  apply bind_never; [apply self_tokens_never | intros tp w1].
  apply bind_never; [apply requests_request_never | intros resp w2].
  apply bind_never; [apply raise_for_status_never | intros _ w3].
  apply bind_never; [apply self_tokens_never | intros tpa w4].
  apply bind_never; [apply self_tokens_never | intros tpr w5].
  apply bind_never; [discriminate | intros l w6; discriminate].
Qed.

Lemma _request_rec_no_retry_never depth meth path kw w :
  fst (jike_client._request_rec (S depth) meth path false kw w)
  <> Raise RecursionError.
Proof.
  simpl.
  apply bind_never; [| intros hdrs w1].
  { unfold jike_client._headers.
    apply bind_never; [apply self_tokens_never | discriminate]. }
  apply bind_never; [apply requests_request_never | intros resp w2].
  rewrite andb_false_r.
  apply bind_never; [apply raise_for_status_never | intros _ w3].
  apply body_or_empty_never.
Qed.

Lemma _request_never_exhausts meth path retry kw w :
  fst (jike_client._request meth path retry kw w) <> Raise RecursionError.
Proof.
  destruct retry; [| apply _request_rec_no_retry_never].
  unfold jike_client._request.
  change (jike_client._request_rec 2 meth path true kw w)
    with ((hdrs <- jike_client._headers ;;
           resp <- requests_request meth (API_BASE +:+ path) hdrs kw ;;
           if (status_code resp =? 401) && true
           then jike_client._refresh ;;;
                jike_client._request_rec 1 meth path false kw
           else raise_for_status resp ;;; jike_client.body_or_empty resp) w).
  apply bind_never; [| intros hdrs w1].
  { unfold jike_client._headers.
    apply bind_never; [apply self_tokens_never | discriminate]. }
  apply bind_never; [apply requests_request_never | intros resp w2].
  destruct ((status_code resp =? 401) && true).
  - apply bind_never; [apply _refresh_never | intros _ w3].
    apply _request_rec_no_retry_never.
  - apply bind_never; [apply raise_for_status_never | intros _ w3].
    apply body_or_empty_never.
Qed.

(* ===================================================================== *)
(** ** The authenticated request executor                                 *)
(* ===================================================================== *)

(** C3.  An authenticated request answered with an error status other than
    401 raises the [HTTPError] of that very response at once: the world
    afterwards differs from the one before by exactly one logged call, the
    original request; no second request and no refresh call is made, and
    the client's pair is untouched.  This holds with and without the retry
    flag. *)
Theorem request_non_401_error_surfaces
    (w : World) (tp : TokenPair) (meth path : string) (retry : bool)
    (kw : gmap string Json) (r : Response) :
  heap w !! client_tokens w = Some tp ->
  server w (log w) (api_request meth path tp kw) = Resp r ->
  is_error_status (status_code r) = true ->
  status_code r <> 401 ->
  jike_client._request meth path retry kw w
  = (Raise (HTTPError r),
     set_log (log w ++ [api_request meth path tp kw]) w).
Proof.
  intros Htp Hsrv Herr Hne. unfold jike_client._request.
  rewrite (_request_rec_step _ _ _ _ _ _ _ _ Htp Hsrv).
  apply Z.eqb_neq in Hne. rewrite Hne. simpl.
  now rewrite (bind_raise _ _ _ _ _ (raise_for_status_error _ _ Herr)).
Qed.

Lemma request_non_401_error_surfaces_witness :
  jike_client._request "GET" "/test" true ∅
    (initial_world tp_a1_r1 (constant_server (resp_status 500)))
  = (Raise (HTTPError (resp_status 500)),
     set_log [api_request "GET" "/test" tp_a1_r1 ∅]
       (initial_world tp_a1_r1 (constant_server (resp_status 500)))).
Proof.
  apply (request_non_401_error_surfaces
           (initial_world tp_a1_r1 (constant_server (resp_status 500)))
           tp_a1_r1 "GET" "/test" true ∅ (resp_status 500)).
  - reflexivity.
  - reflexivity.
  - reflexivity.
  - discriminate.
Defined.

(** C7.  When the first answer is 401 and the refresh endpoint answers
    with an error status, the caller of the original request receives the
    [HTTPError] of the refresh response.  The log shows the original
    request and the refresh call and nothing after them: the original
    request is not reissued. *)
Theorem refresh_failure_propagates
    (w : World) (tp : TokenPair) (meth path : string)
    (kw : gmap string Json) (r1 rr : Response) :
  heap w !! client_tokens w = Some tp ->
  server w (log w) (api_request meth path tp kw) = Resp r1 ->
  status_code r1 = 401 ->
  server w (log w ++ [api_request meth path tp kw]) (refresh_request tp)
  = Resp rr ->
  is_error_status (status_code rr) = true ->
  jike_client._request meth path true kw w
  = (Raise (HTTPError rr),
     set_log (log w ++ [api_request meth path tp kw; refresh_request tp]) w).
Proof.
  intros Htp Hsrv H401 Hsrv2 Herr. unfold jike_client._request.
  rewrite (_request_rec_step _ _ _ _ _ _ _ _ Htp Hsrv).
  rewrite H401. simpl.
  set (w1 := set_log _ w).
  rewrite (bind_raise _ _ w1 _ _ (_refresh_error w1 tp rr Htp Hsrv2 Herr)).
  subst w1. unfold set_log. simpl. now rewrite <- app_assoc.
Qed.

Lemma refresh_failure_propagates_witness :
  jike_client._request "GET" "/test" true ∅
    (initial_world tp_a1_r1
       (scripted [Resp (resp_status 401); Resp (resp_status 403)]))
  = (Raise (HTTPError (resp_status 403)),
     set_log [api_request "GET" "/test" tp_a1_r1 ∅; refresh_request tp_a1_r1]
       (initial_world tp_a1_r1
          (scripted [Resp (resp_status 401); Resp (resp_status 403)]))).
Proof.
  apply (refresh_failure_propagates
           (initial_world tp_a1_r1
              (scripted [Resp (resp_status 401); Resp (resp_status 403)]))
           tp_a1_r1 "GET" "/test" ∅ (resp_status 401) (resp_status 403));
    reflexivity.
Defined.

(** C9.  When the refresh endpoint answers with an error status,
    [_refresh] raises before any assignment: the client attribute points
    where it did, the heap is the same, and the pair read through the
    attribute is the prior one. *)
Theorem refresh_failure_keeps_tokens
    (w : World) (tp : TokenPair) (rr : Response) :
  heap w !! client_tokens w = Some tp ->
  server w (log w) (refresh_request tp) = Resp rr ->
  is_error_status (status_code rr) = true ->
  exists w',
    jike_client._refresh w = (Raise (HTTPError rr), w') /\
    client_tokens w' = client_tokens w /\
    heap w' = heap w /\
    heap w' !! client_tokens w' = Some tp.
Proof.
  intros Htp Hsrv Herr. eexists. split.
  - exact (_refresh_error w tp rr Htp Hsrv Herr).
  - simpl. auto.
Qed.

Lemma refresh_failure_keeps_tokens_witness :
  exists w',
    jike_client._refresh
      (initial_world tp_a1_r1 (constant_server (resp_status 403)))
    = (Raise (HTTPError (resp_status 403)), w') /\
    client_tokens w' = 0%nat /\
    heap w' = {[0%nat := tp_a1_r1]} /\
    heap w' !! client_tokens w' = Some tp_a1_r1.
Proof.
  apply (refresh_failure_keeps_tokens
           (initial_world tp_a1_r1 (constant_server (resp_status 403)))
           tp_a1_r1 (resp_status 403));
    reflexivity.
Defined.

(** C1.  First answer 401, refresh accepted, reissued request answered
    without an error status: the log gains exactly three calls, in this
    order: the original request, one refresh call, and the original request
    again with the same method, path and body and with the access token of
    the refreshed pair in its header.  The result is the parsed body of the
    second response (the empty dictionary for an empty body, the decoded
    body otherwise), and the client holds the refreshed pair. *)
Theorem request_401_then_success
    (w : World) (tp : TokenPair) (meth path : string)
    (kw : gmap string Json) (r1 rr r2 : Response) :
  heap w !! client_tokens w = Some tp ->
  server w (log w) (api_request meth path tp kw) = Resp r1 ->
  status_code r1 = 401 ->
  server w (log w ++ [api_request meth path tp kw]) (refresh_request tp)
  = Resp rr ->
  is_error_status (status_code rr) = false ->
  server w (log w ++ [api_request meth path tp kw; refresh_request tp])
    (api_request meth path (refreshed tp rr) kw)
  = Resp r2 ->
  is_error_status (status_code r2) = false ->
  exists w',
    jike_client._request meth path true kw w = (parsed_body r2, w') /\
    log w' = (log w ++ [api_request meth path tp kw;
                        refresh_request tp;
                        api_request meth path (refreshed tp rr) kw])%list /\
    method (api_request meth path (refreshed tp rr) kw) = meth /\
    url (api_request meth path (refreshed tp rr) kw) = API_BASE +:+ path /\
    kwargs (api_request meth path (refreshed tp rr) kw) = kw /\
    headers (api_request meth path (refreshed tp rr) kw)
      !! "x-jike-access-token" = Some (access_token (refreshed tp rr)) /\
    heap w' !! client_tokens w' = Some (refreshed tp rr).
Proof.
  intros Htp Hsrv H401 Hsrv2 Hok Hsrv3 Hok2. unfold jike_client._request.
  rewrite (_request_rec_step _ _ _ _ _ _ _ _ Htp Hsrv).
  rewrite H401, Z.eqb_refl. change (true && true) with true. cbv iota.
  set (w1 := set_log _ w).
  rewrite (bind_ok _ _ w1 _ _ (_refresh_ok w1 tp rr Htp Hsrv2 Hok)).
  set (w2 := after_refresh w1 tp rr).
  assert (Htp2 : heap w2 !! client_tokens w2 = Some (refreshed tp rr)).
  { subst w2. unfold after_refresh. simpl. apply lookup_insert_eq. }
  assert (Hlog2 : log w2 = (log w ++ [api_request meth path tp kw; refresh_request tp])%list).
  { subst w2 w1. unfold after_refresh. simpl. now rewrite <- app_assoc. }
  assert (Hsrv3' : server w2 (log w2) (api_request meth path (refreshed tp rr) kw) = Resp r2).
  { rewrite Hlog2. exact Hsrv3. }
  clearbody w2.
  rewrite (_request_rec_step _ _ _ _ _ _ _ _ Htp2 Hsrv3').
  rewrite andb_false_r.
  rewrite (bind_ok _ _ _ _ _ (raise_for_status_ok _ _ Hok2)).
  rewrite body_or_empty_parsed.
  eexists. split; [reflexivity|].
  split; [| split; [reflexivity | split; [reflexivity | split; [reflexivity | split]]]].
  - simpl. rewrite Hlog2. now rewrite <- app_assoc.
  - unfold api_request, jike_client.build_headers. simpl. apply lookup_insert_eq.
  - exact Htp2.
Qed.

Lemma request_401_then_success_witness :
  exists w',
    jike_client._request "GET" "/test" true ∅
      (initial_world tp_a1_r1
         (scripted [Resp (resp_status 401); Resp resp_only_access_a2;
                    Resp resp_ok_data]))
    = (Ok (JObj {["data" := JStr "ok"]}), w') /\
    log w' = [api_request "GET" "/test" tp_a1_r1 ∅;
              refresh_request tp_a1_r1;
              api_request "GET" "/test" (mkTokenPair "a2" "r1") ∅] /\
    method (api_request "GET" "/test" (mkTokenPair "a2" "r1") ∅) = "GET" /\
    url (api_request "GET" "/test" (mkTokenPair "a2" "r1") ∅)
    = API_BASE +:+ "/test" /\
    kwargs (api_request "GET" "/test" (mkTokenPair "a2" "r1") ∅) = ∅ /\
    headers (api_request "GET" "/test" (mkTokenPair "a2" "r1") ∅)
      !! "x-jike-access-token" = Some "a2" /\
    heap w' !! client_tokens w' = Some (mkTokenPair "a2" "r1").
Proof.
  apply (request_401_then_success
           (initial_world tp_a1_r1
              (scripted [Resp (resp_status 401); Resp resp_only_access_a2;
                         Resp resp_ok_data]))
           tp_a1_r1 "GET" "/test" ∅
           (resp_status 401) resp_only_access_a2 resp_ok_data);
    reflexivity.
Defined.

(** C2.  First answer 401, refresh accepted, reissued request answered 401
    again: [_request] raises the [HTTPError] of the second 401.  The log
    gains exactly the original request, one refresh call and the reissued
    request; nothing follows. *)
Theorem request_401_twice_raises
    (w : World) (tp : TokenPair) (meth path : string)
    (kw : gmap string Json) (r1 rr r2 : Response) :
  heap w !! client_tokens w = Some tp ->
  server w (log w) (api_request meth path tp kw) = Resp r1 ->
  status_code r1 = 401 ->
  server w (log w ++ [api_request meth path tp kw]) (refresh_request tp)
  = Resp rr ->
  is_error_status (status_code rr) = false ->
  server w (log w ++ [api_request meth path tp kw; refresh_request tp])
    (api_request meth path (refreshed tp rr) kw)
  = Resp r2 ->
  status_code r2 = 401 ->
  exists w',
    jike_client._request meth path true kw w = (Raise (HTTPError r2), w') /\
    log w' = (log w ++ [api_request meth path tp kw;
                        refresh_request tp;
                        api_request meth path (refreshed tp rr) kw])%list.
Proof.
  intros Htp Hsrv H401 Hsrv2 Hok Hsrv3 H401'. unfold jike_client._request.
  rewrite (_request_rec_step _ _ _ _ _ _ _ _ Htp Hsrv).
  rewrite H401, Z.eqb_refl. change (true && true) with true. cbv iota.
  set (w1 := set_log _ w).
  rewrite (bind_ok _ _ w1 _ _ (_refresh_ok w1 tp rr Htp Hsrv2 Hok)).
  set (w2 := after_refresh w1 tp rr).
  assert (Htp2 : heap w2 !! client_tokens w2 = Some (refreshed tp rr)).
  { subst w2. unfold after_refresh. simpl. apply lookup_insert_eq. }
  assert (Hlog2 : log w2 = (log w ++ [api_request meth path tp kw; refresh_request tp])%list).
  { subst w2 w1. unfold after_refresh. simpl. now rewrite <- app_assoc. }
  assert (Hsrv3' : server w2 (log w2) (api_request meth path (refreshed tp rr) kw) = Resp r2).
  { rewrite Hlog2. exact Hsrv3. }
  clearbody w2.
  rewrite (_request_rec_step _ _ _ _ _ _ _ _ Htp2 Hsrv3').
  rewrite andb_false_r.
  rewrite (bind_raise _ _ _ _ _
             (raise_for_status_error _ _ (status_401_is_error _ H401'))).
  eexists. split; [reflexivity|].
  simpl. rewrite Hlog2. now rewrite <- app_assoc.
Qed.

Lemma request_401_twice_raises_witness :
  exists w',
    jike_client._request "GET" "/test" true ∅
      (initial_world tp_a1_r1
         (scripted [Resp (resp_status 401); Resp resp_only_access_a2;
                    Resp (resp_status 401)]))
    = (Raise (HTTPError (resp_status 401)), w') /\
    log w' = [api_request "GET" "/test" tp_a1_r1 ∅;
              refresh_request tp_a1_r1;
              api_request "GET" "/test" (mkTokenPair "a2" "r1") ∅].
Proof.
  apply (request_401_twice_raises
           (initial_world tp_a1_r1
              (scripted [Resp (resp_status 401); Resp resp_only_access_a2;
                         Resp (resp_status 401)]))
           tp_a1_r1 "GET" "/test" ∅
           (resp_status 401) resp_only_access_a2 (resp_status 401));
    reflexivity.
Defined.

(* ===================================================================== *)
(** ** The standalone refresh of [auth.py]                                *)
(* ===================================================================== *)

(** [_post] with the refresh-token header builds the very request the
    client method sends. *)
Lemma _post_refresh_request w tp :
  jike_auth._post "/app_auth_tokens.refresh"
    (Some {["x-jike-refresh-token" := refresh_token tp]})
    {["json" := JObj ∅]} w
  = requests_request "POST" (API_BASE +:+ "/app_auth_tokens.refresh")
      (jike_client.build_headers "x-jike-refresh-token" (refresh_token tp))
      {["json" := JObj ∅]} w.
Proof.
  unfold jike_auth._post, jike_client.build_headers, requests_post.
  rewrite bool_decide_eq_false_2 by apply map_non_empty_singleton.
  now rewrite <- insert_union_singleton_l.
Qed.

Lemma refresh_tokens_ok w l tp resp :
  heap w !! l = Some tp ->
  server w (log w) (refresh_request tp) = Resp resp ->
  is_error_status (status_code resp) = false ->
  jike_auth.refresh_tokens l w
  = (Ok (fresh (dom (heap w))),
     after_new (set_log (log w ++ [refresh_request tp]) w) (refreshed tp resp)).
Proof.
  intros Htp Hsrv Hst. unfold jike_auth.refresh_tokens.
  rewrite (bind_ok _ _ _ _ _ (deref_ok _ _ _ Htp)).
  unfold bind at 1. rewrite _post_refresh_request.
  rewrite (requests_request_resp _ _ _ _ _ _ Hsrv).
  rewrite (bind_ok _ _ _ _ _ (raise_for_status_ok _ _ Hst)).
  set (w1 := set_log _ w).
  assert (Htp1 : heap w1 !! l = Some tp) by exact Htp.
  rewrite (bind_ok _ _ _ _ _ (deref_ok _ _ _ Htp1)).
  rewrite (bind_ok _ _ _ _ _ (deref_ok _ _ _ Htp1)).
  reflexivity.
Qed.

Lemma deref_none w l : heap w !! l = None -> deref l w = (Raise DanglingRef, w).
Proof. intros H. unfold deref. now rewrite H. Qed.

Lemma requests_request_netfail w meth u hdrs kw :
  server w (log w) (mkRequest meth u hdrs kw) = NetFail ->
  requests_request meth u hdrs kw w
  = (Raise ConnectionError, set_log (log w ++ [mkRequest meth u hdrs kw]) w).
Proof. intros H. unfold requests_request. now rewrite H. Qed.

(** The outcome of the standalone refresh in every case. *)
Lemma refresh_tokens_cases w l :
  jike_auth.refresh_tokens l w
  = match heap w !! l with
    | None => (Raise DanglingRef, w)
    | Some tp =>
        let w1 := set_log (log w ++ [refresh_request tp]) w in
        match server w (log w) (refresh_request tp) with
        | NetFail => (Raise ConnectionError, w1)
        | Resp resp =>
            if is_error_status (status_code resp)
            then (Raise (HTTPError resp), w1)
            else (Ok (fresh (dom (heap w))), after_new w1 (refreshed tp resp))
        end
    end.
Proof.
  destruct (heap w !! l) as [tp|] eqn:Htp.
  - destruct (server w (log w) (refresh_request tp)) as [resp|] eqn:Hsrv.
    + destruct (is_error_status (status_code resp)) eqn:Hst.
      * unfold jike_auth.refresh_tokens.
        rewrite (bind_ok _ _ _ _ _ (deref_ok _ _ _ Htp)).
        unfold bind at 1. rewrite _post_refresh_request.
        rewrite (requests_request_resp _ _ _ _ _ _ Hsrv).
        now rewrite (bind_raise _ _ _ _ _ (raise_for_status_error _ _ Hst)).
      * now apply refresh_tokens_ok.
    + unfold jike_auth.refresh_tokens.
      rewrite (bind_ok _ _ _ _ _ (deref_ok _ _ _ Htp)).
      unfold bind at 1. rewrite _post_refresh_request.
      now rewrite (requests_request_netfail _ _ _ _ _ Hsrv).
  - unfold jike_auth.refresh_tokens.
    now rewrite (bind_raise _ _ _ _ _ (deref_none _ _ Htp)).
Qed.

(** The outcome of the client method in every case. *)
Lemma _refresh_cases w :
  jike_client._refresh w
  = match heap w !! client_tokens w with
    | None => (Raise DanglingRef, w)
    | Some tp =>
        let w1 := set_log (log w ++ [refresh_request tp]) w in
        match server w (log w) (refresh_request tp) with
        | NetFail => (Raise ConnectionError, w1)
        | Resp resp =>
            if is_error_status (status_code resp)
            then (Raise (HTTPError resp), w1)
            else (Ok tt, after_refresh w tp resp)
        end
    end.
Proof.
  destruct (heap w !! client_tokens w) as [tp|] eqn:Htp.
  - destruct (server w (log w) (refresh_request tp)) as [resp|] eqn:Hsrv.
    + destruct (is_error_status (status_code resp)) eqn:Hst.
      * now apply _refresh_error.
      * now apply _refresh_ok.
    + unfold jike_client._refresh.
      rewrite (bind_ok _ _ _ _ _ (self_tokens_ok _ _ Htp)).
      unfold requests_post.
      now rewrite (bind_raise _ _ _ _ _ (requests_request_netfail _ _ _ _ _ Hsrv)).
  - unfold jike_client._refresh.
    assert (Hs : jike_client.self_tokens w = (Raise DanglingRef, w))
      by exact (deref_none _ _ Htp).
    now rewrite (bind_raise _ _ _ _ _ Hs).
Qed.

(** The client method is the standalone function followed by the
    assignment to [self._tokens], in every world. *)
Lemma _refresh_is_refresh_tokens_then_assign w :
  jike_client._refresh w
  = (l <- jike_auth.refresh_tokens (client_tokens w) ;;
     (fun w' => (Ok tt, set_client_tokens l w'))) w.
Proof.
  unfold bind. rewrite _refresh_cases, refresh_tokens_cases.
  destruct (heap w !! client_tokens w) as [tp|]; [|reflexivity].
  simpl. destruct (server w (log w) (refresh_request tp)) as [resp|];
    [|reflexivity].
  now destruct (is_error_status (status_code resp)).
Qed.

(** C10.  The standalone [refresh_tokens] and the client method
    [_refresh], run on the same prior pair and answered by successful
    refresh responses with the same headers, end with the same pair: the
    function returns a reference to it, the method stores one in the
    client, and both read as [refreshed prior resp]. *)
Theorem refresh_tokens_agrees_with_client_refresh
    (w1 w2 : World) (l : loc) (prior : TokenPair) (r1 r2 : Response) :
  heap w1 !! l = Some prior ->
  heap w2 !! client_tokens w2 = Some prior ->
  server w1 (log w1) (refresh_request prior) = Resp r1 ->
  server w2 (log w2) (refresh_request prior) = Resp r2 ->
  is_error_status (status_code r1) = false ->
  is_error_status (status_code r2) = false ->
  resp_headers r1 = resp_headers r2 ->
  exists l1 w1' w2',
    jike_auth.refresh_tokens l w1 = (Ok l1, w1') /\
    jike_client._refresh w2 = (Ok tt, w2') /\
    heap w1' !! l1 = Some (refreshed prior r1) /\
    heap w2' !! client_tokens w2' = Some (refreshed prior r1).
Proof.
  intros Hl Hc Hs1 Hs2 Hok1 Hok2 Hh.
  exists (fresh (dom (heap w1))).
  eexists. eexists. split; [|split; [|split]].
  - exact (refresh_tokens_ok w1 l prior r1 Hl Hs1 Hok1).
  - exact (_refresh_ok w2 prior r2 Hc Hs2 Hok2).
  - unfold after_new. simpl. apply lookup_insert_eq.
  - unfold after_refresh, refreshed. simpl. rewrite Hh. apply lookup_insert_eq.
Qed.

Lemma refresh_tokens_agrees_with_client_refresh_witness :
  exists l1 w1' w2',
    jike_auth.refresh_tokens 0%nat
      (initial_world tp_a1_r1 (constant_server resp_only_access_a2))
    = (Ok l1, w1') /\
    jike_client._refresh
      (initial_world tp_a1_r1 (constant_server resp_only_access_a2))
    = (Ok tt, w2') /\
    heap w1' !! l1 = Some (mkTokenPair "a2" "r1") /\
    heap w2' !! client_tokens w2' = Some (mkTokenPair "a2" "r1").
Proof.
  apply (refresh_tokens_agrees_with_client_refresh
           (initial_world tp_a1_r1 (constant_server resp_only_access_a2))
           (initial_world tp_a1_r1 (constant_server resp_only_access_a2))
           0%nat tp_a1_r1 resp_only_access_a2 resp_only_access_a2);
    reflexivity.
Defined.

(* ===================================================================== *)
(** ** The QR poll loop                                                   *)
(* ===================================================================== *)

Lemma _get_wait_resp w uuid r :
  server w (log w) (poll_request uuid) = Resp r ->
  jike_auth._get (jike_auth.wait_path uuid) w
  = (Ok r, set_log (log w ++ [poll_request uuid]) w).
Proof.
  intros H. unfold jike_auth._get, requests_get.
  exact (requests_request_resp _ _ _ _ _ _ H).
Qed.

(** [n] polls all answered 400: the loop runs to its end. *)
Lemma poll_loop_all_400 uuid n : forall w,
  (forall k, (k < n)%nat ->
     exists r, server w (log w ++ replicate k (poll_request uuid))
                 (poll_request uuid) = Resp r /\ status_code r = 400) ->
  jike_auth.poll_loop uuid n w
  = (Ok None,
     set_sleeps (sleeps w ++ replicate n jike_auth.POLL_INTERVAL_SEC)
       (set_log (log w ++ replicate n (poll_request uuid)) w)).
Proof.
  induction n as [|n IH]; intros w H.
  - simpl. unfold ret, set_sleeps, set_log. simpl.
    rewrite !app_nil_r. now destruct w.
  - destruct (H 0%nat ltac:(lia)) as (r & Hsrv & H400).
    simpl in Hsrv. rewrite app_nil_r in Hsrv.
    cbn [jike_auth.poll_loop].
    unfold bind at 1. unfold try_except. unfold bind at 1.
    rewrite (_get_wait_resp _ _ _ Hsrv). unfold ret at 1.
    rewrite H400. change (400 =? 200) with false. change (400 =? 400) with true.
    cbv iota.
    unfold bind, sleep.
    rewrite IH.
    + unfold set_sleeps, set_log. simpl.
      now rewrite <- !app_assoc.
    + intros k Hk. simpl.
      destruct (H (S k) ltac:(lia)) as (r' & Hsrv' & H400').
      exists r'. split; [|exact H400'].
      rewrite <- app_assoc. exact Hsrv'.
Qed.

(** C6.  When every poll is answered with status 400, [poll_confirmation]
    returns [None] after exactly [POLL_TIMEOUT_SEC // POLL_INTERVAL_SEC]
    = 180 polls of the confirmation endpoint, each followed by a pause of
    [POLL_INTERVAL_SEC]; nothing else changes. *)
Theorem poll_confirmation_all_400_times_out (w : World) (uuid : string) :
  (forall k, (k < 180)%nat ->
     exists r, server w (log w ++ replicate k (poll_request uuid))
                 (poll_request uuid) = Resp r /\ status_code r = 400) ->
  jike_auth.POLL_TIMEOUT_SEC `div` jike_auth.POLL_INTERVAL_SEC = 180 /\
  exists w',
    jike_auth.poll_confirmation uuid w = (Ok None, w') /\
    log w' = (log w ++ replicate 180 (poll_request uuid))%list /\
    sleeps w' = (sleeps w ++ replicate 180 jike_auth.POLL_INTERVAL_SEC)%list /\
    heap w' = heap w /\
    client_tokens w' = client_tokens w.
Proof.
  intros H. split; [reflexivity|].
  unfold jike_auth.poll_confirmation.
  change (Z.to_nat (jike_auth.POLL_TIMEOUT_SEC `div` jike_auth.POLL_INTERVAL_SEC))
    with 180%nat.
  rewrite (poll_loop_all_400 uuid 180 w H).
  eexists. split; [reflexivity|]. simpl. auto.
Qed.

Lemma poll_confirmation_all_400_times_out_witness :
  jike_auth.POLL_TIMEOUT_SEC `div` jike_auth.POLL_INTERVAL_SEC = 180 /\
  exists w',
    jike_auth.poll_confirmation "uuid-123"
      (initial_world tp_a1_r1 (constant_server (resp_status 400)))
    = (Ok None, w') /\
    log w' = replicate 180 (poll_request "uuid-123") /\
    sleeps w' = replicate 180 1 /\
    heap w' = {[0%nat := tp_a1_r1]} /\
    client_tokens w' = 0%nat.
Proof.
  apply (poll_confirmation_all_400_times_out
           (initial_world tp_a1_r1 (constant_server (resp_status 400)))
           "uuid-123").
  intros k _. exists (resp_status 400). split; reflexivity.
Defined.

(* ===================================================================== *)
(** ** What a refresh keeps                                               *)
(* ===================================================================== *)

Lemma refreshed_carries_over prior resp :
  carries_over prior (refreshed prior resp) resp.
Proof. split; intros H; unfold refreshed; simpl; now rewrite H. Qed.

(** The three script helpers that return a tuple are the same function. *)
Lemma scripts_client__refresh_run w rt resp :
  server w (log w) (refresh_request (mkTokenPair "" rt)) = Resp resp ->
  is_error_status (status_code resp) = false ->
  scripts_client._refresh rt w
  = (Ok (script_refreshed rt resp),
     set_log (log w ++ [refresh_request (mkTokenPair "" rt)]) w).
Proof.
  intros Hsrv Hst. unfold scripts_client._refresh, requests_post.
  rewrite (bind_ok _ _ _ _ _ (requests_request_resp _ _ _ _ _ _ Hsrv)).
  now rewrite (bind_ok _ _ _ _ _ (raise_for_status_ok _ _ Hst)).
Qed.

Lemma scripts_find_users__refresh_same rt w :
  scripts_find_users._refresh rt w = scripts_client._refresh rt w.
Proof. reflexivity. Qed.

Lemma scripts_export__refresh_tokens_same rt w :
  scripts_export._refresh_tokens rt w = scripts_client._refresh rt w.
Proof. reflexivity. Qed.

Lemma scripts_auth_refresh_tokens_run w rt resp :
  server w (log w) (refresh_request (mkTokenPair "" rt)) = Resp resp ->
  is_error_status (status_code resp) = false ->
  scripts_auth.refresh_tokens rt w
  = (Ok (to_dict (mkTokenPair (script_refreshed rt resp).1
                              (script_refreshed rt resp).2)),
     set_log (log w ++ [refresh_request (mkTokenPair "" rt)]) w).
Proof.
  intros Hsrv Hst. unfold scripts_auth.refresh_tokens, requests_post.
  rewrite (bind_ok _ _ _ _ _ (requests_request_resp _ _ _ _ _ _ Hsrv)).
  now rewrite (bind_ok _ _ _ _ _ (raise_for_status_ok _ _ Hst)).
Qed.

(** C4, as the code has it.  After a successful refresh response:
    - the package's two implementations, [JikeClient._refresh] and
      [auth.refresh_tokens], leave the pair [refreshed prior resp], in which
      every token whose header is absent is the prior one;
    - the four helpers of the standalone scripts, which are given the
      refresh token only, return the prior refresh token when its header is
      absent, and for the access token the header's value, or the empty
      string when that header is absent;
    - when the response exposes a new access token [a2] and no refresh
      token, every implementation yields [a2] with the prior refresh
      token. *)
Theorem refresh_carry_over_by_implementation
    (w : World) (l : loc) (prior : TokenPair) (resp : Response) (a2 : string) :
  server w (log w) (refresh_request prior) = Resp resp ->
  is_error_status (status_code resp) = false ->
  (heap w !! client_tokens w = Some prior ->
   jike_client._refresh w = (Ok tt, after_refresh w prior resp) /\
   heap (after_refresh w prior resp)
     !! client_tokens (after_refresh w prior resp)
   = Some (refreshed prior resp)) /\
  (heap w !! l = Some prior ->
   jike_auth.refresh_tokens l w
   = (Ok (fresh (dom (heap w))),
      after_new (set_log (log w ++ [refresh_request prior]) w)
        (refreshed prior resp)) /\
   heap (after_new (set_log (log w ++ [refresh_request prior]) w)
           (refreshed prior resp))
     !! fresh (dom (heap w))
   = Some (refreshed prior resp)) /\
  carries_over prior (refreshed prior resp) resp /\
  fst (scripts_client._refresh (refresh_token prior) w)
  = Ok (script_refreshed (refresh_token prior) resp) /\
  fst (scripts_find_users._refresh (refresh_token prior) w)
  = Ok (script_refreshed (refresh_token prior) resp) /\
  fst (scripts_export._refresh_tokens (refresh_token prior) w)
  = Ok (script_refreshed (refresh_token prior) resp) /\
  fst (scripts_auth.refresh_tokens (refresh_token prior) w)
  = Ok (to_dict (mkTokenPair (script_refreshed (refresh_token prior) resp).1
                             (script_refreshed (refresh_token prior) resp).2)) /\
  (resp_headers resp !! "x-jike-refresh-token" = None ->
   (script_refreshed (refresh_token prior) resp).2 = refresh_token prior) /\
  (resp_headers resp !! "x-jike-access-token" = None ->
   (script_refreshed (refresh_token prior) resp).1 = "") /\
  (resp_headers resp !! "x-jike-access-token" = Some a2 ->
   resp_headers resp !! "x-jike-refresh-token" = None ->
   refreshed prior resp = mkTokenPair a2 (refresh_token prior) /\
   script_refreshed (refresh_token prior) resp = (a2, refresh_token prior)).
Proof.
  intros Hsrv Hst.
  assert (Hsrv' : server w (log w)
                    (refresh_request (mkTokenPair "" (refresh_token prior)))
                  = Resp resp) by exact Hsrv.
  repeat split.
  - now apply _refresh_ok.
  - unfold after_refresh. simpl. apply lookup_insert_eq.
  - now apply refresh_tokens_ok.
  - unfold after_new. simpl. apply lookup_insert_eq.
  - intros H. unfold refreshed. simpl. now rewrite H.
  - intros H. unfold refreshed. simpl. now rewrite H.
  - now rewrite (scripts_client__refresh_run _ _ _ Hsrv' Hst).
  - rewrite scripts_find_users__refresh_same.
    now rewrite (scripts_client__refresh_run _ _ _ Hsrv' Hst).
  - rewrite scripts_export__refresh_tokens_same.
    now rewrite (scripts_client__refresh_run _ _ _ Hsrv' Hst).
  - now rewrite (scripts_auth_refresh_tokens_run _ _ _ Hsrv' Hst).
  - intros H. unfold script_refreshed. simpl. now rewrite H.
  - intros H. unfold script_refreshed. simpl. now rewrite H.
  - unfold refreshed. now rewrite H, H0.
  - unfold script_refreshed. now rewrite H, H0.
Qed.

(** The example of the specification, [TokenPair("a1","r1")] refreshed by a
    response that exposes only the access token ["a2"], in all six
    implementations. *)
Lemma refresh_carry_over_by_implementation_witness :
  (exists w',
     jike_client._refresh
       (initial_world tp_a1_r1 (constant_server resp_only_access_a2))
     = (Ok tt, w') /\
     heap w' !! client_tokens w' = Some (mkTokenPair "a2" "r1")) /\
  (exists l' w',
     jike_auth.refresh_tokens 0%nat
       (initial_world tp_a1_r1 (constant_server resp_only_access_a2))
     = (Ok l', w') /\
     heap w' !! l' = Some (mkTokenPair "a2" "r1")) /\
  fst (scripts_client._refresh "r1"
         (initial_world tp_a1_r1 (constant_server resp_only_access_a2)))
  = Ok ("a2", "r1") /\
  fst (scripts_find_users._refresh "r1"
         (initial_world tp_a1_r1 (constant_server resp_only_access_a2)))
  = Ok ("a2", "r1") /\
  fst (scripts_export._refresh_tokens "r1"
         (initial_world tp_a1_r1 (constant_server resp_only_access_a2)))
  = Ok ("a2", "r1") /\
  fst (scripts_auth.refresh_tokens "r1"
         (initial_world tp_a1_r1 (constant_server resp_only_access_a2)))
  = Ok (to_dict (mkTokenPair "a2" "r1")).
Proof.
  destruct (refresh_carry_over_by_implementation
              (initial_world tp_a1_r1 (constant_server resp_only_access_a2))
              0%nat tp_a1_r1 resp_only_access_a2 "a2" eq_refl eq_refl)
    as (Hc & Ha & _ & Hs1 & Hs2 & Hs3 & Hs4 & _).
  destruct (Hc eq_refl) as [Hc1 Hc2].
  destruct (Ha eq_refl) as [Ha1 Ha2].
  split; [eexists; split; [exact Hc1 | exact Hc2] |].
  split; [eexists; eexists; split; [exact Ha1 | exact Ha2] |].
  split; [exact Hs1 |]. split; [exact Hs2 |]. split; [exact Hs3 | exact Hs4].
Defined.

(** C4 as stated fails for the scripts: a response that exposes only a new
    refresh token makes [scripts/client.py]'s [_refresh] return the empty
    string as access token, not the caller's prior ["a1"]. *)
Lemma scripts_refresh_drops_access_token :
  resp_headers resp_only_refresh_r2 !! "x-jike-access-token" = None /\
  is_error_status (status_code resp_only_refresh_r2) = false /\
  fst (scripts_client._refresh (refresh_token tp_a1_r1)
         (initial_world tp_a1_r1 (constant_server resp_only_refresh_r2)))
  = Ok ("", "r2") /\
  ~ carries_over tp_a1_r1 (mkTokenPair "" "r2") resp_only_refresh_r2.
Proof.
  split; [reflexivity |]. split; [reflexivity |]. split; [reflexivity |].
  intros [H _]. specialize (H eq_refl). discriminate H.
Qed.

(* ===================================================================== *)
(** ** Token extraction                                                   *)
(* ===================================================================== *)

Lemma first_present_truthy cands v :
  first_present cands = Some v -> truthy v = true.
Proof.
  induction cands as [|[c|] rest IH]; simpl; [discriminate | | exact IH].
  destruct (truthy c) eqn:Hc; [| exact IH].
  now intros [= <-].
Qed.

(** The value of [body.get(k1) or body.get(k2) or resp.headers.get(hk)] on
    a dictionary body: the first candidate present, or else a false
    value. *)
Lemma py_or_chain d resp k1 k2 hk w :
  exists v,
    py_or (dict_get (JObj d) k1)
      (py_or (dict_get (JObj d) k2) (ret (headers_get_opt resp hk))) w
    = (Ok v, w) /\
    match first_present (token_candidates resp d k1 k2 hk) with
    | Some v' => v = v'
    | None => truthy v = false
    end.
Proof.
  unfold py_or, dict_get, bind, ret, token_candidates, headers_get_opt.
  simpl.
  destruct (d !! k1) as [v1|]; simpl.
  - destruct (truthy v1) eqn:H1; [eexists; split; reflexivity |].
    destruct (d !! k2) as [v2|]; simpl.
    + destruct (truthy v2) eqn:H2; [eexists; split; reflexivity |].
      destruct (resp_headers resp !! hk) as [s|]; simpl;
        [| eexists; split; reflexivity].
      destruct (str_truthy s) eqn:H3; eexists; (split; [reflexivity|]);
        [reflexivity | exact H3].
    + destruct (resp_headers resp !! hk) as [s|]; simpl;
        [| eexists; split; reflexivity].
      destruct (str_truthy s) eqn:H3; eexists; (split; [reflexivity|]);
        [reflexivity | exact H3].
  - destruct (d !! k2) as [v2|]; simpl.
    + destruct (truthy v2) eqn:H2; [eexists; split; reflexivity |].
      destruct (resp_headers resp !! hk) as [s|]; simpl;
        [| eexists; split; reflexivity].
      destruct (str_truthy s) eqn:H3; eexists; (split; [reflexivity|]);
        [reflexivity | exact H3].
    + destruct (resp_headers resp !! hk) as [s|]; simpl;
        [| eexists; split; reflexivity].
      destruct (str_truthy s) eqn:H3; eexists; (split; [reflexivity|]);
        [reflexivity | exact H3].
Qed.

(** Reading the body: the decoded object, or the empty dictionary when
    decoding raises. *)
Lemma body_read resp d w :
  body_dict resp = Some d ->
  try_except (resp_json resp) is_ValueError_or_KeyError (ret (JObj ∅)) w
  = (Ok (JObj d), w).
Proof.
  unfold body_dict, try_except, resp_json.
  destruct (json_body resp) as [[]|]; try discriminate; now intros [= <-].
Qed.

(** A body that decodes to anything but an object makes extraction raise. *)
Lemma extract_tokens_non_dict resp w :
  body_dict resp = None ->
  jike_auth._extract_tokens resp w = (Raise AttributeError, w).
Proof.
  unfold body_dict, jike_auth._extract_tokens.
  destruct (json_body resp) as [[]|] eqn:Hj; try discriminate; intros _;
    unfold bind at 1, try_except, resp_json; rewrite Hj; reflexivity.
Qed.

(** Extraction on the bodies it is written for.  For a confirmation
    response whose body decodes to an object, or does not decode at all
    (then the empty dictionary stands in), each token is the first present
    value among the
    primary body field, the alternate body field and the response header,
    in that order and independently for the two tokens.  A [TokenPair] of
    the two values is created exactly when both were found; when either is
    missing the result is [None] and nothing is created. *)
Theorem extract_tokens_first_present
    (w : World) (resp : Response) (d : gmap string Json) (a r : string) :
  body_dict resp = Some d ->
  (first_present
     (token_candidates resp d
        "x-jike-access-token" "access_token" "x-jike-access-token")
   = Some (JStr a) ->
   first_present
     (token_candidates resp d
        "x-jike-refresh-token" "refresh_token" "x-jike-refresh-token")
   = Some (JStr r) ->
   jike_auth._extract_tokens resp w
   = (Ok (Some (fresh (dom (heap w)))), after_new w (mkTokenPair a r))) /\
  (first_present
     (token_candidates resp d
        "x-jike-access-token" "access_token" "x-jike-access-token")
   = None \/
   first_present
     (token_candidates resp d
        "x-jike-refresh-token" "refresh_token" "x-jike-refresh-token")
   = None ->
   jike_auth._extract_tokens resp w = (Ok None, w)).
Proof.
  intros Hd. unfold jike_auth._extract_tokens.
  rewrite (bind_ok _ _ _ _ _ (body_read _ _ _ Hd)).
  destruct (py_or_chain d resp "x-jike-access-token" "access_token"
              "x-jike-access-token" w) as (va & Hva & Ha).
  destruct (py_or_chain d resp "x-jike-refresh-token" "refresh_token"
              "x-jike-refresh-token" w) as (vr & Hvr & Hr).
  rewrite (bind_ok _ _ _ _ _ Hva), (bind_ok _ _ _ _ _ Hvr).
  split.
  - intros Fa Fr. rewrite Fa in Ha. rewrite Fr in Hr. subst va vr.
    rewrite (first_present_truthy _ _ Fa), (first_present_truthy _ _ Fr).
    reflexivity.
  - intros [Fa | Fr].
    + rewrite Fa in Ha. now rewrite Ha.
    + rewrite Fr in Hr. rewrite Hr. now rewrite andb_false_r.
Qed.

(** Access token in the body, refresh token in a header: a pair is made of
    the two. *)
Lemma extract_tokens_first_present_witness :
  body_dict resp_mixed_sources = Some {["x-jike-access-token" := JStr "ba"]} /\
  jike_auth._extract_tokens resp_mixed_sources
    (initial_world tp_a1_r1 (constant_server resp_mixed_sources))
  = (Ok (Some 1%nat),
     after_new (initial_world tp_a1_r1 (constant_server resp_mixed_sources))
       (mkTokenPair "ba" "hr")).
Proof.
  split; [reflexivity |].
  apply (proj1 (extract_tokens_first_present
                  (initial_world tp_a1_r1 (constant_server resp_mixed_sources))
                  resp_mixed_sources {["x-jike-access-token" := JStr "ba"]}
                  "ba" "hr" eq_refl));
    reflexivity.
Defined.

(** C5.  Extraction misses a case.  A body that cannot be decoded is
    caught and read as the empty dictionary, so that with no token in the
    headers the result is [None]; the same holds for an empty object.  A
    body that is valid JSON but not an object slips through: for the body
    [[]], with no token anywhere, extraction does not return [None], it
    raises [AttributeError]. *)
Lemma extract_tokens_array_body_raises :
  json_body resp_array_body = Some (JArr []) /\
  resp_headers resp_array_body = ∅ /\
  fst (jike_auth._extract_tokens resp_array_body
         (initial_world tp_a1_r1 (constant_server resp_array_body)))
  = Raise AttributeError /\
  fst (jike_auth._extract_tokens resp_array_body
         (initial_world tp_a1_r1 (constant_server resp_array_body)))
  <> Ok None /\
  fst (jike_auth._extract_tokens (mkResponse 200 ∅ "<html>" None)
         (initial_world tp_a1_r1 (constant_server resp_array_body)))
  = Ok None /\
  fst (jike_auth._extract_tokens (mkResponse 200 ∅ "{}" (Some (JObj ∅)))
         (initial_world tp_a1_r1 (constant_server resp_array_body)))
  = Ok None.
Proof.
  split; [reflexivity |]. split; [reflexivity |].
  split; [reflexivity |]. split; [discriminate |].
  split; reflexivity.
Qed.

(* ===================================================================== *)
(** ** [TokenPair] as a value object                                      *)
(* ===================================================================== *)

(** A successful refresh allocates: every object of the old heap is still
    there, unchanged. *)
Lemma after_refresh_preserves w tp resp l tp0 :
  heap w !! l = Some tp0 ->
  heap (after_refresh w tp resp) !! l = Some tp0.
Proof.
  intros H. unfold after_refresh. simpl.
  rewrite lookup_insert_ne; [exact H |].
  intros <-. apply (is_fresh (dom (heap w))).
  apply elem_of_dom. now exists tp0.
Qed.

Lemma after_refresh_fresh w tp resp :
  client_tokens (after_refresh w tp resp) ∉ dom (heap w).
Proof. unfold after_refresh. simpl. apply is_fresh. Qed.

(** What [_refresh] leaves of the heap, in every outcome. *)
Lemma _refresh_preserves_heap (w : World) (l : loc) (tp : TokenPair) :
  heap w !! l = Some tp -> heap (jike_client._refresh w).2 !! l = Some tp.
Proof.
  intros H. rewrite _refresh_cases.
  destruct (heap w !! client_tokens w) as [prior|]; [| exact H].
  cbv zeta. destruct (server w (log w) (refresh_request prior)) as [resp|];
    [| exact H].
  destruct (is_error_status (status_code resp)); [exact H |].
  now apply after_refresh_preserves.
Qed.

(** C8.  [TokenPair] is an immutable value object.
    - Assigning to an attribute of a pair, or deleting one, raises
      [FrozenInstanceError] whatever the attribute and the value, and
      neither the heap nor anything else changes: [object]'s own
      assignment, whatever it would do, is never reached.
    - Equality is by value: two pairs, wherever they live in the heap,
      compare equal exactly when both fields are equal.  Hashing is by
      value: the hash of a pair is the interpreter's hash of the tuple of
      its two fields, so equal pairs have the same hash.
    - A successful refresh makes the client point at an object that did
      not exist before; every object of the old heap, the prior pair
      included, still reads as it did.
    - Whatever a refresh yields (success, error status, transport
      failure), no object of the heap is altered. *)
Theorem TokenPair_immutable_value_object
    (object_setattr : loc -> string -> string -> M unit)
    (object_delattr : loc -> string -> M unit)
    (hash_str : string -> Z) (hash_tuple : list Z -> Z)
    (w : World) (l l1 l2 : loc) (name value : string)
    (tp1 tp2 prior : TokenPair) (resp : Response) :
  (TokenPair_methods.__setattr__ object_setattr l name value w
   = (Raise FrozenInstanceError, w) /\
   TokenPair_methods.__delattr__ object_delattr l name w
   = (Raise FrozenInstanceError, w)) /\
  (heap w !! l1 = Some tp1 ->
   heap w !! l2 = Some tp2 ->
   (exists b,
      TokenPair_methods.__eq__ l1 l2 w = (Ok b, w) /\
      (b = true <->
       access_token tp1 = access_token tp2 /\
       refresh_token tp1 = refresh_token tp2)) /\
   TokenPair_methods.__hash__ hash_str hash_tuple l1 w
   = (Ok (hash_tuple [hash_str (access_token tp1);
                      hash_str (refresh_token tp1)]), w) /\
   TokenPair_methods.__hash__ hash_str hash_tuple l2 w
   = (Ok (hash_tuple [hash_str (access_token tp2);
                      hash_str (refresh_token tp2)]), w) /\
   (access_token tp1 = access_token tp2 ->
    refresh_token tp1 = refresh_token tp2 ->
    TokenPair_methods.__eq__ l1 l2 w = (Ok true, w) /\
    exists h,
      TokenPair_methods.__hash__ hash_str hash_tuple l1 w = (Ok h, w) /\
      TokenPair_methods.__hash__ hash_str hash_tuple l2 w = (Ok h, w))) /\
  (heap w !! client_tokens w = Some prior ->
   server w (log w) (refresh_request prior) = Resp resp ->
   is_error_status (status_code resp) = false ->
   exists w',
     jike_client._refresh w = (Ok tt, w') /\
     (client_tokens w' ∉ dom (heap w)) /\
     client_tokens w' <> client_tokens w /\
     heap w' !! client_tokens w = Some prior /\
     (forall l0 tp0, heap w !! l0 = Some tp0 -> heap w' !! l0 = Some tp0) /\
     heap w' !! client_tokens w' = Some (refreshed prior resp)) /\
  (forall l0 tp0,
     heap w !! l0 = Some tp0 ->
     heap (jike_client._refresh w).2 !! l0 = Some tp0).
Proof.
  split; [split; reflexivity |]. split; [| split].
  - intros H1 H2.
    assert (Heq : TokenPair_methods.__eq__ l1 l2 w
                  = (Ok (bool_decide (access_token tp1 = access_token tp2)
                         && bool_decide (refresh_token tp1 = refresh_token tp2)),
                     w)).
    { unfold TokenPair_methods.__eq__.
      rewrite (bind_ok _ _ _ _ _ (deref_ok _ _ _ H1)).
      now rewrite (bind_ok _ _ _ _ _ (deref_ok _ _ _ H2)). }
    assert (Hh : forall l0 tp0, heap w !! l0 = Some tp0 ->
              TokenPair_methods.__hash__ hash_str hash_tuple l0 w
              = (Ok (hash_tuple [hash_str (access_token tp0);
                                 hash_str (refresh_token tp0)]), w)).
    { intros l0 tp0 H0. unfold TokenPair_methods.__hash__.
      now rewrite (bind_ok _ _ _ _ _ (deref_ok _ _ _ H0)). }
    split.
    { eexists. split; [exact Heq |].
      rewrite andb_true_iff, !bool_decide_eq_true. reflexivity. }
    split; [exact (Hh _ _ H1) |]. split; [exact (Hh _ _ H2) |].
    intros Ha Hr. split.
    + rewrite Heq. now rewrite !bool_decide_eq_true_2.
    + eexists. split; [exact (Hh _ _ H1) |].
      rewrite (Hh _ _ H2), Ha, Hr. reflexivity.
  - intros Hp Hsrv Hst. exists (after_refresh w prior resp).
    split; [now apply _refresh_ok |].
    split; [apply after_refresh_fresh |].
    split.
    { intros Heq. apply (after_refresh_fresh w prior resp).
      rewrite Heq. apply elem_of_dom. now exists prior. }
    split; [now apply after_refresh_preserves |].
    split; [intros l0 tp0; apply after_refresh_preserves |].
    unfold after_refresh. simpl. apply lookup_insert_eq.
  - intros l0 tp0. apply _refresh_preserves_heap.
Qed.

Lemma TokenPair_immutable_value_object_witness :
  TokenPair_methods.__setattr__ (fun _ _ _ => ret tt) 0%nat "access_token" "hacked"
    (two_pairs_world (constant_server resp_only_access_a2))
  = (Raise FrozenInstanceError,
     two_pairs_world (constant_server resp_only_access_a2)) /\
  TokenPair_methods.__delattr__ (fun _ _ => ret tt) 0%nat "access_token"
    (two_pairs_world (constant_server resp_only_access_a2))
  = (Raise FrozenInstanceError,
     two_pairs_world (constant_server resp_only_access_a2)) /\
  TokenPair_methods.__eq__ 0%nat 1%nat
    (two_pairs_world (constant_server resp_only_access_a2))
  = (Ok true, two_pairs_world (constant_server resp_only_access_a2)) /\
  (exists h,
     TokenPair_methods.__hash__ toy_hash_str toy_hash_tuple 0%nat
       (two_pairs_world (constant_server resp_only_access_a2))
     = (Ok h, two_pairs_world (constant_server resp_only_access_a2)) /\
     TokenPair_methods.__hash__ toy_hash_str toy_hash_tuple 1%nat
       (two_pairs_world (constant_server resp_only_access_a2))
     = (Ok h, two_pairs_world (constant_server resp_only_access_a2))) /\
  (exists w',
     jike_client._refresh
       (two_pairs_world (constant_server resp_only_access_a2))
     = (Ok tt, w') /\
     client_tokens w' <> 0%nat /\
     heap w' !! 0%nat = Some tp_a1_r1 /\
     heap w' !! client_tokens w' = Some (mkTokenPair "a2" "r1")).
Proof.
  destruct (TokenPair_immutable_value_object
              (fun _ _ _ => ret tt) (fun _ _ => ret tt)
              toy_hash_str toy_hash_tuple
              (two_pairs_world (constant_server resp_only_access_a2))
              0%nat 0%nat 1%nat "access_token" "hacked"
              tp_a1_r1 tp_a1_r1 tp_a1_r1 resp_only_access_a2)
    as ([Hset Hdel] & Heq & Href & _).
  destruct (Heq eq_refl eq_refl) as (_ & _ & _ & Hsame).
  destruct (Hsame eq_refl eq_refl) as [He Hh].
  destruct (Href eq_refl eq_refl eq_refl)
    as (w' & Hrun & _ & Hne & Hold & _ & Hnew).
  split; [exact Hset |]. split; [exact Hdel |].
  split; [exact He |]. split; [exact Hh |].
  exists w'. split; [exact Hrun |]. split; [exact Hne |].
  split; [exact Hold | exact Hnew].
Defined.

(* ===================================================================== *)
(** ** More on the request executor                                       *)
(* ===================================================================== *)

(** One frame of [_request] in every case. *)
Lemma _request_rec_cases depth meth path retry kw w :
  jike_client._request_rec (S depth) meth path retry kw w
  = match heap w !! client_tokens w with
    | None => (Raise DanglingRef, w)
    | Some tp =>
        let w1 := set_log (log w ++ [api_request meth path tp kw]) w in
        match server w (log w) (api_request meth path tp kw) with
        | NetFail => (Raise ConnectionError, w1)
        | Resp r =>
            if (status_code r =? 401) && retry
            then (jike_client._refresh ;;;
                  jike_client._request_rec depth meth path false kw) w1
            else if is_error_status (status_code r)
                 then (Raise (HTTPError r), w1)
                 else (parsed_body r, w1)
        end
    end.
Proof.
  destruct (heap w !! client_tokens w) as [tp|] eqn:Htp.
  - destruct (server w (log w) (api_request meth path tp kw)) as [r|] eqn:Hsrv.
    + rewrite (_request_rec_step _ _ _ _ _ _ _ _ Htp Hsrv).
      destruct ((status_code r =? 401) && retry); [reflexivity|].
      destruct (is_error_status (status_code r)) eqn:Hst.
      * now rewrite (bind_raise _ _ _ _ _ (raise_for_status_error _ _ Hst)).
      * rewrite (bind_ok _ _ _ _ _ (raise_for_status_ok _ _ Hst)).
        apply body_or_empty_parsed.
    + cbn [jike_client._request_rec].
      rewrite (bind_ok _ _ _ _ _ (_headers_ok _ _ Htp)).
      now rewrite (bind_raise _ _ _ _ _ (requests_request_netfail _ _ _ _ _ Hsrv)).
  - assert (Hs : jike_client.self_tokens w = (Raise DanglingRef, w))
      by exact (deref_none _ _ Htp).
    assert (Hh : jike_client._headers w = (Raise DanglingRef, w)).
    { unfold jike_client._headers. now rewrite (bind_raise _ _ _ _ _ Hs). }
    cbn [jike_client._request_rec].
    now rewrite (bind_raise _ _ _ _ _ Hh).
Qed.

(** X1.  Unless the answer is a 401 with the retry flag set, [_request]
    makes exactly one call and is done: a 4xx/5xx status raises the
    [HTTPError] of that response (a 401 too when retrying is disabled), any
    other status returns the parsed body; no refresh, and the heap and the
    client attribute are as before. *)
Theorem request_single_attempt
    (w : World) (tp : TokenPair) (meth path : string) (retry : bool)
    (kw : gmap string Json) (r : Response) :
  heap w !! client_tokens w = Some tp ->
  server w (log w) (api_request meth path tp kw) = Resp r ->
  (status_code r =? 401) && retry = false ->
  jike_client._request meth path retry kw w
  = (if is_error_status (status_code r)
     then Raise (HTTPError r) else parsed_body r,
     set_log (log w ++ [api_request meth path tp kw]) w).
Proof.
  intros Htp Hsrv Hc. unfold jike_client._request.
  rewrite _request_rec_cases, Htp. simpl. rewrite Hsrv, Hc.
  now destruct (is_error_status (status_code r)).
Qed.

Lemma request_single_attempt_witness :
  jike_client._request "GET" "/test" false ∅
    (initial_world tp_a1_r1 (constant_server (resp_status 401)))
  = (Raise (HTTPError (resp_status 401)),
     set_log [api_request "GET" "/test" tp_a1_r1 ∅]
       (initial_world tp_a1_r1 (constant_server (resp_status 401)))) /\
  jike_client._request "DELETE" "/test" true ∅
    (initial_world tp_a1_r1 (constant_server (resp_status 200)))
  = (Ok (JObj ∅),
     set_log [api_request "DELETE" "/test" tp_a1_r1 ∅]
       (initial_world tp_a1_r1 (constant_server (resp_status 200)))).
Proof.
  split.
  - apply (request_single_attempt
             (initial_world tp_a1_r1 (constant_server (resp_status 401)))
             tp_a1_r1 "GET" "/test" false ∅ (resp_status 401));
      reflexivity.
  - apply (request_single_attempt
             (initial_world tp_a1_r1 (constant_server (resp_status 200)))
             tp_a1_r1 "DELETE" "/test" true ∅ (resp_status 200));
      reflexivity.
Defined.

(** X2.  A transport failure is not caught anywhere in [_request]: on the
    first call it surfaces as [ConnectionError] after that one call; during
    the refresh it surfaces after the original request and the refresh
    call, the original request is not reissued and the client keeps its
    pair. *)
Theorem request_transport_failure_propagates
    (w : World) (tp : TokenPair) (meth path : string) (retry : bool)
    (kw : gmap string Json) (r1 : Response) :
  heap w !! client_tokens w = Some tp ->
  (server w (log w) (api_request meth path tp kw) = NetFail ->
   jike_client._request meth path retry kw w
   = (Raise ConnectionError,
      set_log (log w ++ [api_request meth path tp kw]) w)) /\
  (server w (log w) (api_request meth path tp kw) = Resp r1 ->
   status_code r1 = 401 ->
   server w (log w ++ [api_request meth path tp kw]) (refresh_request tp)
   = NetFail ->
   jike_client._request meth path true kw w
   = (Raise ConnectionError,
      set_log (log w ++ [api_request meth path tp kw; refresh_request tp]) w)).
Proof.
  intros Htp. split.
  - intros Hsrv. unfold jike_client._request.
    rewrite _request_rec_cases, Htp. simpl. now rewrite Hsrv.
  - intros Hsrv H401 Hsrv2. unfold jike_client._request.
    rewrite _request_rec_cases, Htp. simpl. rewrite Hsrv, H401.
    change ((401 =? 401) && true) with true. cbv iota.
    set (w1 := set_log _ w).
    assert (Hr : jike_client._refresh w1
                 = (Raise ConnectionError,
                    set_log (log w1 ++ [refresh_request tp]) w1)).
    { rewrite _refresh_cases.
      change (heap w1 !! client_tokens w1) with (heap w !! client_tokens w).
      rewrite Htp. simpl. now rewrite Hsrv2. }
    rewrite (bind_raise _ _ _ _ _ Hr).
    subst w1. unfold set_log. simpl. now rewrite <- app_assoc.
Qed.

Lemma request_transport_failure_propagates_witness :
  jike_client._request "GET" "/test" true ∅
    (initial_world tp_a1_r1 (scripted []))
  = (Raise ConnectionError,
     set_log [api_request "GET" "/test" tp_a1_r1 ∅]
       (initial_world tp_a1_r1 (scripted []))) /\
  jike_client._request "GET" "/test" true ∅
    (initial_world tp_a1_r1 (scripted [Resp (resp_status 401)]))
  = (Raise ConnectionError,
     set_log [api_request "GET" "/test" tp_a1_r1 ∅; refresh_request tp_a1_r1]
       (initial_world tp_a1_r1 (scripted [Resp (resp_status 401)]))).
Proof.
  split.
  - apply (proj1 (request_transport_failure_propagates
                    (initial_world tp_a1_r1 (scripted []))
                    tp_a1_r1 "GET" "/test" true ∅ (resp_status 401) eq_refl));
      reflexivity.
  - apply (proj2 (request_transport_failure_propagates
                    (initial_world tp_a1_r1 (scripted [Resp (resp_status 401)]))
                    tp_a1_r1 "GET" "/test" true ∅ (resp_status 401) eq_refl));
      reflexivity.
Defined.

(** X3.  After a 401 and an accepted refresh, whatever the reissued
    request yields is final: a transport failure raises [ConnectionError],
    a 4xx/5xx status raises the [HTTPError] of that response, anything else
    returns its parsed body.  In all three cases the log holds exactly the
    three calls and the client keeps the refreshed pair, also when the call
    raises; the prior pair is still in the heap, unchanged. *)
Theorem request_after_refresh_outcome
    (w : World) (tp : TokenPair) (meth path : string)
    (kw : gmap string Json) (r1 rr : Response) (out : NetResult) :
  heap w !! client_tokens w = Some tp ->
  server w (log w) (api_request meth path tp kw) = Resp r1 ->
  status_code r1 = 401 ->
  server w (log w ++ [api_request meth path tp kw]) (refresh_request tp)
  = Resp rr ->
  is_error_status (status_code rr) = false ->
  server w (log w ++ [api_request meth path tp kw; refresh_request tp])
    (api_request meth path (refreshed tp rr) kw)
  = out ->
  exists w',
    jike_client._request meth path true kw w
    = (match out with
       | NetFail => Raise ConnectionError
       | Resp r2 => if is_error_status (status_code r2)
                    then Raise (HTTPError r2) else parsed_body r2
       end, w') /\
    log w' = (log w ++ [api_request meth path tp kw;
                        refresh_request tp;
                        api_request meth path (refreshed tp rr) kw])%list /\
    heap w' !! client_tokens w' = Some (refreshed tp rr) /\
    heap w' !! client_tokens w = Some tp.
Proof.
  intros Htp Hsrv H401 Hsrv2 Hok Hsrv3. unfold jike_client._request.
  rewrite (_request_rec_step _ _ _ _ _ _ _ _ Htp Hsrv).
  rewrite H401, Z.eqb_refl. change (true && true) with true. cbv iota.
  set (w1 := set_log _ w).
  rewrite (bind_ok _ _ w1 _ _ (_refresh_ok w1 tp rr Htp Hsrv2 Hok)).
  set (w2 := after_refresh w1 tp rr).
  assert (Htp2 : heap w2 !! client_tokens w2 = Some (refreshed tp rr)).
  { subst w2. unfold after_refresh. simpl. apply lookup_insert_eq. }
  assert (Hold : heap w2 !! client_tokens w = Some tp).
  { subst w2. now apply after_refresh_preserves. }
  assert (Hlog2 : log w2 = (log w ++ [api_request meth path tp kw; refresh_request tp])%list).
  { subst w2 w1. unfold after_refresh. simpl. now rewrite <- app_assoc. }
  assert (Hsrv3' : server w2 (log w2) (api_request meth path (refreshed tp rr) kw) = out).
  { rewrite Hlog2. exact Hsrv3. }
  clearbody w2.
  rewrite _request_rec_cases, Htp2. simpl. rewrite Hsrv3'.
  destruct out as [r2|].
  - rewrite andb_false_r.
    eexists. split; [destruct (is_error_status (status_code r2)); reflexivity |].
    simpl. rewrite Hlog2, <- app_assoc. auto.
  - eexists. split; [reflexivity |].
    simpl. rewrite Hlog2, <- app_assoc. auto.
Qed.

Lemma request_after_refresh_outcome_witness :
  exists w',
    jike_client._request "GET" "/test" true ∅
      (initial_world tp_a1_r1
         (scripted [Resp (resp_status 401); Resp resp_only_access_a2;
                    Resp (resp_status 500)]))
    = (Raise (HTTPError (resp_status 500)), w') /\
    log w' = [api_request "GET" "/test" tp_a1_r1 ∅;
              refresh_request tp_a1_r1;
              api_request "GET" "/test" (mkTokenPair "a2" "r1") ∅] /\
    heap w' !! client_tokens w' = Some (mkTokenPair "a2" "r1") /\
    heap w' !! 0%nat = Some tp_a1_r1.
Proof.
  apply (request_after_refresh_outcome
           (initial_world tp_a1_r1
              (scripted [Resp (resp_status 401); Resp resp_only_access_a2;
                         Resp (resp_status 500)]))
           tp_a1_r1 "GET" "/test" ∅
           (resp_status 401) resp_only_access_a2 (Resp (resp_status 500)));
    reflexivity.
Defined.

(** What the no-retry frame leaves, in every world. *)
Lemma _request_rec_no_retry_frame depth meth path kw w :
  exists tp n,
    (n <= 1)%nat /\
    log (jike_client._request_rec (S depth) meth path false kw w).2
    = (log w ++ take n [api_request meth path tp kw])%list /\
    heap (jike_client._request_rec (S depth) meth path false kw w).2 = heap w /\
    client_tokens (jike_client._request_rec (S depth) meth path false kw w).2
    = client_tokens w /\
    sleeps (jike_client._request_rec (S depth) meth path false kw w).2
    = sleeps w.
Proof.
  rewrite _request_rec_cases.
  destruct (heap w !! client_tokens w) as [tp|].
  - exists tp, 1%nat. split; [lia|]. cbv zeta.
    destruct (server w (log w) (api_request meth path tp kw)) as [r|];
      [| simpl; auto].
    rewrite andb_false_r.
    destruct (is_error_status (status_code r)); simpl; auto.
  - exists (mkTokenPair "" ""), 0%nat. split; [lia|]. simpl.
    rewrite app_nil_r. auto.
Qed.

(** X4.  In every world and for every answer of the server, one call of
    [_request] issues at most three network calls, and they are an initial
    segment of: the request, one refresh call, the request again.  It never
    sleeps, never removes or alters an object of the heap, and a client
    that held a pair still holds one afterwards. *)
Theorem request_call_bound
    (w : World) (meth path : string) (retry : bool) (kw : gmap string Json) :
  exists tp tp' n,
    (n <= 3)%nat /\
    log (jike_client._request meth path retry kw w).2
    = (log w ++ take n [api_request meth path tp kw;
                        refresh_request tp;
                        api_request meth path tp' kw])%list /\
    sleeps (jike_client._request meth path retry kw w).2 = sleeps w /\
    (forall l tp0,
       heap w !! l = Some tp0 ->
       heap (jike_client._request meth path retry kw w).2 !! l = Some tp0) /\
    (is_Some (heap w !! client_tokens w) ->
     is_Some (heap (jike_client._request meth path retry kw w).2
                !! client_tokens (jike_client._request meth path retry kw w).2)).
Proof.
  unfold jike_client._request. rewrite _request_rec_cases.
  destruct (heap w !! client_tokens w) as [tp|] eqn:Htp.
  2:{ exists (mkTokenPair "" ""), (mkTokenPair "" ""), 0%nat.
      split; [lia|]. simpl. rewrite app_nil_r.
      split; [reflexivity|]. split; [reflexivity|]. split; [auto|].
      intros [x Hx]. discriminate Hx. }
  cbv zeta.
  destruct (server w (log w) (api_request meth path tp kw)) as [r|] eqn:Hsrv.
  2:{ exists tp, tp, 1%nat. split; [lia|]. simpl.
      split; [reflexivity|]. split; [reflexivity|]. split; [auto|].
      intros _. now exists tp. }
  destruct ((status_code r =? 401) && retry).
  2:{ exists tp, tp, 1%nat. split; [lia|].
      destruct (is_error_status (status_code r)); simpl;
        (split; [reflexivity|]; split; [reflexivity|]; split; [auto|];
         intros _; now exists tp). }
  set (w1 := set_log _ w). unfold bind. rewrite _refresh_cases.
  change (heap w1 !! client_tokens w1) with (heap w !! client_tokens w).
  rewrite Htp. cbv zeta.
  change (server w1 (log w1)) with (server w (log w ++ [api_request meth path tp kw])).
  destruct (server w _ (refresh_request tp)) as [rr|].
  2:{ exists tp, tp, 2%nat. split; [lia|]. simpl.
      rewrite <- app_assoc. split; [reflexivity|]. split; [reflexivity|].
      split; [auto|]. intros _. now exists tp. }
  destruct (is_error_status (status_code rr)).
  { exists tp, tp, 2%nat. split; [lia|]. simpl.
    rewrite <- app_assoc. split; [reflexivity|]. split; [reflexivity|].
    split; [auto|]. intros _. now exists tp. }
  set (w2 := after_refresh w1 tp rr).
  assert (Htp2 : heap w2 !! client_tokens w2 = Some (refreshed tp rr)).
  { subst w2. unfold after_refresh. simpl. apply lookup_insert_eq. }
  assert (Hold : forall l tp0, heap w !! l = Some tp0 -> heap w2 !! l = Some tp0).
  { intros l tp0 H. subst w2. now apply after_refresh_preserves. }
  assert (Hlog2 : log w2 = (log w ++ [api_request meth path tp kw; refresh_request tp])%list).
  { subst w2 w1. unfold after_refresh. simpl. now rewrite <- app_assoc. }
  assert (Hsl2 : sleeps w2 = sleeps w) by reflexivity.
  clearbody w2.
  rewrite _request_rec_cases, Htp2. cbv zeta.
  exists tp, (refreshed tp rr).
  destruct (server w2 (log w2) _) as [r2|].
  - exists 3%nat. split; [lia|]. rewrite andb_false_r.
    destruct (is_error_status (status_code r2)); simpl;
      rewrite Hlog2, <- app_assoc;
      (split; [reflexivity|]; split; [exact Hsl2|]; split; [exact Hold|];
       intros _; now exists (refreshed tp rr)).
  - exists 3%nat. split; [lia|]. simpl. rewrite Hlog2, <- app_assoc.
    split; [reflexivity|]. split; [exact Hsl2|]. split; [exact Hold|].
    intros _. now exists (refreshed tp rr).
Qed.

(* ===================================================================== *)
(** ** More on the poll loop                                              *)
(* ===================================================================== *)

Lemma pure_run {A} (c : M A) w : pure_comp c -> exists r, c w = (r, w).
Proof.
  intros H. specialize (H w). destruct (c w) as [r w']. simpl in H.
  subst. now exists r.
Qed.

Lemma pure_ret {A} (a : A) : pure_comp (ret a).
Proof. now intros w. Qed.

Lemma pure_raise {A} e : pure_comp (@raise A e).
Proof. now intros w. Qed.

Lemma pure_bind {A B} (c : M A) (k : A -> M B) :
  pure_comp c -> (forall a, pure_comp (k a)) -> pure_comp (bind c k).
Proof.
  intros Hc Hk w. unfold bind. specialize (Hc w).
  destruct (c w) as [[a|e] w']; simpl in *; subst; [apply Hk | reflexivity].
Qed.

Lemma pure_try_except {A} (c : M A) handles (h : M A) :
  pure_comp c -> pure_comp h -> pure_comp (try_except c handles h).
Proof.
  intros Hc Hh w. unfold try_except. specialize (Hc w).
  destruct (c w) as [[a|e] w']; simpl in *; subst; [reflexivity|].
  destruct (handles e); [apply Hh | reflexivity].
Qed.

Lemma pure_resp_json resp : pure_comp (resp_json resp).
Proof. unfold resp_json. destruct (json_body resp); now intros w. Qed.

Lemma pure_dict_get body k : pure_comp (dict_get body k).
Proof. destruct body; now intros w. Qed.

Lemma pure_as_str v : pure_comp (as_str v).
Proof. destruct v; now intros w. Qed.

Lemma pure_py_or a b : pure_comp a -> pure_comp b -> pure_comp (py_or a b).
Proof.
  intros Ha Hb. unfold py_or. apply pure_bind; [exact Ha|].
  intros v. destruct (truthy v); [apply pure_ret | exact Hb].
Qed.

(** Token extraction touches nothing but the heap, where it adds at most
    one object. *)
Lemma extract_tokens_frame resp w :
  (jike_auth._extract_tokens resp w).2 = w \/
  exists tp, (jike_auth._extract_tokens resp w).2 = after_new w tp.
Proof.
  unfold jike_auth._extract_tokens.
  destruct (pure_run (try_except (resp_json resp) is_ValueError_or_KeyError
                        (ret (JObj ∅))) w) as [[body|e] Hb].
  { apply pure_try_except; [apply pure_resp_json | apply pure_ret]. }
  2:{ rewrite (bind_raise _ _ _ _ _ Hb). now left. }
  rewrite (bind_ok _ _ _ _ _ Hb).
  destruct (pure_run (py_or (dict_get body "x-jike-access-token")
                        (py_or (dict_get body "access_token")
                           (ret (headers_get_opt resp "x-jike-access-token")))) w)
    as [[va|e] Ha].
  { repeat apply pure_py_or; try apply pure_dict_get; apply pure_ret. }
  2:{ rewrite (bind_raise _ _ _ _ _ Ha). now left. }
  rewrite (bind_ok _ _ _ _ _ Ha).
  destruct (pure_run (py_or (dict_get body "x-jike-refresh-token")
                        (py_or (dict_get body "refresh_token")
                           (ret (headers_get_opt resp "x-jike-refresh-token")))) w)
    as [[vr|e] Hr].
  { repeat apply pure_py_or; try apply pure_dict_get; apply pure_ret. }
  2:{ rewrite (bind_raise _ _ _ _ _ Hr). now left. }
  rewrite (bind_ok _ _ _ _ _ Hr).
  destruct (truthy va && truthy vr); [| now left].
  destruct va; try (now left). destruct vr; try (now left).
  right. eexists. reflexivity.
Qed.

(** One iteration of the poll loop, in every case. *)
Lemma poll_loop_step uuid n w :
  jike_auth.poll_loop uuid (S n) w
  = match server w (log w) (poll_request uuid) with
    | NetFail => jike_auth.poll_loop uuid n (after_polls w uuid 1 1)
    | Resp r =>
        if status_code r =? 200
        then jike_auth._extract_tokens r (after_polls w uuid 1 0)
        else jike_auth.poll_loop uuid n (after_polls w uuid 1 1)
    end.
Proof.
  cbn [jike_auth.poll_loop]. unfold bind at 1. unfold try_except.
  unfold bind at 1. unfold jike_auth._get, requests_get, requests_request.
  change (mkRequest "GET" (API_BASE +:+ jike_auth.wait_path uuid)
            DEFAULT_HEADERS ∅) with (poll_request uuid).
  destruct (server w (log w) (poll_request uuid)) as [r|].
  - unfold ret at 1.
    assert (Hw : set_log (log w ++ [poll_request uuid]) w
                 = after_polls w uuid 1 0).
    { unfold after_polls, set_sleeps, set_log. simpl.
      rewrite app_nil_r. reflexivity. }
    assert (Hs : forall c : M (option loc),
              (sleep jike_auth.POLL_INTERVAL_SEC ;;; c)
                (set_log (log w ++ [poll_request uuid]) w)
              = c (after_polls w uuid 1 1)) by reflexivity.
    destruct (status_code r =? 200); [now rewrite Hw|].
    destruct (status_code r =? 400); apply Hs.
  - simpl. reflexivity.
Qed.

Lemma after_polls_after_polls w uuid a b c d :
  after_polls (after_polls w uuid a b) uuid c d
  = after_polls w uuid (a + c) (b + d).
Proof.
  unfold after_polls, set_sleeps, set_log. simpl.
  now rewrite <- !app_assoc, !replicate_add.
Qed.

(** [n] polls none of which is answered 200: timeout. *)
Lemma poll_loop_not_yet uuid n : forall w,
  (forall k, (k < n)%nat ->
     not_yet (server w (log w ++ replicate k (poll_request uuid))
                (poll_request uuid))) ->
  jike_auth.poll_loop uuid n w = (Ok None, after_polls w uuid n n).
Proof.
  induction n as [|n IH]; intros w H.
  - simpl. unfold ret, after_polls, set_sleeps, set_log. simpl.
    rewrite !app_nil_r. now destruct w.
  - rewrite poll_loop_step.
    pose proof (H 0%nat ltac:(lia)) as H0. simpl in H0.
    rewrite app_nil_r in H0.
    assert (Hrest : forall k, (k < n)%nat ->
              not_yet (server (after_polls w uuid 1 1)
                         (log (after_polls w uuid 1 1)
                          ++ replicate k (poll_request uuid))
                         (poll_request uuid))).
    { intros k Hk. specialize (H (S k) ltac:(lia)). simpl.
      rewrite <- app_assoc. exact H. }
    destruct (server w (log w) (poll_request uuid)) as [r|].
    + simpl in H0. apply Z.eqb_neq in H0. rewrite H0.
      rewrite (IH _ Hrest). now rewrite after_polls_after_polls.
    + rewrite (IH _ Hrest). now rewrite after_polls_after_polls.
Qed.

(** The first 200 after [k] polls that were not: extraction decides. *)
Lemma poll_loop_first_200 uuid k r : forall n w,
  (k < n)%nat ->
  (forall j, (j < k)%nat ->
     not_yet (server w (log w ++ replicate j (poll_request uuid))
                (poll_request uuid))) ->
  server w (log w ++ replicate k (poll_request uuid)) (poll_request uuid)
  = Resp r ->
  status_code r = 200 ->
  jike_auth.poll_loop uuid n w
  = jike_auth._extract_tokens r (after_polls w uuid (S k) k).
Proof.
  induction k as [|k IH]; intros n w Hn H Hr H200.
  - destruct n as [|n]; [lia|]. rewrite poll_loop_step.
    simpl in Hr. rewrite app_nil_r in Hr. rewrite Hr, H200. reflexivity.
  - destruct n as [|n]; [lia|]. rewrite poll_loop_step.
    pose proof (H 0%nat ltac:(lia)) as H0. simpl in H0.
    rewrite app_nil_r in H0.
    assert (Hgo : jike_auth.poll_loop uuid n (after_polls w uuid 1 1)
                  = jike_auth._extract_tokens r (after_polls w uuid (S (S k)) (S k))).
    { rewrite (IH n (after_polls w uuid 1 1)).
      - now rewrite after_polls_after_polls.
      - lia.
      - intros j Hj. specialize (H (S j) ltac:(lia)). simpl.
        rewrite <- app_assoc. exact H.
      - simpl. rewrite <- app_assoc. exact Hr.
      - exact H200. }
    destruct (server w (log w) (poll_request uuid)) as [r0|].
    + simpl in H0. apply Z.eqb_neq in H0. rewrite H0. exact Hgo.
    + exact Hgo.
Qed.

(** X5.  Transport failures and statuses other than 200 all mean "not
    yet": when none of the 180 polls is answered 200, whatever mix of
    failures, 400s, 500s or other statuses comes back, [poll_confirmation]
    returns [None] after exactly 180 polls and 180 pauses; no exception
    escapes. *)
Theorem poll_confirmation_not_yet_times_out (w : World) (uuid : string) :
  (forall k, (k < 180)%nat ->
     not_yet (server w (log w ++ replicate k (poll_request uuid))
                (poll_request uuid))) ->
  jike_auth.poll_confirmation uuid w = (Ok None, after_polls w uuid 180 180).
Proof.
  intros H. unfold jike_auth.poll_confirmation.
  change (Z.to_nat (jike_auth.POLL_TIMEOUT_SEC `div` jike_auth.POLL_INTERVAL_SEC))
    with 180%nat.
  now apply poll_loop_not_yet.
Qed.

Lemma poll_confirmation_not_yet_times_out_witness :
  jike_auth.poll_confirmation "uuid-123"
    (initial_world tp_a1_r1
       (scripted [NetFail; Resp (resp_status 500); Resp (resp_status 400)]))
  = (Ok None,
     after_polls
       (initial_world tp_a1_r1
          (scripted [NetFail; Resp (resp_status 500); Resp (resp_status 400)]))
       "uuid-123" 180 180).
Proof.
  apply (poll_confirmation_not_yet_times_out
           (initial_world tp_a1_r1
              (scripted [NetFail; Resp (resp_status 500); Resp (resp_status 400)]))
           "uuid-123").
  intros k _. unfold initial_world, scripted. simpl.
  rewrite length_replicate.
  destruct k as [|[|[|k]]]; simpl; try discriminate; try exact I.
  destruct k; exact I.
Defined.

(** X6.  Polling stops at the first answer with status 200: after [k]
    polls that were "not yet" ([k] below the budget), a 200 makes
    [poll_confirmation] return whatever token extraction makes of that
    response, be it a pair, [None] or an exception, after [k+1] polls and
    [k] pauses.  The rest of the budget is not used. *)
Theorem poll_confirmation_stops_at_first_200
    (w : World) (uuid : string) (k : nat) (r : Response) :
  (k < 180)%nat ->
  (forall j, (j < k)%nat ->
     not_yet (server w (log w ++ replicate j (poll_request uuid))
                (poll_request uuid))) ->
  server w (log w ++ replicate k (poll_request uuid)) (poll_request uuid)
  = Resp r ->
  status_code r = 200 ->
  jike_auth.poll_confirmation uuid w
  = jike_auth._extract_tokens r (after_polls w uuid (S k) k).
Proof.
  intros Hk H Hr H200. unfold jike_auth.poll_confirmation.
  change (Z.to_nat (jike_auth.POLL_TIMEOUT_SEC `div` jike_auth.POLL_INTERVAL_SEC))
    with 180%nat.
  now apply poll_loop_first_200.
Qed.

Lemma poll_confirmation_stops_at_first_200_witness :
  jike_auth.poll_confirmation "uuid-123"
    (initial_world tp_a1_r1
       (scripted [Resp (resp_status 400); NetFail; Resp resp_mixed_sources]))
  = jike_auth._extract_tokens resp_mixed_sources
      (after_polls
         (initial_world tp_a1_r1
            (scripted [Resp (resp_status 400); NetFail; Resp resp_mixed_sources]))
         "uuid-123" 3 2).
Proof.
  apply (poll_confirmation_stops_at_first_200
           (initial_world tp_a1_r1
              (scripted [Resp (resp_status 400); NetFail; Resp resp_mixed_sources]))
           "uuid-123" 2%nat resp_mixed_sources).
  - lia.
  - intros j Hj. destruct j as [|[|j]]; [discriminate | exact I | lia].
  - reflexivity.
  - reflexivity.
Defined.

(** Extraction finds no pair when either token is missing. *)
Lemma extract_tokens_none resp d w :
  body_dict resp = Some d ->
  first_present
    (token_candidates resp d
       "x-jike-access-token" "access_token" "x-jike-access-token") = None \/
  first_present
    (token_candidates resp d
       "x-jike-refresh-token" "refresh_token" "x-jike-refresh-token") = None ->
  jike_auth._extract_tokens resp w = (Ok None, w).
Proof.
  intros Hd Hnone. unfold jike_auth._extract_tokens.
  rewrite (bind_ok _ _ _ _ _ (body_read _ _ _ Hd)).
  destruct (py_or_chain d resp "x-jike-access-token" "access_token"
              "x-jike-access-token" w) as (va & Hva & Ha).
  destruct (py_or_chain d resp "x-jike-refresh-token" "refresh_token"
              "x-jike-refresh-token" w) as (vr & Hvr & Hr).
  rewrite (bind_ok _ _ _ _ _ Hva), (bind_ok _ _ _ _ _ Hvr).
  destruct Hnone as [Fa | Fr].
  - rewrite Fa in Ha. now rewrite Ha.
  - rewrite Fr in Hr. rewrite Hr. now rewrite andb_false_r.
Qed.

(** X7.  A 200 answer from which no complete pair can be extracted (the
    body is an object or undecodable, and the access or the refresh token
    is found nowhere) ends polling at once with [None], exactly like a
    timeout, although budget remains: no further poll is made and no pause
    follows. *)
Theorem poll_confirmation_200_without_tokens
    (w : World) (uuid : string) (k : nat) (r : Response)
    (d : gmap string Json) :
  (k < 180)%nat ->
  (forall j, (j < k)%nat ->
     not_yet (server w (log w ++ replicate j (poll_request uuid))
                (poll_request uuid))) ->
  server w (log w ++ replicate k (poll_request uuid)) (poll_request uuid)
  = Resp r ->
  status_code r = 200 ->
  body_dict r = Some d ->
  first_present
    (token_candidates r d
       "x-jike-access-token" "access_token" "x-jike-access-token") = None \/
  first_present
    (token_candidates r d
       "x-jike-refresh-token" "refresh_token" "x-jike-refresh-token") = None ->
  jike_auth.poll_confirmation uuid w = (Ok None, after_polls w uuid (S k) k).
Proof.
  intros Hk H Hr H200 Hd Hnone. unfold jike_auth.poll_confirmation.
  change (Z.to_nat (jike_auth.POLL_TIMEOUT_SEC `div` jike_auth.POLL_INTERVAL_SEC))
    with 180%nat.
  rewrite (poll_loop_first_200 uuid k r 180 w Hk H Hr H200).
  now apply (extract_tokens_none r d).
Qed.

Lemma poll_confirmation_200_without_tokens_witness :
  jike_auth.poll_confirmation "uuid-123"
    (initial_world tp_a1_r1 (constant_server (resp_status 200)))
  = (Ok None,
     after_polls (initial_world tp_a1_r1 (constant_server (resp_status 200)))
       "uuid-123" 1 0).
Proof.
  apply (poll_confirmation_200_without_tokens
           (initial_world tp_a1_r1 (constant_server (resp_status 200)))
           "uuid-123" 0%nat (resp_status 200) ∅).
  - lia.
  - intros j Hj. lia.
  - reflexivity.
  - reflexivity.
  - reflexivity.
  - left. reflexivity.
Defined.

Lemma after_new_preserves w tp l tp0 :
  heap w !! l = Some tp0 -> heap (after_new w tp) !! l = Some tp0.
Proof.
  intros H. unfold after_new. simpl.
  rewrite lookup_insert_ne; [exact H |].
  intros <-. apply (is_fresh (dom (heap w))).
  apply elem_of_dom. now exists tp0.
Qed.

Lemma poll_loop_bound uuid n : forall w,
  exists polls pauses,
    (polls <= n)%nat /\ (pauses <= polls)%nat /\
    log (jike_auth.poll_loop uuid n w).2
    = (log w ++ replicate polls (poll_request uuid))%list /\
    sleeps (jike_auth.poll_loop uuid n w).2
    = (sleeps w ++ replicate pauses jike_auth.POLL_INTERVAL_SEC)%list /\
    client_tokens (jike_auth.poll_loop uuid n w).2 = client_tokens w /\
    (forall l tp0,
       heap w !! l = Some tp0 ->
       heap (jike_auth.poll_loop uuid n w).2 !! l = Some tp0).
Proof.
  induction n as [|n IH]; intros w.
  - exists 0%nat, 0%nat. simpl. rewrite !app_nil_r. repeat split; auto.
  - rewrite poll_loop_step.
    assert (Hgo : exists polls pauses,
              (polls <= S n)%nat /\ (pauses <= polls)%nat /\
              log (jike_auth.poll_loop uuid n (after_polls w uuid 1 1)).2
              = (log w ++ replicate polls (poll_request uuid))%list /\
              sleeps (jike_auth.poll_loop uuid n (after_polls w uuid 1 1)).2
              = (sleeps w ++ replicate pauses jike_auth.POLL_INTERVAL_SEC)%list /\
              client_tokens (jike_auth.poll_loop uuid n (after_polls w uuid 1 1)).2
              = client_tokens w /\
              (forall l tp0,
                 heap w !! l = Some tp0 ->
                 heap (jike_auth.poll_loop uuid n (after_polls w uuid 1 1)).2 !! l
                 = Some tp0)).
    { destruct (IH (after_polls w uuid 1 1))
        as (p & s & Hp & Hs & Hlog & Hsl & Hc & Hh).
      exists (S p), (S s). split; [lia|]. split; [lia|].
      split; [rewrite Hlog; simpl; now rewrite <- app_assoc |].
      split; [rewrite Hsl; simpl; now rewrite <- app_assoc |].
      split; [exact Hc | exact Hh]. }
    destruct (server w (log w) (poll_request uuid)) as [r|]; [| exact Hgo].
    destruct (status_code r =? 200); [| exact Hgo].
    exists 1%nat, 0%nat. split; [lia|]. split; [lia|].
    destruct (extract_tokens_frame r (after_polls w uuid 1 0)) as [-> | [tp ->]].
    + simpl. rewrite app_nil_r. repeat split; auto.
    + simpl. rewrite app_nil_r. repeat split; auto.
      intros l tp0 H.
      now apply (after_new_preserves (after_polls w uuid 1 0)).
Qed.

(** X8.  In every world, whatever the server answers, [poll_confirmation]
    polls the confirmation endpoint of its session at most 180 times and
    issues no other call; it pauses [POLL_INTERVAL_SEC] at most once per
    poll; it leaves the client attribute alone and every existing object
    of the heap as it was. *)
Theorem poll_confirmation_bound (w : World) (uuid : string) :
  exists polls pauses,
    (polls <= 180)%nat /\ (pauses <= polls)%nat /\
    log (jike_auth.poll_confirmation uuid w).2
    = (log w ++ replicate polls (poll_request uuid))%list /\
    sleeps (jike_auth.poll_confirmation uuid w).2
    = (sleeps w ++ replicate pauses jike_auth.POLL_INTERVAL_SEC)%list /\
    client_tokens (jike_auth.poll_confirmation uuid w).2 = client_tokens w /\
    (forall l tp0,
       heap w !! l = Some tp0 ->
       heap (jike_auth.poll_confirmation uuid w).2 !! l = Some tp0).
Proof.
  unfold jike_auth.poll_confirmation.
  change (Z.to_nat (jike_auth.POLL_TIMEOUT_SEC `div` jike_auth.POLL_INTERVAL_SEC))
    with 180%nat.
  apply poll_loop_bound.
Qed.

(** X9.  [refresh_tokens] never modifies the pair it is given, and no
    other object either: in every outcome (success, error status,
    transport failure) each object of the heap reads as before; on success
    the returned reference is a new one, distinct from the argument. *)
Theorem refresh_tokens_leaves_argument_intact
    (w : World) (l : loc) (tp : TokenPair) :
  heap w !! l = Some tp ->
  (forall l0 tp0,
     heap w !! l0 = Some tp0 ->
     heap (jike_auth.refresh_tokens l w).2 !! l0 = Some tp0) /\
  (forall l', (jike_auth.refresh_tokens l w).1 = Ok l' ->
     l' <> l /\ heap w !! l' = None /\
     is_Some (heap (jike_auth.refresh_tokens l w).2 !! l')).
Proof.
  intros Htp. rewrite refresh_tokens_cases, Htp. cbv zeta.
  destruct (server w (log w) (refresh_request tp)) as [resp|].
  2:{ simpl. split; [auto | intros l' [=]]. }
  destruct (is_error_status (status_code resp)).
  { simpl. split; [auto | intros l' [=]]. }
  split.
  - intros l0 tp0 H.
    now apply (after_new_preserves (set_log (log w ++ [refresh_request tp]) w)).
  - simpl. intros l' [= <-].
    assert (Hf : fresh (dom (heap w)) ∉ dom (heap w)) by apply is_fresh.
    split; [| split].
    + intros Heq. apply Hf. rewrite Heq. apply elem_of_dom. now exists tp.
    + now apply not_elem_of_dom_1.
    + rewrite lookup_insert_eq. now eexists.
Qed.

Lemma refresh_tokens_leaves_argument_intact_witness :
  heap (jike_auth.refresh_tokens 0%nat
          (initial_world tp_a1_r1 (constant_server resp_only_access_a2))).2
    !! 0%nat = Some tp_a1_r1 /\
  1%nat <> 0%nat /\
  heap (initial_world tp_a1_r1 (constant_server resp_only_access_a2))
    !! 1%nat = None /\
  is_Some
    (heap (jike_auth.refresh_tokens 0%nat
             (initial_world tp_a1_r1 (constant_server resp_only_access_a2))).2
       !! 1%nat).
Proof.
  destruct (refresh_tokens_leaves_argument_intact
              (initial_world tp_a1_r1 (constant_server resp_only_access_a2))
              0%nat tp_a1_r1 eq_refl) as [Hkeep Hnew].
  split; [exact (Hkeep 0%nat tp_a1_r1 eq_refl) |].
  exact (Hnew 1%nat eq_refl).
Defined.

(* ===================================================================== *)
(** ** The callers of the standalone scripts                              *)
(* ===================================================================== *)

(** The scripts' three callers are one function; two of them also hand
    back the token pair. *)
Lemma scripts_find_users__call_same meth path a r retry kw w :
  scripts_find_users._call meth path a r retry kw w
  = scripts_export._api_call meth path a r retry kw w.
Proof. reflexivity. Qed.

Lemma scripts_refresh_cases rt w :
  scripts_client._refresh rt w
  = let w1 := set_log (log w ++ [refresh_request (mkTokenPair "" rt)]) w in
    match server w (log w) (refresh_request (mkTokenPair "" rt)) with
    | NetFail => (Raise ConnectionError, w1)
    | Resp resp =>
        if is_error_status (status_code resp)
        then (Raise (HTTPError resp), w1)
        else (Ok (script_refreshed rt resp), w1)
    end.
Proof.
  cbv zeta.
  destruct (server w (log w) (refresh_request (mkTokenPair "" rt)))
    as [resp|] eqn:Hsrv.
  - destruct (is_error_status (status_code resp)) eqn:Hst.
    + unfold scripts_client._refresh, requests_post.
      rewrite (bind_ok _ _ _ _ _ (requests_request_resp _ _ _ _ _ _ Hsrv)).
      now rewrite (bind_raise _ _ _ _ _ (raise_for_status_error _ _ Hst)).
    + now apply scripts_client__refresh_run.
  - unfold scripts_client._refresh, requests_post.
    now rewrite (bind_raise _ _ _ _ _ (requests_request_netfail _ _ _ _ _ Hsrv)).
Qed.

(** One frame of [scripts/client.py]'s [_call], in every case. *)
Lemma scripts_client__call_rec_cases depth meth path a r retry kw w :
  scripts_client._call_rec (S depth) meth path a r retry kw w
  = let w1 := set_log (log w ++ [api_request meth path (mkTokenPair a r) kw]) w in
    match server w (log w) (api_request meth path (mkTokenPair a r) kw) with
    | NetFail => (Raise ConnectionError, w1)
    | Resp resp =>
        if (status_code resp =? 401) && retry
        then (new <- scripts_client._refresh r ;;
              scripts_client._call_rec depth meth path new.1 new.2 false kw) w1
        else if is_error_status (status_code resp)
             then (Raise (HTTPError resp), w1)
             else (parsed_body resp, w1)
    end.
Proof.
  cbv zeta. cbn [scripts_client._call_rec].
  destruct (server w (log w) (api_request meth path (mkTokenPair a r) kw))
    as [resp|] eqn:Hsrv.
  - rewrite (bind_ok _ _ _ _ _ (requests_request_resp _ _ _ _ _ _ Hsrv)).
    destruct ((status_code resp =? 401) && retry); [reflexivity|].
    destruct (is_error_status (status_code resp)) eqn:Hst.
    + now rewrite (bind_raise _ _ _ _ _ (raise_for_status_error _ _ Hst)).
    + rewrite (bind_ok _ _ _ _ _ (raise_for_status_ok _ _ Hst)).
      apply body_or_empty_parsed.
  - now rewrite (bind_raise _ _ _ _ _ (requests_request_netfail _ _ _ _ _ Hsrv)).
Qed.

(** One frame of [scripts/export.py]'s [_api_call], in every case. *)
Lemma scripts_export__api_call_rec_cases depth meth path a r retry kw w :
  scripts_export._api_call_rec (S depth) meth path a r retry kw w
  = let w1 := set_log (log w ++ [api_request meth path (mkTokenPair a r) kw]) w in
    match server w (log w) (api_request meth path (mkTokenPair a r) kw) with
    | NetFail => (Raise ConnectionError, w1)
    | Resp resp =>
        if (status_code resp =? 401) && retry
        then (new <- scripts_export._refresh_tokens r ;;
              scripts_export._api_call_rec depth meth path new.1 new.2 false kw) w1
        else if is_error_status (status_code resp)
             then (Raise (HTTPError resp), w1)
             else (with_tokens (parsed_body resp) a r, w1)
    end.
Proof.
  cbv zeta. cbn [scripts_export._api_call_rec].
  destruct (server w (log w) (api_request meth path (mkTokenPair a r) kw))
    as [resp|] eqn:Hsrv.
  - rewrite (bind_ok _ _ _ _ _ (requests_request_resp _ _ _ _ _ _ Hsrv)).
    destruct ((status_code resp =? 401) && retry); [reflexivity|].
    destruct (is_error_status (status_code resp)) eqn:Hst.
    + now rewrite (bind_raise _ _ _ _ _ (raise_for_status_error _ _ Hst)).
    + rewrite (bind_ok _ _ _ _ _ (raise_for_status_ok _ _ Hst)).
      unfold bind.
      change (if str_truthy (content resp) then resp_json resp else ret (JObj ∅))
        with (jike_client.body_or_empty resp).
      rewrite body_or_empty_parsed.
      now destruct (parsed_body resp).
  - now rewrite (bind_raise _ _ _ _ _ (requests_request_netfail _ _ _ _ _ Hsrv)).
Qed.

(** The no-retry frame of [_api_call]: one call, the tokens handed back
    are the ones given. *)
Lemma scripts_export__api_call_no_retry depth meth path a r kw w data a' r' :
  (scripts_export._api_call_rec (S depth) meth path a r false kw w).1
  = Ok (data, a', r') ->
  a' = a /\ r' = r /\
  log (scripts_export._api_call_rec (S depth) meth path a r false kw w).2
  = (log w ++ [api_request meth path (mkTokenPair a r) kw])%list.
Proof.
  rewrite scripts_export__api_call_rec_cases. cbv zeta.
  destruct (server w (log w) _) as [resp|]; [| discriminate].
  rewrite andb_false_r.
  destruct (is_error_status (status_code resp)); [discriminate|].
  simpl. destruct (parsed_body resp) as [j|e]; simpl; [| discriminate].
  intros [= <- <- <-]. auto.
Qed.

(** X10.  When [scripts/export.py]'s [_api_call] returns, what it hands
    back is fixed by the answers of the server, and the pair is the pair in
    force: the last request it sent carried the returned access token.
    Either the first answer had no error status (and was no 401 while
    retrying was enabled): one call was made, the data are its parsed body
    and the pair is the one passed in.  Or the first answer was a 401 with
    retrying enabled and the refresh call was answered without an error
    status: three calls were made, the pair is exactly what the refresh
    helper makes of that refresh answer (its access-token header or the
    empty string, its refresh-token header or the refresh token passed
    in), and the data are the parsed body of the third answer. *)
Theorem api_call_returns_tokens_in_force
    (w : World) (meth path a r : string) (retry : bool)
    (kw : gmap string Json) (data : Json) (a' r' : string) :
  (scripts_export._api_call meth path a r retry kw w).1 = Ok (data, a', r') ->
  (exists lg,
     log (scripts_export._api_call meth path a r retry kw w).2
     = (lg ++ [api_request meth path (mkTokenPair a' r') kw])%list) /\
  ((exists r1,
      server w (log w) (api_request meth path (mkTokenPair a r) kw) = Resp r1 /\
      (status_code r1 =? 401) && retry = false /\
      is_error_status (status_code r1) = false /\
      parsed_body r1 = Ok data /\
      a' = a /\ r' = r /\
      log (scripts_export._api_call meth path a r retry kw w).2
      = (log w ++ [api_request meth path (mkTokenPair a r) kw])%list) \/
   (exists r1 resp r2,
      retry = true /\
      server w (log w) (api_request meth path (mkTokenPair a r) kw) = Resp r1 /\
      status_code r1 = 401 /\
      server w (log w ++ [api_request meth path (mkTokenPair a r) kw])
        (refresh_request (mkTokenPair "" r)) = Resp resp /\
      is_error_status (status_code resp) = false /\
      a' = default "" (resp_headers resp !! "x-jike-access-token") /\
      r' = default r (resp_headers resp !! "x-jike-refresh-token") /\
      server w (log w ++ [api_request meth path (mkTokenPair a r) kw;
                          refresh_request (mkTokenPair "" r)])
        (api_request meth path (mkTokenPair a' r') kw) = Resp r2 /\
      is_error_status (status_code r2) = false /\
      parsed_body r2 = Ok data /\
      log (scripts_export._api_call meth path a r retry kw w).2
      = (log w ++ [api_request meth path (mkTokenPair a r) kw;
                   refresh_request (mkTokenPair "" r);
                   api_request meth path (mkTokenPair a' r') kw])%list)).
Proof.
  unfold scripts_export._api_call.
  rewrite scripts_export__api_call_rec_cases. cbv zeta.
  destruct (server w (log w) _) as [resp|] eqn:Hs1; [| discriminate].
  destruct ((status_code resp =? 401) && retry) eqn:H401.
  - apply andb_true_iff in H401 as [H401 ->]. apply Z.eqb_eq in H401.
    set (w1 := set_log _ w). unfold bind.
    change (scripts_export._refresh_tokens r w1)
      with (scripts_client._refresh r w1).
    rewrite scripts_refresh_cases. cbv zeta.
    change (server w1) with (server w).
    change (log w1)
      with (log w ++ [api_request meth path (mkTokenPair a r) kw])%list.
    destruct (server w _ (refresh_request (mkTokenPair "" r)))
      as [rr|] eqn:Hs2; [| discriminate].
    destruct (is_error_status (status_code rr)) eqn:Hrr; [discriminate|].
    set (w2 := set_log _ w1).
    rewrite scripts_export__api_call_rec_cases. cbv zeta.
    change (server w2) with (server w).
    change (log w2)
      with ((log w ++ [api_request meth path (mkTokenPair a r) kw])
            ++ [refresh_request (mkTokenPair "" r)])%list.
    rewrite <- app_assoc. cbn [app].
    destruct (server w (log w ++ [_; _]) (api_request meth path _ kw))
      as [r2|] eqn:Hs3; [| discriminate].
    rewrite andb_false_r.
    destruct (is_error_status (status_code r2)) eqn:Hr2; [discriminate|].
    cbn [fst snd].
    destruct (parsed_body r2) as [j|e] eqn:Hp2; cbn [with_tokens]; [| discriminate].
    intros [= <- <- <-]. split.
    + eexists. cbn [log set_log]. reflexivity.
    + right. exists resp, rr, r2.
      repeat (split; [first [reflexivity | assumption] |]).
      subst w2 w1. cbn [log set_log]. now rewrite <- !app_assoc.
  - destruct (is_error_status (status_code resp)) eqn:Hst; [discriminate|].
    cbn [fst snd].
    destruct (parsed_body resp) as [j|e] eqn:Hp; cbn [with_tokens]; [| discriminate].
    intros [= <- <- <-]. split; [eexists; reflexivity |].
    left. exists resp. repeat (split; [first [reflexivity | assumption] |]).
    reflexivity.
Qed.

Lemma api_call_returns_tokens_in_force_witness :
  exists r1 resp r2,
    server (initial_world tp_a1_r1
              (scripted [Resp (resp_status 401); Resp resp_only_refresh_r2;
                         Resp resp_ok_data])) []
      (api_request "GET" "/t" (mkTokenPair "a1" "r1") ∅) = Resp r1 /\
    status_code r1 = 401 /\
    resp_headers resp !! "x-jike-access-token" = None /\
    resp_headers resp !! "x-jike-refresh-token" = Some "r2" /\
    parsed_body r2 = Ok (JObj {["data" := JStr "ok"]}) /\
    log (scripts_export._api_call "GET" "/t" "a1" "r1" true ∅
           (initial_world tp_a1_r1
              (scripted [Resp (resp_status 401); Resp resp_only_refresh_r2;
                         Resp resp_ok_data]))).2
    = [api_request "GET" "/t" (mkTokenPair "a1" "r1") ∅;
       refresh_request (mkTokenPair "" "r1");
       api_request "GET" "/t" (mkTokenPair "" "r2") ∅].
Proof.
  destruct (api_call_returns_tokens_in_force
              (initial_world tp_a1_r1
                 (scripted [Resp (resp_status 401); Resp resp_only_refresh_r2;
                            Resp resp_ok_data]))
              "GET" "/t" "a1" "r1" true ∅
              (JObj {["data" := JStr "ok"]}) "" "r2" eq_refl)
    as [_ [(r1 & _ & _ & _ & _ & Hno & _)
          | (r1 & resp & r2 & _ & H1 & H401 & H2 & _ & _ & _
             & H3 & _ & Hp & Hlog)]].
  - discriminate Hno.
  - exists r1, resp, r2.
    split; [exact H1 |]. split; [exact H401 |].
    vm_compute in H2. injection H2 as <-.
    split; [reflexivity |]. split; [reflexivity |].
    split; [exact Hp | exact Hlog].
Defined.

(** X11.  In the scripts, a refresh response without an access-token
    header makes the retry go out with an empty access token: after a 401
    and such a refresh, the third and last call of [scripts/client.py]'s
    [_call] carries [x-jike-access-token: ""], whatever the server then
    answers. *)
Theorem script_call_retries_with_empty_access_token
    (w : World) (meth path a r : string) (kw : gmap string Json)
    (r1 rr : Response) :
  server w (log w) (api_request meth path (mkTokenPair a r) kw) = Resp r1 ->
  status_code r1 = 401 ->
  server w (log w ++ [api_request meth path (mkTokenPair a r) kw])
    (refresh_request (mkTokenPair "" r))
  = Resp rr ->
  is_error_status (status_code rr) = false ->
  resp_headers rr !! "x-jike-access-token" = None ->
  exists retried,
    log (scripts_client._call meth path a r true kw w).2
    = (log w ++ [api_request meth path (mkTokenPair a r) kw;
                 refresh_request (mkTokenPair "" r);
                 retried])%list /\
    method retried = meth /\ url retried = API_BASE +:+ path /\
    kwargs retried = kw /\
    headers retried !! "x-jike-access-token" = Some "".
Proof.
  intros Hsrv H401 Hsrv2 Hok Hnone.
  unfold scripts_client._call.
  rewrite scripts_client__call_rec_cases. cbv zeta.
  rewrite Hsrv, H401. change ((401 =? 401) && true) with true. cbv iota.
  set (w1 := set_log _ w). unfold bind.
  rewrite scripts_refresh_cases. cbv zeta.
  change (server w1 (log w1)) with
    (server w (log w ++ [api_request meth path (mkTokenPair a r) kw])).
  rewrite Hsrv2, Hok.
  set (w2 := set_log _ w1).
  assert (Hnew : (script_refreshed r rr).1 = "").
  { unfold script_refreshed. simpl. now rewrite Hnone. }
  rewrite Hnew.
  exists (api_request meth path (mkTokenPair "" (script_refreshed r rr).2) kw).
  assert (Hlog2 : log w2 = (log w ++ [api_request meth path (mkTokenPair a r) kw;
                                      refresh_request (mkTokenPair "" r)])%list).
  { subst w2 w1. simpl. now rewrite <- app_assoc. }
  clearbody w2.
  split.
  - rewrite scripts_client__call_rec_cases. cbv zeta.
    destruct (server w2 (log w2) _) as [r3|].
    + rewrite andb_false_r.
      destruct (is_error_status (status_code r3)); simpl;
        rewrite Hlog2; now rewrite <- app_assoc.
    + simpl. rewrite Hlog2. now rewrite <- app_assoc.
  - split; [reflexivity|]. split; [reflexivity|]. split; [reflexivity|].
    unfold api_request, jike_client.build_headers. simpl.
    apply lookup_insert_eq.
Qed.

Lemma script_call_retries_with_empty_access_token_witness :
  exists retried,
    log (scripts_client._call "GET" "/t" "a1" "r1" true ∅
           (initial_world tp_a1_r1
              (scripted [Resp (resp_status 401); Resp resp_only_refresh_r2;
                         Resp (resp_status 401)]))).2
    = [api_request "GET" "/t" (mkTokenPair "a1" "r1") ∅;
       refresh_request (mkTokenPair "" "r1");
       retried] /\
    method retried = "GET" /\ url retried = API_BASE +:+ "/t" /\
    kwargs retried = ∅ /\
    headers retried !! "x-jike-access-token" = Some "".
Proof.
  apply (script_call_retries_with_empty_access_token
           (initial_world tp_a1_r1
              (scripted [Resp (resp_status 401); Resp resp_only_refresh_r2;
                         Resp (resp_status 401)]))
           "GET" "/t" "a1" "r1" ∅ (resp_status 401) resp_only_refresh_r2);
    reflexivity.
Defined.

(** X12.  [scripts/client.py]'s [_call] and the package's
    [JikeClient._request] agree whenever a refresh response names an access
    token: started with the same pair in the same world, they return the
    same result or raise the same exception, and they issue the same calls
    in the same order. *)
Theorem script_call_agrees_with_client_request
    (w : World) (tp : TokenPair) (meth path : string)
    (kw : gmap string Json) :
  heap w !! client_tokens w = Some tp ->
  (forall rr,
     server w (log w ++ [api_request meth path tp kw]) (refresh_request tp)
     = Resp rr ->
     is_Some (resp_headers rr !! "x-jike-access-token")) ->
  (scripts_client._call meth path (access_token tp) (refresh_token tp)
     true kw w).1
  = (jike_client._request meth path true kw w).1 /\
  log (scripts_client._call meth path (access_token tp) (refresh_token tp)
         true kw w).2
  = log (jike_client._request meth path true kw w).2.
Proof.
  intros Htp Hhdr. destruct tp as [a r]. simpl access_token. simpl refresh_token.
  unfold scripts_client._call, jike_client._request.
  rewrite scripts_client__call_rec_cases, _request_rec_cases, Htp. cbv zeta.
  destruct (server w (log w) (api_request meth path (mkTokenPair a r) kw))
    as [r1|]; [| now split].
  destruct ((status_code r1 =? 401) && true).
  2:{ destruct (is_error_status (status_code r1)); now split. }
  set (w1 := set_log _ w). unfold bind.
  rewrite scripts_refresh_cases, _refresh_cases.
  change (heap w1 !! client_tokens w1) with (heap w !! client_tokens w).
  rewrite Htp. cbv zeta.
  change (refresh_request (mkTokenPair "" r))
    with (refresh_request (mkTokenPair a r)).
  change (server w1 (log w1)) with
    (server w (log w ++ [api_request meth path (mkTokenPair a r) kw])).
  specialize (Hhdr).
  destruct (server w _ (refresh_request (mkTokenPair a r))) as [rr|] eqn:Hrr;
    [| now split].
  destruct (is_error_status (status_code rr)); [now split|].
  destruct (Hhdr rr eq_refl) as [a2 Ha2].
  assert (Hnew : script_refreshed r rr
                 = (access_token (refreshed (mkTokenPair a r) rr),
                    refresh_token (refreshed (mkTokenPair a r) rr))).
  { unfold script_refreshed, refreshed. simpl. now rewrite Ha2. }
  rewrite Hnew. cbn [fst snd].
  set (tp' := refreshed (mkTokenPair a r) rr).
  set (ws := set_log _ w1).
  set (wc := after_refresh w1 (mkTokenPair a r) rr).
  assert (Htpc : heap wc !! client_tokens wc = Some tp').
  { subst wc. unfold after_refresh. simpl. apply lookup_insert_eq. }
  assert (Hlogc : log wc = log ws) by reflexivity.
  assert (Hsrvc : server wc = server ws) by reflexivity.
  clearbody wc ws.
  rewrite scripts_client__call_rec_cases, _request_rec_cases, Htpc. cbv zeta.
  rewrite Hlogc, Hsrvc.
  replace (mkTokenPair (access_token tp') (refresh_token tp')) with tp'
    by now destruct tp'.
  destruct (server ws (log ws) (api_request meth path tp' kw)) as [r2|];
    [| now split].
  rewrite andb_false_r.
  destruct (is_error_status (status_code r2)); now split.
Qed.

Lemma script_call_agrees_with_client_request_witness :
  (scripts_client._call "GET" "/test" "a1" "r1" true ∅
     (initial_world tp_a1_r1
        (scripted [Resp (resp_status 401); Resp resp_only_access_a2;
                   Resp resp_ok_data]))).1
  = (jike_client._request "GET" "/test" true ∅
       (initial_world tp_a1_r1
          (scripted [Resp (resp_status 401); Resp resp_only_access_a2;
                     Resp resp_ok_data]))).1 /\
  log (scripts_client._call "GET" "/test" "a1" "r1" true ∅
         (initial_world tp_a1_r1
            (scripted [Resp (resp_status 401); Resp resp_only_access_a2;
                       Resp resp_ok_data]))).2
  = log (jike_client._request "GET" "/test" true ∅
           (initial_world tp_a1_r1
              (scripted [Resp (resp_status 401); Resp resp_only_access_a2;
                         Resp resp_ok_data]))).2.
Proof.
  apply (script_call_agrees_with_client_request
           (initial_world tp_a1_r1
              (scripted [Resp (resp_status 401); Resp resp_only_access_a2;
                         Resp resp_ok_data]))
           tp_a1_r1 "GET" "/test" ∅).
  - reflexivity.
  - intros rr [= <-]. now exists "a2".
Defined.

(* ===================================================================== *)
(** ** Calls in sequence on one client                                    *)
(* ===================================================================== *)

Lemma not_error_not_401 s : is_error_status s = false -> (s =? 401) = false.
Proof.
  unfold is_error_status. intros H. apply Z.eqb_neq. intros ->.
  discriminate H.
Qed.

(** After a 401 and an accepted refresh, [_request] continues as its
    no-retry frame in the world the refresh left. *)
Lemma _request_retry_run w tp meth path kw r1 rr :
  heap w !! client_tokens w = Some tp ->
  server w (log w) (api_request meth path tp kw) = Resp r1 ->
  status_code r1 = 401 ->
  server w (log w ++ [api_request meth path tp kw]) (refresh_request tp)
  = Resp rr ->
  is_error_status (status_code rr) = false ->
  jike_client._request meth path true kw w
  = jike_client._request_rec 1 meth path false kw
      (after_refresh (set_log (log w ++ [api_request meth path tp kw]) w) tp rr).
Proof.
  intros Htp Hsrv H401 Hsrv2 Hok. unfold jike_client._request.
  rewrite (_request_rec_step _ _ _ _ _ _ _ _ Htp Hsrv).
  rewrite H401, Z.eqb_refl. change (true && true) with true. cbv iota.
  set (w1 := set_log _ w).
  now rewrite (bind_ok _ _ w1 _ _ (_refresh_ok w1 tp rr Htp Hsrv2 Hok)).
Qed.

(** A frame answered without an error status returns the parsed body. *)
Lemma _request_rec_success depth w tp meth path retry kw r :
  heap w !! client_tokens w = Some tp ->
  server w (log w) (api_request meth path tp kw) = Resp r ->
  is_error_status (status_code r) = false ->
  jike_client._request_rec (S depth) meth path retry kw w
  = (parsed_body r, set_log (log w ++ [api_request meth path tp kw]) w).
Proof.
  intros Htp Hsrv Hok. rewrite _request_rec_cases, Htp. cbv zeta.
  rewrite Hsrv, (not_error_not_401 _ Hok), Hok. reflexivity.
Qed.

(** X13.  The [notifications] command asks for the unread count first and
    the list second, on the same client.  When the first call is answered
    401 and the refresh succeeds, the refreshed pair stays in the client:
    the list request goes out with the refreshed access token, no second
    refresh is needed, and the command returns both bodies under the keys
    [unread] and [list]. *)
Theorem notifications_command_reuses_refreshed_tokens
    (w : World) (tp : TokenPair) (a : jike_client.Namespace)
    (r1 rr ru rl : Response) (u l : Json) :
  heap w !! client_tokens w = Some tp ->
  server w (log w) (unread_request tp) = Resp r1 ->
  status_code r1 = 401 ->
  server w (log w ++ [unread_request tp]) (refresh_request tp) = Resp rr ->
  is_error_status (status_code rr) = false ->
  server w (log w ++ [unread_request tp; refresh_request tp])
    (unread_request (refreshed tp rr)) = Resp ru ->
  is_error_status (status_code ru) = false ->
  parsed_body ru = Ok u ->
  server w (log w ++ [unread_request tp; refresh_request tp;
                      unread_request (refreshed tp rr)])
    (list_request (refreshed tp rr)) = Resp rl ->
  is_error_status (status_code rl) = false ->
  parsed_body rl = Ok l ->
  exists handler w',
    jike_client._DISPATCH !! "notifications" = Some handler /\
    handler a w = (Ok (JObj (<["list" := l]> {["unread" := u]})), w') /\
    log w' = (log w ++ [unread_request tp; refresh_request tp;
                        unread_request (refreshed tp rr);
                        list_request (refreshed tp rr)])%list /\
    headers (list_request (refreshed tp rr)) !! "x-jike-access-token"
    = Some (access_token (refreshed tp rr)) /\
    heap w' !! client_tokens w' = Some (refreshed tp rr).
Proof.
  intros Htp Hs1 H401 Hs2 Hokr Hs3 Hoku Hu Hs4 Hokl Hl.
  enough (Hrun : exists w',
            (u0 <- jike_client.unread_notifications ;;
             l0 <- jike_client.list_notifications JNull ;;
             ret (JObj (<["list" := l0]> {["unread" := u0]}))) w
            = (Ok (JObj (<["list" := l]> {["unread" := u]})), w') /\
            log w' = (log w ++ [unread_request tp; refresh_request tp;
                                unread_request (refreshed tp rr);
                                list_request (refreshed tp rr)])%list /\
            heap w' !! client_tokens w' = Some (refreshed tp rr)).
  { destruct Hrun as (w' & Hr1 & Hr2 & Hr3).
    eexists. exists w'. split.
    { unfold jike_client._DISPATCH. apply lookup_insert_eq. }
    split; [exact Hr1|]. split; [exact Hr2|]. split; [| exact Hr3].
    unfold list_request, api_request, jike_client.build_headers. simpl.
    apply lookup_insert_eq. }
  unfold jike_client.unread_notifications, jike_client.list_notifications.
  cbn [truthy]. cbv iota zeta.
  unfold bind at 1.
  rewrite (_request_retry_run w tp "GET" "/1.0/notifications/unread" ∅ r1 rr
             Htp Hs1 H401 Hs2 Hokr).
  set (w2 := after_refresh _ tp rr).
  assert (Htp2 : heap w2 !! client_tokens w2 = Some (refreshed tp rr)).
  { subst w2. unfold after_refresh. simpl. apply lookup_insert_eq. }
  assert (Hlog2 : log w2 = (log w ++ [unread_request tp; refresh_request tp])%list).
  { subst w2. unfold after_refresh. simpl. now rewrite <- app_assoc. }
  assert (Hsrv2 : server w2 = server w) by reflexivity.
  clearbody w2.
  assert (Hs3' : server w2 (log w2) (unread_request (refreshed tp rr)) = Resp ru).
  { rewrite Hsrv2, Hlog2. exact Hs3. }
  rewrite (_request_rec_success 0 w2 (refreshed tp rr) "GET"
             "/1.0/notifications/unread" false ∅ ru Htp2 Hs3' Hoku).
  rewrite Hu.
  set (w3 := set_log _ w2).
  assert (Htp3 : heap w3 !! client_tokens w3 = Some (refreshed tp rr))
    by exact Htp2.
  assert (Hlog3 : log w3 = (log w ++ [unread_request tp; refresh_request tp;
                                      unread_request (refreshed tp rr)])%list).
  { subst w3. simpl. rewrite Hlog2. now rewrite <- app_assoc. }
  assert (Hs4' : server w3 (log w3) (list_request (refreshed tp rr)) = Resp rl).
  { rewrite Hlog3. change (server w3) with (server w2). rewrite Hsrv2. exact Hs4. }
  clearbody w3.
  unfold bind at 1. unfold jike_client._request.
  rewrite (_request_rec_success 1 w3 (refreshed tp rr) "POST"
             "/1.0/notifications/list" true {["json" := JObj ∅]} rl
             Htp3 Hs4' Hokl).
  rewrite Hl. unfold ret.
  eexists. split; [reflexivity|].
  split; [simpl; rewrite Hlog3; now rewrite <- app_assoc | exact Htp3].
Qed.

Lemma notifications_command_reuses_refreshed_tokens_witness :
  exists handler w',
    jike_client._DISPATCH !! "notifications" = Some handler /\
    handler (jike_client.mkNamespace "notifications" 0 JNull "" [] "" "" "" "")
      (initial_world tp_a1_r1
         (scripted [Resp (resp_status 401); Resp resp_only_access_a2;
                    Resp resp_ok_data; Resp (resp_status 200)]))
    = (Ok (JObj (<["list" := JObj ∅]>
                 {["unread" := JObj {["data" := JStr "ok"]}]})), w') /\
    log w' = [unread_request tp_a1_r1; refresh_request tp_a1_r1;
              unread_request (mkTokenPair "a2" "r1");
              list_request (mkTokenPair "a2" "r1")] /\
    headers (list_request (mkTokenPair "a2" "r1")) !! "x-jike-access-token"
    = Some "a2" /\
    heap w' !! client_tokens w' = Some (mkTokenPair "a2" "r1").
Proof.
  apply (notifications_command_reuses_refreshed_tokens
           (initial_world tp_a1_r1
              (scripted [Resp (resp_status 401); Resp resp_only_access_a2;
                         Resp resp_ok_data; Resp (resp_status 200)]))
           tp_a1_r1
           (jike_client.mkNamespace "notifications" 0 JNull "" [] "" "" "" "")
           (resp_status 401) resp_only_access_a2 resp_ok_data (resp_status 200)
           (JObj {["data" := JStr "ok"]}) (JObj ∅));
    reflexivity.
Defined.

(* ===================================================================== *)
(** ** The QR payload                                                     *)
(* ===================================================================== *)

Lemma string_length_app (a b : string) :
  String.length (a +:+ b) = (String.length a + String.length b)%nat.
Proof. induction a as [|c a IH]; simpl; [reflexivity | now rewrite IH]. Qed.

Lemma string_app_cons (c : Ascii.ascii) (a b : string) :
  String c a +:+ b = String c (a +:+ b).
Proof. reflexivity. Qed.

Lemma string_app_assoc (a b c : string) :
  (a +:+ b) +:+ c = a +:+ (b +:+ c).
Proof.
  induction a as [|x a IH]; [reflexivity|].
  now rewrite !string_app_cons, IH.
Qed.

Lemma string_app_inv_head (p x y : string) : p +:+ x = p +:+ y -> x = y.
Proof.
  induction p as [|c p IH]; simpl; [auto|]. intros [= H]. now apply IH.
Qed.

Lemma string_app_inv_tail (t : string) : forall x y : string,
  x +:+ t = y +:+ t -> x = y.
Proof.
  induction x as [|c x IH]; intros [|d y] H; simpl in H.
  - reflexivity.
  - exfalso. apply (f_equal String.length) in H.
    rewrite !string_length_app in H. simpl in H.
    rewrite ?string_length_app in H. lia.
  - exfalso. apply (f_equal String.length) in H.
    rewrite !string_length_app in H. simpl in H.
    rewrite ?string_length_app in H. lia.
  - injection H as -> H. f_equal. now apply IH.
Qed.

Lemma quote_app (a b safe : string) :
  jike_auth.quote (a +:+ b) safe
  = jike_auth.quote a safe +:+ jike_auth.quote b safe.
Proof.
  induction a as [|c a IH]; simpl; [reflexivity|].
  rewrite IH. now destruct (jike_auth._ALWAYS_SAFE c || jike_auth.byte_in c safe).
Qed.

Lemma quote_safe_bytes (s safe : string) :
  all_bytes jike_auth._ALWAYS_SAFE s = true -> jike_auth.quote s safe = s.
Proof.
  induction s as [|c s IH]; simpl; [reflexivity|].
  intros H. apply andb_true_iff in H as [Hc Hs].
  rewrite Hc. simpl. now rewrite IH.
Qed.

Lemma hex_digits_round_trip (c : Ascii.ascii) :
  Ascii.ascii_of_N
    (16 * hex_value (jike_auth.hex_digit (Ascii.N_of_ascii c / 16))
     + hex_value (jike_auth.hex_digit (Ascii.N_of_ascii c mod 16)))%N
  = c.
Proof. destruct c as [[] [] [] [] [] [] [] []]; reflexivity. Qed.

Lemma always_safe_not_percent (c : Ascii.ascii) :
  jike_auth._ALWAYS_SAFE c = true ->
  Ascii.eqb c (Ascii.ascii_of_N 37) = false.
Proof.
  destruct c as [[] [] [] [] [] [] [] []]; vm_compute; intros H;
    first [reflexivity | discriminate H].
Qed.

Lemma hex_digit_percent_encoded (n : N) :
  (n < 16)%N -> percent_encoded_byte (jike_auth.hex_digit n) = true.
Proof.
  intros H.
  assert (Hn : In n (map N.of_nat (seq 0 16))).
  { apply in_map_iff. exists (N.to_nat n). split; [lia|].
    apply in_seq. lia. }
  simpl in Hn.
  repeat (destruct Hn as [<- | Hn]; [reflexivity|]). destruct Hn.
Qed.

Lemma quote_percent_encoded (s : string) :
  all_bytes percent_encoded_byte (jike_auth.quote s "") = true.
Proof.
  induction s as [|c s IH]; simpl; [reflexivity|].
  rewrite orb_false_r.
  destruct (jike_auth._ALWAYS_SAFE c) eqn:Hc; simpl.
  - unfold percent_encoded_byte at 1. rewrite Hc. exact IH.
  - rewrite IH, !hex_digit_percent_encoded; [reflexivity | |].
    + apply N.mod_lt. discriminate.
    + apply N.Div0.div_lt_upper_bound.
      pose proof (Ascii.N_ascii_bounded c). lia.
Qed.

Lemma percent_decode_quote (s : string) : forall fuel,
  (String.length (jike_auth.quote s "") <= fuel)%nat ->
  percent_decode fuel (jike_auth.quote s "") = s.
Proof.
  induction s as [|c s IH]; intros fuel Hf.
  - destruct fuel; reflexivity.
  - simpl in *. rewrite orb_false_r in *.
    destruct (jike_auth._ALWAYS_SAFE c) eqn:Hc.
    + destruct fuel as [|fuel]; [simpl in Hf; lia|].
      pose proof (always_safe_not_percent _ Hc) as Hp.
      simpl in Hp |- *. rewrite Hp.
      rewrite IH; [reflexivity | simpl in Hf; lia].
    + destruct fuel as [|fuel]; [simpl in Hf; lia|].
      simpl. rewrite hex_digits_round_trip.
      rewrite IH; [reflexivity | simpl in Hf; lia].
Qed.

Lemma quote_injective (a b : string) :
  jike_auth.quote a "" = jike_auth.quote b "" -> a = b.
Proof.
  intros H.
  rewrite <- (percent_decode_quote a (String.length (jike_auth.quote a "")))
    by lia.
  rewrite <- (percent_decode_quote b (String.length (jike_auth.quote a "")))
    by (rewrite H; lia).
  now rewrite H.
Qed.

(** X14.  Distinct session identifiers give distinct QR payloads: the
    payload determines the identifier, whatever bytes it contains. *)
Theorem build_qr_payload_injective (uuid1 uuid2 : string) :
  jike_auth.build_qr_payload uuid1 = jike_auth.build_qr_payload uuid2 ->
  uuid1 = uuid2.
Proof.
  unfold jike_auth.build_qr_payload. intros H.
  apply string_app_inv_head in H.
  apply string_app_inv_tail in H.
  apply quote_injective in H.
  now apply string_app_inv_head in H.
Qed.

Lemma build_qr_payload_injective_witness :
  "uuid-123" = "uuid-123".
Proof.
  apply (build_qr_payload_injective "uuid-123" "uuid-123"). reflexivity.
Defined.

(** X15.  Whatever the session identifier contains, the value of the
    [url] parameter of the payload consists of letters, digits, [_.-~] and
    percent escapes only: no byte of the identifier can end the parameter
    or start another one. *)
Theorem build_qr_payload_url_is_percent_encoded (uuid : string) :
  exists q,
    jike_auth.build_qr_payload uuid
    = "jike://page.jk/web?url=" +:+ q +:+ qr_suffix /\
    all_bytes percent_encoded_byte q = true /\
    percent_decode (String.length q) q
    = "https://www.okjike.com/account/scan?uuid=" +:+ uuid.
Proof.
  exists (jike_auth.quote ("https://www.okjike.com/account/scan?uuid=" +:+ uuid) "").
  split; [reflexivity|]. split; [apply quote_percent_encoded|].
  now apply percent_decode_quote.
Qed.

(** X16.  A session identifier made of letters, digits and [_.-~], as
    UUIDs are, appears verbatim in the payload, between the fixed prefix
    and the fixed suffix. *)
Theorem build_qr_payload_of_safe_uuid (uuid : string) :
  all_bytes jike_auth._ALWAYS_SAFE uuid = true ->
  jike_auth.build_qr_payload uuid = qr_prefix +:+ uuid +:+ qr_suffix.
Proof.
  intros H. unfold jike_auth.build_qr_payload. cbv zeta.
  rewrite quote_app, (quote_safe_bytes uuid "" H).
  change (jike_auth.quote "https://www.okjike.com/account/scan?uuid=" "")
    with "https%3A%2F%2Fwww.okjike.com%2Faccount%2Fscan%3Fuuid%3D".
  unfold qr_prefix, qr_suffix.
  change "jike://page.jk/web?url=https%3A%2F%2Fwww.okjike.com%2Faccount%2Fscan%3Fuuid%3D"
    with ("jike://page.jk/web?url="
          +:+ "https%3A%2F%2Fwww.okjike.com%2Faccount%2Fscan%3Fuuid%3D").
  now rewrite !string_app_assoc.
Qed.

Lemma build_qr_payload_of_safe_uuid_witness :
  jike_auth.build_qr_payload "test-uuid-1234-abcd"
  = qr_prefix +:+ "test-uuid-1234-abcd" +:+ qr_suffix.
Proof.
  apply (build_qr_payload_of_safe_uuid "test-uuid-1234-abcd"). reflexivity.
Defined.

(* ===================================================================== *)
(** ** [fetch_profile] of [scripts/find_users.py]                         *)
(* ===================================================================== *)

(** X17.  [fetch_profile] swallows an [HTTPError] and answers [None] with
    the pair it was given.  When the error comes after a successful
    refresh (401, refresh accepted, retry answered with an error status),
    three calls were made and the refreshed tokens are lost: the caller
    gets back the access and refresh token it passed in. *)
Theorem fetch_profile_http_error_drops_refreshed_tokens
    (w : World) (username a r : string) (r1 rr r2 : Response) :
  server w (log w)
    (api_request "GET" ("/1.0/users/profile?username=" +:+ username)
       (mkTokenPair a r) ∅) = Resp r1 ->
  status_code r1 = 401 ->
  server w
    (log w ++ [api_request "GET" ("/1.0/users/profile?username=" +:+ username)
                 (mkTokenPair a r) ∅])
    (refresh_request (mkTokenPair "" r)) = Resp rr ->
  is_error_status (status_code rr) = false ->
  server w
    (log w ++ [api_request "GET" ("/1.0/users/profile?username=" +:+ username)
                 (mkTokenPair a r) ∅;
               refresh_request (mkTokenPair "" r)])
    (api_request "GET" ("/1.0/users/profile?username=" +:+ username)
       (mkTokenPair (script_refreshed r rr).1 (script_refreshed r rr).2) ∅)
  = Resp r2 ->
  is_error_status (status_code r2) = true ->
  exists w',
    scripts_find_users.fetch_profile username a r w = (Ok (JNull, a, r), w') /\
    log w'
    = (log w ++ [api_request "GET" ("/1.0/users/profile?username=" +:+ username)
                   (mkTokenPair a r) ∅;
                 refresh_request (mkTokenPair "" r);
                 api_request "GET" ("/1.0/users/profile?username=" +:+ username)
                   (mkTokenPair (script_refreshed r rr).1
                                (script_refreshed r rr).2) ∅])%list.
Proof.
  intros Hs1 H401 Hs2 Hok Hs3 Herr.
  set (path := "/1.0/users/profile?username=" +:+ username) in *.
  assert (Hcall : exists w',
            scripts_export._api_call "GET" path a r true ∅ w
            = (Raise (HTTPError r2), w') /\
            log w' = (log w ++ [api_request "GET" path (mkTokenPair a r) ∅;
                                refresh_request (mkTokenPair "" r);
                                api_request "GET" path
                                  (mkTokenPair (script_refreshed r rr).1
                                               (script_refreshed r rr).2) ∅])%list).
  { unfold scripts_export._api_call.
    rewrite scripts_export__api_call_rec_cases. cbv zeta.
    rewrite Hs1, H401. change ((401 =? 401) && true) with true. cbv iota.
    set (w1 := set_log _ w). unfold bind.
    change (scripts_export._refresh_tokens r w1)
      with (scripts_client._refresh r w1).
    rewrite scripts_refresh_cases. cbv zeta.
    change (server w1 (log w1)) with
      (server w (log w ++ [api_request "GET" path (mkTokenPair a r) ∅])).
    rewrite Hs2, Hok.
    set (w2 := set_log _ w1).
    assert (Hlog2 : log w2 = (log w ++ [api_request "GET" path (mkTokenPair a r) ∅;
                                        refresh_request (mkTokenPair "" r)])%list).
    { subst w2 w1. simpl. now rewrite <- app_assoc. }
    assert (Hsrv2 : server w2 = server w) by reflexivity.
    clearbody w2.
    rewrite scripts_export__api_call_rec_cases. cbv zeta.
    rewrite Hsrv2, Hlog2, Hs3, andb_false_r, Herr.
    eexists. split; [reflexivity|]. simpl.
    now rewrite <- app_assoc. }
  destruct Hcall as (w' & Hrun & Hlog).
  exists w'. split; [| exact Hlog].
  unfold scripts_find_users.fetch_profile, try_except.
  fold path.
  rewrite (bind_raise _ _ _ _ _
             (eq_trans (scripts_find_users__call_same _ _ _ _ _ _ _) Hrun)).
  reflexivity.
Qed.

Lemma fetch_profile_http_error_drops_refreshed_tokens_witness :
  exists w',
    scripts_find_users.fetch_profile "alice" "a1" "r1"
      (initial_world tp_a1_r1
         (scripted [Resp (resp_status 401); Resp resp_only_refresh_r2;
                    Resp (resp_status 404)]))
    = (Ok (JNull, "a1", "r1"), w') /\
    log w'
    = [api_request "GET" "/1.0/users/profile?username=alice"
         (mkTokenPair "a1" "r1") ∅;
       refresh_request (mkTokenPair "" "r1");
       api_request "GET" "/1.0/users/profile?username=alice"
         (mkTokenPair "" "r2") ∅].
Proof.
  apply (fetch_profile_http_error_drops_refreshed_tokens
           (initial_world tp_a1_r1
              (scripted [Resp (resp_status 401); Resp resp_only_refresh_r2;
                         Resp (resp_status 404)]))
           "alice" "a1" "r1"
           (resp_status 401) resp_only_refresh_r2 (resp_status 404));
    reflexivity.
Defined.

(* ===================================================================== *)
(** ** The login flow                                                     *)
(* ===================================================================== *)

Lemma pbind_returns {A B} (c : P A) (k : A -> P B) p a p' :
  c p = (Returns a, p') -> pbind c k p = k a p'.
Proof. intros H. unfold pbind. now rewrite H. Qed.

Lemma pbind_raises {A B} (c : P A) (k : A -> P B) p e p' :
  c p = (Raises e, p') -> pbind c k p = (Raises e, p').
Proof. intros H. unfold pbind. now rewrite H. Qed.

Lemma lift_ok {A} (c : M A) p a w' :
  c (world p) = (Ok a, w') -> lift c p = (Returns a, set_world w' p).
Proof. intros H. unfold lift. now rewrite H. Qed.

Lemma lift_raise {A} (c : M A) p e w' :
  c (world p) = (Raise e, w') -> lift c p = (Raises (Exn e), set_world w' p).
Proof. intros H. unfold lift. now rewrite H. Qed.

Lemma _post_create_session w :
  jike_auth._post "/sessions.create" None ∅ w
  = requests_request "POST" (API_BASE +:+ "/sessions.create")
      (<["Content-Type" := "application/json"]> DEFAULT_HEADERS) ∅ w.
Proof. reflexivity. Qed.

(** [create_session] when the server hands out an identifier. *)
Lemma create_session_ok p rc d v :
  server (world p) (log (world p)) create_request = Resp rc ->
  is_error_status (status_code rc) = false ->
  json_body rc = Some (JObj d) ->
  d !! "uuid" = Some v ->
  jike_auth.create_session p
  = (Returns v,
     set_world (set_log (log (world p) ++ [create_request]) (world p)) p).
Proof.
  intros Hsrv Hok Hj Hd. unfold jike_auth.create_session.
  assert (H1 : jike_auth._post "/sessions.create" None ∅ (world p)
               = (Ok rc, set_log (log (world p) ++ [create_request]) (world p))).
  { rewrite _post_create_session. now apply requests_request_resp. }
  rewrite (pbind_returns _ _ _ _ _ (lift_ok _ _ _ _ H1)).
  set (p1 := set_world _ p).
  rewrite (pbind_returns _ _ _ _ _
             (lift_ok _ p1 _ _ (raise_for_status_ok rc (world p1) Hok))).
  assert (H3 : resp_json rc (world p1) = (Ok (JObj d), world p1)).
  { unfold resp_json. now rewrite Hj. }
  rewrite (pbind_returns _ _ _ _ _ (lift_ok _ _ _ _ H3)).
  unfold subscript. rewrite Hd. reflexivity.
Qed.

(** Extraction of a pair of strings. *)
Lemma extract_tokens_some resp d a r w :
  body_dict resp = Some d ->
  first_present
    (token_candidates resp d
       "x-jike-access-token" "access_token" "x-jike-access-token")
  = Some (JStr a) ->
  first_present
    (token_candidates resp d
       "x-jike-refresh-token" "refresh_token" "x-jike-refresh-token")
  = Some (JStr r) ->
  jike_auth._extract_tokens resp w
  = (Ok (Some (fresh (dom (heap w)))), after_new w (mkTokenPair a r)).
Proof.
  intros Hd Fa Fr. unfold jike_auth._extract_tokens.
  rewrite (bind_ok _ _ _ _ _ (body_read _ _ _ Hd)).
  destruct (py_or_chain d resp "x-jike-access-token" "access_token"
              "x-jike-access-token" w) as (va & Hva & Ha).
  destruct (py_or_chain d resp "x-jike-refresh-token" "refresh_token"
              "x-jike-refresh-token" w) as (vr & Hvr & Hr).
  rewrite (bind_ok _ _ _ _ _ Hva), (bind_ok _ _ _ _ _ Hvr).
  rewrite Fa in Ha. rewrite Fr in Hr. subst va vr.
  rewrite (first_present_truthy _ _ Fa), (first_present_truthy _ _ Fr).
  reflexivity.
Qed.

(** The lines [authenticate] prints up to the start of polling. *)
Lemma authenticate_prologue p p1 uuid (k : string -> P loc) :
  jike_auth.create_session p = (Returns (JStr uuid), p1) ->
  exists lines,
    pbind jike_auth.create_session
      (fun uuid_value =>
         uuid <~ lift (as_str uuid_value) ;;
         print_stderr ("[+] Session: " +:+ uuid) ;;~
         rendered <~ jike_auth.render_qr (jike_auth.build_qr_payload uuid) ;;
         (if negb rendered then
            print_stderr "[*] Install 'qrcode' for terminal QR:" ;;~
            print_stderr ("    " +:+ jike_auth.build_qr_payload uuid)
          else pret tt) ;;~
         print_stderr "[*] Waiting for scan..." ;;~
         k uuid) p
    = k uuid (set_stderr (stderr p1 ++ lines) p1).
Proof.
  intros Hc. rewrite (pbind_returns _ _ _ _ _ Hc).
  unfold pbind at 1. unfold lift at 1. simpl as_str. unfold ret.
  unfold pbind at 1. unfold print_stderr at 1.
  unfold pbind at 1. unfold jike_auth.render_qr.
  destruct p1 as [w1 e1 [draw|]]; simpl.
  - unfold pbind, pret, print_stderr. simpl.
    eexists. rewrite <- !app_assoc. reflexivity.
  - unfold pbind, print_stderr. simpl.
    eexists. rewrite <- !app_assoc. reflexivity.
Qed.

Lemma authenticate_unfold p :
  jike_auth.authenticate p
  = pbind jike_auth.create_session
      (fun uuid_value =>
         uuid <~ lift (as_str uuid_value) ;;
         print_stderr ("[+] Session: " +:+ uuid) ;;~
         rendered <~ jike_auth.render_qr (jike_auth.build_qr_payload uuid) ;;
         (if negb rendered then
            print_stderr "[*] Install 'qrcode' for terminal QR:" ;;~
            print_stderr ("    " +:+ jike_auth.build_qr_payload uuid)
          else pret tt) ;;~
         print_stderr "[*] Waiting for scan..." ;;~
         tokens <~ lift (jike_auth.poll_confirmation uuid) ;;
         match tokens with
         | None =>
             print_stderr "[!] Timeout — no scan detected" ;;~
             sys_exit 1
         | Some tokens =>
             print_stderr "[+] Scan confirmed, refreshing tokens..." ;;~
             tokens <~ lift (jike_auth.refresh_tokens tokens) ;;
             print_stderr "[+] Ready" ;;~
             pret tokens
         end) p.
Proof. reflexivity. Qed.

(** X18.  When the session is created and none of the 180 polls is
    answered 200, [authenticate] exits the process with status 1.  The
    calls made are the session creation and the 180 polls; the refresh
    endpoint is never contacted, no pair is created, and the last line on
    [sys.stderr] is the timeout message. *)
Theorem authenticate_timeout_exits
    (p : Process) (rc : Response) (d : gmap string Json) (uuid : string) :
  server (world p) (log (world p)) create_request = Resp rc ->
  is_error_status (status_code rc) = false ->
  json_body rc = Some (JObj d) ->
  d !! "uuid" = Some (JStr uuid) ->
  (forall k, (k < 180)%nat ->
     not_yet (server (world p)
                ((log (world p) ++ [create_request])
                 ++ replicate k (poll_request uuid))
                (poll_request uuid))) ->
  exists p',
    jike_auth.authenticate p = (Raises (SystemExit 1), p') /\
    log (world p')
    = (log (world p) ++ create_request :: replicate 180 (poll_request uuid))%list /\
    heap (world p') = heap (world p) /\
    last (stderr p') = Some "[!] Timeout — no scan detected".
Proof.
  intros Hsrv Hok Hj Hd Hpoll.
  pose proof (create_session_ok p rc d (JStr uuid) Hsrv Hok Hj Hd) as Hc.
  set (p1 := set_world _ p) in Hc.
  destruct (authenticate_prologue p p1 uuid
              (fun uuid =>
               tokens <~ lift (jike_auth.poll_confirmation uuid) ;;
               match tokens with
               | None =>
                   print_stderr "[!] Timeout — no scan detected" ;;~
                   sys_exit 1
               | Some tokens =>
                   print_stderr "[+] Scan confirmed, refreshing tokens..." ;;~
                   tokens <~ lift (jike_auth.refresh_tokens tokens) ;;
                   print_stderr "[+] Ready" ;;~
                   pret tokens
               end) Hc) as [lines Hl].
  cbv beta in Hl.
  set (p2 := set_stderr _ p1) in Hl.
  assert (Hp : jike_auth.poll_confirmation uuid (world p2)
               = (Ok None, after_polls (world p2) uuid 180 180)).
  { apply poll_loop_not_yet. intros k Hk. exact (Hpoll k Hk). }
  rewrite authenticate_unfold, Hl.
  rewrite (pbind_returns _ _ _ _ _ (lift_ok _ _ _ _ Hp)).
  unfold pbind, print_stderr, sys_exit, praise.
  eexists. split; [reflexivity|].
  cbn [world stderr set_world set_stderr].
  split.
  { subst p2 p1. unfold after_polls.
    cbn [world stderr set_world set_stderr log set_log set_sleeps].
    now rewrite <- app_assoc. }
  split; [reflexivity|]. apply last_snoc.
Qed.

Lemma authenticate_timeout_exits_witness :
  exists p',
    jike_auth.authenticate
      (initial_process
         (initial_world tp_a1_r1 (scripted [Resp (resp_session "uuid-123")])))
    = (Raises (SystemExit 1), p') /\
    log (world p')
    = create_request :: replicate 180 (poll_request "uuid-123") /\
    heap (world p') = {[0%nat := tp_a1_r1]} /\
    last (stderr p') = Some "[!] Timeout — no scan detected".
Proof.
  apply (authenticate_timeout_exits
           (initial_process
              (initial_world tp_a1_r1 (scripted [Resp (resp_session "uuid-123")])))
           (resp_session "uuid-123") {["uuid" := JStr "uuid-123"]} "uuid-123");
    try reflexivity.
  intros k _. unfold initial_process, initial_world, scripted. simpl.
  rewrite length_replicate. now destruct k.
Defined.

(** X19.  When the session is created, the first 200 comes after [k]
    polls that were "not yet" and carries a pair of tokens, and the refresh
    is accepted, [authenticate] returns a reference to the refreshed pair,
    never the pair as polled.  The calls are, in order: session creation,
    [k+1] polls, one refresh call made with the polled refresh token; the
    last line on [sys.stderr] is ["[+] Ready"]. *)
Theorem authenticate_returns_refreshed_pair
    (p : Process) (rc rp rr : Response) (d dp : gmap string Json)
    (uuid a r : string) (k : nat) :
  server (world p) (log (world p)) create_request = Resp rc ->
  is_error_status (status_code rc) = false ->
  json_body rc = Some (JObj d) ->
  d !! "uuid" = Some (JStr uuid) ->
  (k < 180)%nat ->
  (forall j, (j < k)%nat ->
     not_yet (server (world p)
                ((log (world p) ++ [create_request])
                 ++ replicate j (poll_request uuid))
                (poll_request uuid))) ->
  server (world p)
    ((log (world p) ++ [create_request]) ++ replicate k (poll_request uuid))
    (poll_request uuid) = Resp rp ->
  status_code rp = 200 ->
  body_dict rp = Some dp ->
  first_present
    (token_candidates rp dp
       "x-jike-access-token" "access_token" "x-jike-access-token")
  = Some (JStr a) ->
  first_present
    (token_candidates rp dp
       "x-jike-refresh-token" "refresh_token" "x-jike-refresh-token")
  = Some (JStr r) ->
  server (world p)
    ((log (world p) ++ [create_request])
     ++ replicate (S k) (poll_request uuid))
    (refresh_request (mkTokenPair a r)) = Resp rr ->
  is_error_status (status_code rr) = false ->
  exists l p',
    jike_auth.authenticate p = (Returns l, p') /\
    heap (world p') !! l = Some (refreshed (mkTokenPair a r) rr) /\
    log (world p')
    = (log (world p) ++ create_request :: replicate (S k) (poll_request uuid)
       ++ [refresh_request (mkTokenPair a r)])%list /\
    last (stderr p') = Some "[+] Ready".
Proof.
  intros Hsrv Hok Hj Hd Hk Hpoll Hrp H200 Hdp Fa Fr Hrr Hokr.
  pose proof (create_session_ok p rc d (JStr uuid) Hsrv Hok Hj Hd) as Hc.
  set (p1 := set_world _ p) in Hc.
  destruct (authenticate_prologue p p1 uuid
              (fun uuid =>
               tokens <~ lift (jike_auth.poll_confirmation uuid) ;;
               match tokens with
               | None =>
                   print_stderr "[!] Timeout — no scan detected" ;;~
                   sys_exit 1
               | Some tokens =>
                   print_stderr "[+] Scan confirmed, refreshing tokens..." ;;~
                   tokens <~ lift (jike_auth.refresh_tokens tokens) ;;
                   print_stderr "[+] Ready" ;;~
                   pret tokens
               end) Hc) as [lines Hl].
  cbv beta in Hl.
  set (p2 := set_stderr _ p1) in Hl.
  set (w3 := after_polls (world p2) uuid (S k) k).
  assert (Hp : jike_auth.poll_confirmation uuid (world p2)
               = (Ok (Some (fresh (dom (heap w3)))),
                  after_new w3 (mkTokenPair a r))).
  { unfold jike_auth.poll_confirmation.
    change (Z.to_nat (jike_auth.POLL_TIMEOUT_SEC `div` jike_auth.POLL_INTERVAL_SEC))
      with 180%nat.
    rewrite (poll_loop_first_200 uuid k rp 180 (world p2) Hk Hpoll Hrp H200).
    now apply (extract_tokens_some rp dp). }
  set (l1 := fresh (dom (heap w3))) in *.
  set (w4 := after_new w3 (mkTokenPair a r)) in *.
  assert (Hl1 : heap w4 !! l1 = Some (mkTokenPair a r)).
  { subst w4 l1. unfold after_new. simpl. apply lookup_insert_eq. }
  assert (Hsrv4 : server w4 (log w4) (refresh_request (mkTokenPair a r)) = Resp rr)
    by exact Hrr.
  pose proof (refresh_tokens_ok w4 l1 (mkTokenPair a r) rr Hl1 Hsrv4 Hokr) as Hr.
  rewrite authenticate_unfold, Hl.
  rewrite (pbind_returns _ _ _ _ _ (lift_ok _ _ _ _ Hp)).
  unfold pbind at 1. unfold print_stderr at 1. cbv beta iota.
  set (p3 := set_stderr _ (set_world w4 p2)).
  rewrite (pbind_returns _ _ p3 _ _ (lift_ok _ p3 _ _ Hr)).
  unfold pbind, print_stderr, pret. subst p3.
  eexists. eexists. split; [reflexivity|].
  cbn [world stderr set_world set_stderr].
  split.
  { unfold after_new at 1. cbn [heap set_heap]. apply lookup_insert_eq. }
  split; [| apply last_snoc].
  unfold after_new at 1. cbn [log set_heap set_log].
  subst w4 w3 p2 p1. unfold after_new, after_polls.
  cbn [world stderr set_world set_stderr log set_log set_sleeps set_heap].
  now rewrite <- !app_assoc.
Qed.

Lemma authenticate_returns_refreshed_pair_witness :
  exists l p',
    jike_auth.authenticate
      (initial_process
         (initial_world tp_a1_r1
            (scripted [Resp (resp_session "uuid-123"); Resp (resp_status 400);
                       Resp resp_tokens_in_body; Resp resp_only_access_a2])))
    = (Returns l, p') /\
    heap (world p') !! l = Some (mkTokenPair "a2" "r1") /\
    log (world p')
    = create_request :: replicate 2 (poll_request "uuid-123")
      ++ [refresh_request (mkTokenPair "a1" "r1")] /\
    last (stderr p') = Some "[+] Ready".
Proof.
  apply (authenticate_returns_refreshed_pair
           (initial_process
              (initial_world tp_a1_r1
                 (scripted [Resp (resp_session "uuid-123"); Resp (resp_status 400);
                            Resp resp_tokens_in_body; Resp resp_only_access_a2])))
           (resp_session "uuid-123") resp_tokens_in_body resp_only_access_a2
           {["uuid" := JStr "uuid-123"]}
           (<["x-jike-refresh-token" := JStr "r1"]>
            {["x-jike-access-token" := JStr "a1"]})
           "uuid-123" "a1" "r1" 1%nat);
    try reflexivity.
  - lia.
  - intros j Hj. destruct j as [|j]; [discriminate | lia].
Defined.

(** X20.  When session creation fails, [authenticate] stops there: an
    error status raises the [HTTPError] of that response, a body without
    the key ["uuid"] raises [KeyError].  In both cases the one call made is
    the session creation, nothing was printed and no poll was sent. *)
Theorem authenticate_stops_when_no_session
    (p : Process) (rc : Response) (d : gmap string Json) :
  server (world p) (log (world p)) create_request = Resp rc ->
  (is_error_status (status_code rc) = true ->
   jike_auth.authenticate p
   = (Raises (Exn (HTTPError rc)),
      set_world (set_log (log (world p) ++ [create_request]) (world p)) p)) /\
  (is_error_status (status_code rc) = false ->
   json_body rc = Some (JObj d) ->
   d !! "uuid" = None ->
   jike_auth.authenticate p
   = (Raises KeyError,
      set_world (set_log (log (world p) ++ [create_request]) (world p)) p)).
Proof.
  intros Hsrv.
  assert (H1 : jike_auth._post "/sessions.create" None ∅ (world p)
               = (Ok rc, set_log (log (world p) ++ [create_request]) (world p))).
  { rewrite _post_create_session. now apply requests_request_resp. }
  split.
  - intros Herr.
    assert (Hc : jike_auth.create_session p
                 = (Raises (Exn (HTTPError rc)),
                    set_world (set_log (log (world p) ++ [create_request])
                                 (world p)) p)).
    { unfold jike_auth.create_session.
      rewrite (pbind_returns _ _ _ _ _ (lift_ok _ _ _ _ H1)).
      set (p1 := set_world _ p).
      rewrite (pbind_raises _ _ _ _ _
                 (lift_raise _ p1 _ _
                    (raise_for_status_error rc (world p1) Herr))).
      reflexivity. }
    rewrite authenticate_unfold.
    now rewrite (pbind_raises _ _ _ _ _ Hc).
  - intros Hok Hj Hd.
    assert (Hc : jike_auth.create_session p
                 = (Raises KeyError,
                    set_world (set_log (log (world p) ++ [create_request])
                                 (world p)) p)).
    { unfold jike_auth.create_session.
      rewrite (pbind_returns _ _ _ _ _ (lift_ok _ _ _ _ H1)).
      set (p1 := set_world _ p).
      rewrite (pbind_returns _ _ _ _ _
                 (lift_ok _ p1 _ _ (raise_for_status_ok rc (world p1) Hok))).
      assert (H3 : resp_json rc (world p1) = (Ok (JObj d), world p1)).
      { unfold resp_json. now rewrite Hj. }
      rewrite (pbind_returns _ _ _ _ _ (lift_ok _ _ _ _ H3)).
      unfold subscript. rewrite Hd. reflexivity. }
    rewrite authenticate_unfold.
    now rewrite (pbind_raises _ _ _ _ _ Hc).
Qed.

Lemma authenticate_stops_when_no_session_witness :
  jike_auth.authenticate
    (initial_process (initial_world tp_a1_r1 (constant_server (resp_status 500))))
  = (Raises (Exn (HTTPError (resp_status 500))),
     set_world
       (set_log [create_request]
          (initial_world tp_a1_r1 (constant_server (resp_status 500))))
       (initial_process
          (initial_world tp_a1_r1 (constant_server (resp_status 500))))) /\
  jike_auth.authenticate
    (initial_process (initial_world tp_a1_r1 (constant_server resp_ok_data)))
  = (Raises KeyError,
     set_world
       (set_log [create_request]
          (initial_world tp_a1_r1 (constant_server resp_ok_data)))
       (initial_process
          (initial_world tp_a1_r1 (constant_server resp_ok_data)))).
Proof.
  split.
  - apply (proj1 (authenticate_stops_when_no_session
                    (initial_process
                       (initial_world tp_a1_r1 (constant_server (resp_status 500))))
                    (resp_status 500) ∅ eq_refl)).
    reflexivity.
  - apply (proj2 (authenticate_stops_when_no_session
                    (initial_process
                       (initial_world tp_a1_r1 (constant_server resp_ok_data)))
                    resp_ok_data {["data" := JStr "ok"]} eq_refl));
      reflexivity.
Defined.

(* ===================================================================== *)
(** ** Reading a post in [scripts/export.py]                              *)
(* ===================================================================== *)

(** One picture: its chosen URL, or a false value when it has none. *)
Lemma picture_url_chain (o : gmap string Json) :
  exists url,
    (a <-? get_or (JObj o) "picUrl" JNull ;;
     if truthy a then Returns a else
     b <-? get_or (JObj o) "middlePicUrl" JNull ;;
     if truthy b then Returns b else
     c <-? get_or (JObj o) "thumbnailUrl" JNull ;;
     Returns (or_else c (JStr ""))) = Returns url /\
    match picture_url o with
    | Some u => url = u /\ truthy url = true
    | None => truthy url = false
    end.
Proof.
  unfold picture_url, get_or, obind, or_else. simpl.
  destruct (o !! "picUrl") as [a|]; simpl.
  - destruct (truthy a) eqn:Ha; [eexists; split; [reflexivity | auto] |].
    destruct (o !! "middlePicUrl") as [b|]; simpl.
    + destruct (truthy b) eqn:Hb; [eexists; split; [reflexivity | auto] |].
      destruct (o !! "thumbnailUrl") as [c|]; simpl;
        [| eexists; split; reflexivity].
      destruct (truthy c) eqn:Hc; eexists; (split; [reflexivity | auto]).
    + destruct (o !! "thumbnailUrl") as [c|]; simpl;
        [| eexists; split; reflexivity].
      destruct (truthy c) eqn:Hc; eexists; (split; [reflexivity | auto]).
  - destruct (o !! "middlePicUrl") as [b|]; simpl.
    + destruct (truthy b) eqn:Hb; [eexists; split; [reflexivity | auto] |].
      destruct (o !! "thumbnailUrl") as [c|]; simpl;
        [| eexists; split; reflexivity].
      destruct (truthy c) eqn:Hc; eexists; (split; [reflexivity | auto]).
    + destruct (o !! "thumbnailUrl") as [c|]; simpl;
        [| eexists; split; reflexivity].
      destruct (truthy c) eqn:Hc; eexists; (split; [reflexivity | auto]).
Qed.

Lemma pictures_loop_objects (objs : list (gmap string Json)) :
  scripts_export.pictures_loop (JObj <$> objs)
  = Returns (omap picture_url objs).
Proof.
  induction objs as [|o objs IH]; [reflexivity|].
  rewrite fmap_cons. cbn [scripts_export.pictures_loop].
  destruct (picture_url_chain o) as (url & Hu & Hm).
  unfold obind at 1 in Hu. unfold obind at 1. unfold obind at 1.
  destruct (get_or (JObj o) "picUrl" JNull) as [a|e]; [| discriminate Hu].
  rewrite Hu. rewrite IH. cbn [obind omap list_omap].
  destruct (picture_url o) as [u|].
  - destruct Hm as [-> Ht]. now rewrite Ht.
  - now rewrite Hm.
Qed.

(** X21.  For a post whose [pictures] is a list of objects,
    [_extract_pictures] returns, in the order of the list, one URL per
    picture that has any: the full-size URL if present, else the medium
    one, else the thumbnail; pictures without a URL are left out. *)
Theorem extract_pictures_prefers_full_size
    (d : gmap string Json) (objs : list (gmap string Json)) :
  d !! "pictures" = Some (JArr (JObj <$> objs)) ->
  scripts_export._extract_pictures (JObj d) = Returns (omap picture_url objs).
Proof.
  intros H. unfold scripts_export._extract_pictures, get_or. rewrite H.
  cbn [obind default]. unfold or_else.
  destruct objs as [|o objs]; [reflexivity|].
  cbn [truthy fmap list_fmap]. apply (pictures_loop_objects (o :: objs)).
Qed.

Lemma extract_pictures_prefers_full_size_witness :
  scripts_export._extract_pictures
    (JObj {["pictures" :=
              JArr (JObj <$> [ {["thumbnailUrl" := JStr "t1"]};
                               ∅;
                               <["picUrl" := JStr "p3"]>
                                 {["middlePicUrl" := JStr "m3"]} ])]})
  = Returns [JStr "t1"; JStr "p3"].
Proof.
  refine (eq_trans
            (extract_pictures_prefers_full_size
               {["pictures" :=
                   JArr (JObj <$> [ {["thumbnailUrl" := JStr "t1"]};
                                    ∅;
                                    <["picUrl" := JStr "p3"]>
                                      {["middlePicUrl" := JStr "m3"]} ])]}
               [ {["thumbnailUrl" := JStr "t1"]};
                 ∅;
                 <["picUrl" := JStr "p3"]> {["middlePicUrl" := JStr "m3"]} ]
               _) _).
  - reflexivity.
  - vm_compute. reflexivity.
Defined.

Lemma pictures_loop_truthy (pics : list Json) : forall urls,
  scripts_export.pictures_loop pics = Returns urls ->
  Forall (fun u => truthy u = true) urls /\ (length urls <= length pics)%nat.
Proof.
  induction pics as [|pic rest IH]; intros urls H.
  - injection H as <-. split; [constructor | reflexivity].
  - cbn [scripts_export.pictures_loop] in H.
    unfold obind at 1 in H.
    destruct (get_or pic "picUrl" JNull) as [a|e]; [| discriminate H].
    unfold obind at 1 in H.
    destruct (if truthy a then Returns a else _) as [url|e];
      [| discriminate H].
    unfold obind at 1 in H.
    destruct (scripts_export.pictures_loop rest) as [urls'|e];
      [| discriminate H].
    destruct (IH urls' eq_refl) as [Hall Hlen].
    destruct (truthy url) eqn:Hu; injection H as <-; simpl.
    + split; [now constructor | lia].
    + split; [exact Hall | lia].
Qed.

(** X22.  Whatever the post, when [_extract_pictures] returns, no entry
    of its result is empty or otherwise false: a URL that is missing,
    [null] or [""] never reaches the Markdown.  The result has at most one
    entry per picture of the post. *)
Theorem extract_pictures_never_empty_url
    (d : gmap string Json) (pics urls : list Json) :
  d !! "pictures" = Some (JArr pics) ->
  scripts_export._extract_pictures (JObj d) = Returns urls ->
  Forall (fun u => truthy u = true) urls /\ (length urls <= length pics)%nat.
Proof.
  intros Hd. unfold scripts_export._extract_pictures, get_or. rewrite Hd.
  cbn [obind default]. unfold or_else.
  destruct pics as [|pic pics].
  - cbn [truthy]. intros [= <-]. split; [constructor | reflexivity].
  - cbn [truthy]. apply pictures_loop_truthy.
Qed.

Lemma extract_pictures_never_empty_url_witness :
  Forall (fun u => truthy u = true) [JStr "m"] /\ (1 <= 3)%nat.
Proof.
  apply (extract_pictures_never_empty_url
           {["pictures" :=
               JArr [JObj {["picUrl" := JStr ""]};
                     JObj {["thumbnailUrl" := JNull]};
                     JObj (<["picUrl" := JStr ""]>
                           {["middlePicUrl" := JStr "m"]})]]}
           [JObj {["picUrl" := JStr ""]};
            JObj {["thumbnailUrl" := JNull]};
            JObj (<["picUrl" := JStr ""]> {["middlePicUrl" := JStr "m"]})]
           [JStr "m"]);
    reflexivity.
Defined.

(** X23.  A repost target without a [user] key gets the author
    ["unknown"], but a target whose [user] is [null] makes
    [_extract_repost_target] raise [AttributeError]: the default of
    [.get] applies to a missing key only. *)
Theorem extract_repost_target_user_edge (t : gmap string Json) :
  truthy (JObj t) = true ->
  t !! "pictures" = None ->
  t !! "linkInfo" = None ->
  (t !! "user" = None ->
   scripts_export._extract_repost_target (JObj {["target" := JObj t]})
   = Returns (JObj (<["type" := default (JStr "") (t !! "type")]>
                   (<["id" := default (JStr "") (t !! "id")]>
                   (<["link" := JNull]>
                   (<["pictures" := JArr []]>
                   (<["author" := JStr "unknown"]>
                    {["content" := default (JStr "") (t !! "content")]}))))))) /\
  (t !! "user" = Some JNull ->
   scripts_export._extract_repost_target (JObj {["target" := JObj t]})
   = Raises (Exn AttributeError)).
Proof.
  intros Ht Hp Hl.
  assert (Htarget : get_or (JObj {["target" := JObj t]}) "target" JNull
                    = Returns (JObj t)).
  { unfold get_or. now rewrite lookup_singleton_eq. }
  split; intros Hu; unfold scripts_export._extract_repost_target;
    rewrite Htarget; cbn [obind]; rewrite Ht; cbn [negb];
    unfold get_or at 1; rewrite Hu; cbn [obind default].
  - unfold scripts_export._extract_pictures, scripts_export._extract_link.
    unfold get_or. rewrite Hp, Hl, !lookup_empty. reflexivity.
  - unfold get_or. reflexivity.
Qed.

Lemma extract_repost_target_user_edge_witness :
  scripts_export._extract_repost_target
    (JObj {["target" := JObj {["content" := JStr "hi"]}]})
  = Returns (JObj (<["type" := JStr ""]>
                  (<["id" := JStr ""]>
                  (<["link" := JNull]>
                  (<["pictures" := JArr []]>
                  (<["author" := JStr "unknown"]>
                   {["content" := JStr "hi"]})))))) /\
  scripts_export._extract_repost_target
    (JObj {["target" := JObj {["user" := JNull]}]})
  = Raises (Exn AttributeError).
Proof.
  split.
  - refine (proj1 (extract_repost_target_user_edge
                     {["content" := JStr "hi"]} _ _ _) _);
      vm_compute; reflexivity.
  - refine (proj2 (extract_repost_target_user_edge
                     {["user" := JNull]} _ _ _) _);
      vm_compute; reflexivity.
Defined.

(* ===================================================================== *)
(** ** The poll loop of [scripts/auth.py]                                 *)
(* ===================================================================== *)

(** A poll of the script answered 200: the body decides. *)
Lemma script_poll_loop_200 uuid n w resp :
  server w (log w) (poll_request uuid) = Resp resp ->
  status_code resp = 200 ->
  scripts_auth.poll_loop uuid (S n) w
  = (body <- resp_json resp ;;
     access <- py_or (dict_get body "x-jike-access-token")
                 (dict_get body "access_token") ;;
     refresh <- py_or (dict_get body "x-jike-refresh-token")
                  (dict_get body "refresh_token") ;;
     if truthy access && truthy refresh then
       ret (JObj (<["refresh_token" := refresh]> {["access_token" := access]}))
     else ret JNull) (set_log (log w ++ [poll_request uuid]) w).
Proof.
  intros Hsrv H200. cbn [scripts_auth.poll_loop].
  assert (Hget : requests_get
                   (scripts_auth.API_BASE
                    +:+ "/sessions.wait_for_confirmation?uuid=" +:+ uuid)
                   scripts_auth.HEADERS w
                 = (Ok resp, set_log (log w ++ [poll_request uuid]) w))
    by exact (requests_request_resp _ _ _ _ _ _ Hsrv).
  unfold bind at 1. unfold try_except.
  rewrite (bind_ok _ _ _ _ _ Hget).
  unfold ret at 1. rewrite H200. reflexivity.
Qed.

(** X24.  The standalone script polls like the package but reads less:
    on a 200 whose tokens come in the response headers only, the package
    returns the pair while the script returns [None]; on a 200 whose body
    is not JSON the script raises [ValueError], which the package guards
    against.  In both cases the script made one poll and did not pause. *)
Theorem script_poll_reads_body_only
    (w : World) (uuid : string) (resp : Response) (a r : string) :
  server w (log w) (poll_request uuid) = Resp resp ->
  status_code resp = 200 ->
  resp_headers resp !! "x-jike-access-token" = Some a ->
  resp_headers resp !! "x-jike-refresh-token" = Some r ->
  str_truthy a = true ->
  str_truthy r = true ->
  (json_body resp = Some (JObj ∅) ->
   jike_auth.poll_confirmation uuid w
   = (Ok (Some (fresh (dom (heap w)))),
      after_new (after_polls w uuid 1 0) (mkTokenPair a r)) /\
   scripts_auth.poll_confirmation uuid 180 w
   = (Ok JNull, set_log (log w ++ [poll_request uuid]) w)) /\
  (json_body resp = None ->
   jike_auth.poll_confirmation uuid w
   = (Ok (Some (fresh (dom (heap w)))),
      after_new (after_polls w uuid 1 0) (mkTokenPair a r)) /\
   scripts_auth.poll_confirmation uuid 180 w
   = (Raise ValueError, set_log (log w ++ [poll_request uuid]) w)).
Proof.
  intros Hsrv H200 Ha Hr Hta Htr.
  assert (Hpkg : body_dict resp = Some ∅ ->
            jike_auth.poll_confirmation uuid w
            = (Ok (Some (fresh (dom (heap w)))),
               after_new (after_polls w uuid 1 0) (mkTokenPair a r))).
  { intros Hd. unfold jike_auth.poll_confirmation.
    change (Z.to_nat (jike_auth.POLL_TIMEOUT_SEC `div` jike_auth.POLL_INTERVAL_SEC))
      with 180%nat.
    rewrite poll_loop_step, Hsrv, H200. cbv iota.
    change (200 =? 200) with true. cbv iota.
    apply (extract_tokens_some resp ∅ a r (after_polls w uuid 1 0));
      [exact Hd | |];
      unfold token_candidates; rewrite !lookup_empty; simpl.
    - rewrite Ha. simpl. now rewrite Hta.
    - rewrite Hr. simpl. now rewrite Htr. }
  split; intros Hj.
  - split; [apply Hpkg; unfold body_dict; now rewrite Hj |].
    unfold scripts_auth.poll_confirmation.
    change (Z.to_nat 180) with (S 179).
    rewrite (script_poll_loop_200 uuid 179 w resp Hsrv H200).
    unfold resp_json. rewrite Hj.
    unfold bind, ret, py_or, dict_get.
    rewrite !lookup_empty. reflexivity.
  - split; [apply Hpkg; unfold body_dict; now rewrite Hj |].
    unfold scripts_auth.poll_confirmation.
    change (Z.to_nat 180) with (S 179).
    rewrite (script_poll_loop_200 uuid 179 w resp Hsrv H200).
    unfold resp_json. rewrite Hj. reflexivity.
Qed.

Lemma script_poll_reads_body_only_witness :
  (jike_auth.poll_confirmation "u"
     (initial_world tp_a1_r1 (constant_server resp_tokens_in_headers))
   = (Ok (Some 1%nat),
      after_new
        (after_polls
           (initial_world tp_a1_r1 (constant_server resp_tokens_in_headers))
           "u" 1 0)
        (mkTokenPair "ha" "hr")) /\
   scripts_auth.poll_confirmation "u" 180
     (initial_world tp_a1_r1 (constant_server resp_tokens_in_headers))
   = (Ok JNull,
      set_log [poll_request "u"]
        (initial_world tp_a1_r1 (constant_server resp_tokens_in_headers)))) /\
  (jike_auth.poll_confirmation "u"
     (initial_world tp_a1_r1 (constant_server resp_tokens_in_headers_no_json))
   = (Ok (Some 1%nat),
      after_new
        (after_polls
           (initial_world tp_a1_r1
              (constant_server resp_tokens_in_headers_no_json))
           "u" 1 0)
        (mkTokenPair "ha" "hr")) /\
   scripts_auth.poll_confirmation "u" 180
     (initial_world tp_a1_r1 (constant_server resp_tokens_in_headers_no_json))
   = (Raise ValueError,
      set_log [poll_request "u"]
        (initial_world tp_a1_r1
           (constant_server resp_tokens_in_headers_no_json)))).
Proof.
  split.
  - refine (proj1 (script_poll_reads_body_only
                     (initial_world tp_a1_r1
                        (constant_server resp_tokens_in_headers))
                     "u" resp_tokens_in_headers "ha" "hr" _ _ _ _ _ _) _);
      reflexivity.
  - refine (proj2 (script_poll_reads_body_only
                     (initial_world tp_a1_r1
                        (constant_server resp_tokens_in_headers_no_json))
                     "u" resp_tokens_in_headers_no_json "ha" "hr" _ _ _ _ _ _) _);
      reflexivity.
Defined.

(* ===================================================================== *)
(** ** Users of a list of posts in [scripts/find_users.py]                *)
(* ===================================================================== *)

(** Python's [==] on keys: reflexive on what can be a key, and transitive. *)
Lemma py_eq_refl (k : Json) (users : list (Json * Json)) (b : bool) :
  truthy k = true ->
  scripts_find_users.key_in k users = Returns b ->
  scripts_find_users.py_eq k k = true.
Proof.
  destruct k as [|c|n d|s|l|o]; cbn; try discriminate.
  - intros _ _. now destruct c.
  - intros _ _. apply Z.eqb_refl.
  - intros _ _. apply String.eqb_refl.
Qed.

Lemma py_eq_trans (a b c : Json) :
  scripts_find_users.py_eq a b = true ->
  scripts_find_users.py_eq b c = true ->
  scripts_find_users.py_eq a c = true.
Proof.
  assert (Hq : forall (n1 n2 n3 : Z) (d1 d2 d3 : positive),
             (n1 * Z.pos d2 =? n2 * Z.pos d1) = true ->
             (n2 * Z.pos d3 =? n3 * Z.pos d2) = true ->
             (n1 * Z.pos d3 =? n3 * Z.pos d1) = true).
  { intros n1 n2 n3 d1 d2 d3 H1%Z.eqb_eq H2%Z.eqb_eq. apply Z.eqb_eq.
    apply (Z.mul_reg_r _ _ (Z.pos d2)); [lia|].
    transitivity (n2 * Z.pos d1 * Z.pos d3); [rewrite <- H1; ring|].
    transitivity (n2 * Z.pos d3 * Z.pos d1); [ring|].
    rewrite H2; ring. }
  unfold scripts_find_users.py_eq.
  destruct a as [|x|n1 d1|s1|l1|o1], b as [|y|n2 d2|s2|l2|o2];
    cbn; try discriminate;
    destruct c as [|z|n3 d3|s3|l3|o3]; cbn; try discriminate;
    try apply Hq; try reflexivity.
  intros H1%String.eqb_eq H2%String.eqb_eq. apply String.eqb_eq. congruence.
Qed.

Lemma existsb_py_eq_trans (k k' : Json) (keys : list Json) :
  scripts_find_users.py_eq k k' = true ->
  existsb (scripts_find_users.py_eq k') keys = true ->
  existsb (scripts_find_users.py_eq k) keys = true.
Proof.
  intros Hk. induction keys as [|x keys IH]; cbn; [easy|].
  intros [H|H]%orb_true_iff; apply orb_true_iff.
  - left. exact (py_eq_trans _ _ _ Hk H).
  - right. exact (IH H).
Qed.

(** One turn of the loop: the post names no user and is skipped; or its
    key is in the dict already and it is skipped; or it is appended. *)
Lemma users_loop_step (post : Json) (rest : list Json)
    (users result : list (Json * Json)) :
  scripts_find_users.users_loop (post :: rest) users = Returns result ->
  (post_user post = None /\
   scripts_find_users.users_loop rest users = Returns result) \/
  (exists d,
     post_user post = Some d /\
     existsb (scripts_find_users.py_eq (user_key d)) (users.*1) = true /\
     scripts_find_users.users_loop rest users = Returns result) \/
  (exists d,
     post_user post = Some d /\
     existsb (scripts_find_users.py_eq (user_key d)) (users.*1) = false /\
     scripts_find_users.py_eq (user_key d) (user_key d) = true /\
     scripts_find_users.users_loop rest
       (users ++ [(user_key d, user_entry d)]) = Returns result).
Proof.
  cbn [scripts_find_users.users_loop]. intros H.
  destruct post as [| | | | |p]; try discriminate H.
  cbn [get_or obind post_user] in H |- *.
  destruct (p !! "user") as [user|] eqn:Hu; cbn [default from_option id] in H.
  2:{ left. split; [reflexivity | exact H]. }
  destruct (truthy user) eqn:Htu; cbn [negb] in H.
  2:{ left. split; [| exact H].
      destruct user as [| | | | |d]; try reflexivity.
      assert (d = ∅) as ->.
      { cbn in Htu. apply negb_false_iff, bool_decide_eq_true in Htu.
        exact Htu. }
      reflexivity. }
  destruct user as [| | | | |d]; try discriminate H.
  cbn [get_or obind] in H.
  assert (Hname : (if truthy (default JNull (d !! "username"))
                   then Returns (default JNull (d !! "username"))
                   else Returns (default JNull (d !! "id")))
                  = Returns (user_key d)).
  { unfold user_key, or_else.
    now destruct (truthy (default JNull (d !! "username"))). }
  rewrite Hname in H. cbn [obind] in H.
  destruct (truthy (user_key d)) eqn:Htk; cbn [negb] in H.
  2:{ left. split; [reflexivity | exact H]. }
  destruct (scripts_find_users.key_in (user_key d) users) as [present|e] eqn:Hk;
    cbn [obind] in H; [| discriminate H].
  assert (Hin : present = existsb (scripts_find_users.py_eq (user_key d)) (users.*1)).
  { unfold scripts_find_users.key_in in Hk.
    destruct (user_key d); try discriminate Hk; now injection Hk. }
  right. destruct present.
  - left. exists d. split; [reflexivity|]. split; [now symmetry | exact H].
  - right. exists d. split; [reflexivity|]. split; [now symmetry|].
    split; [exact (py_eq_refl _ _ _ Htk Hk) | exact H].
Qed.

(** What the loop adds to the dict it starts from. *)
Lemma users_loop_spec (posts : list Json) : forall users result,
  scripts_find_users.users_loop posts users = Returns result ->
  exists added,
    result = (users ++ added)%list /\
    (length added <= length posts)%nat /\
    (keys_distinct users -> keys_distinct result) /\
    (forall post d,
       post ∈ posts -> post_user post = Some d ->
       existsb (scripts_find_users.py_eq (user_key d)) (result.*1) = true) /\
    (forall k v,
       (k, v) ∈ added ->
       existsb (scripts_find_users.py_eq k) (users.*1) = false /\
       exists i post d,
         posts !! i = Some post /\ post_user post = Some d /\
         k = user_key d /\ v = user_entry d /\
         forall j postj dj,
           (j < i)%nat -> posts !! j = Some postj ->
           post_user postj = Some dj ->
           scripts_find_users.py_eq k (user_key dj) = false).
Proof.
  induction posts as [|post rest IH]; intros users result H.
  - injection H as <-. exists []. rewrite app_nil_r.
    split; [reflexivity|]. split; [reflexivity|]. split; [easy|].
    split; [intros post d Hin; now apply elem_of_nil in Hin|].
    intros k v Hin. now apply elem_of_nil in Hin.
  - destruct (users_loop_step _ _ _ _ H)
      as [[Hnone Hrest] | [(d0 & Hd0 & Hin0 & Hrest)
                          | (d0 & Hd0 & Hout0 & Hrefl & Hrest)]].
    + (* no user in this post *)
      destruct (IH _ _ Hrest) as (added & -> & Hlen & Hdist & Hall & Hfirst).
      exists added. split; [reflexivity|]. split; [simpl; lia|].
      split; [exact Hdist|]. split.
      * intros p d [->|Hin]%elem_of_cons Hp; [congruence|].
        exact (Hall p d Hin Hp).
      * intros k v Hkv. destruct (Hfirst k v Hkv)
          as (Hnew & i & p & d & Hi & Hp & Hk & Hv & Hbefore).
        split; [exact Hnew|]. exists (S i), p, d.
        split; [exact Hi|]. split; [exact Hp|].
        split; [exact Hk|]. split; [exact Hv|].
        intros [|j] pj dj Hj Hlook Hpj.
        -- cbn in Hlook. injection Hlook as <-. congruence.
        -- apply (Hbefore j pj dj); [lia | exact Hlook | exact Hpj].
    + (* the key is in the dict already *)
      destruct (IH _ _ Hrest) as (added & -> & Hlen & Hdist & Hall & Hfirst).
      exists added. split; [reflexivity|]. split; [simpl; lia|].
      split; [exact Hdist|]. split.
      * intros p d [->|Hin]%elem_of_cons Hp; [| exact (Hall p d Hin Hp)].
        assert (d = d0) as -> by congruence.
        rewrite fmap_app, existsb_app, Hin0. reflexivity.
      * intros k v Hkv. destruct (Hfirst k v Hkv)
          as (Hnew & i & p & d & Hi & Hp & Hk & Hv & Hbefore).
        split; [exact Hnew|]. exists (S i), p, d.
        split; [exact Hi|]. split; [exact Hp|].
        split; [exact Hk|]. split; [exact Hv|].
        intros [|j] pj dj Hj Hlook Hpj.
        -- cbn in Hlook. injection Hlook as <-.
           assert (dj = d0) as -> by congruence.
           destruct (scripts_find_users.py_eq k (user_key d0)) eqn:Heq;
             [| reflexivity].
           rewrite (existsb_py_eq_trans _ _ _ Heq Hin0) in Hnew.
           discriminate Hnew.
        -- apply (Hbefore j pj dj); [lia | exact Hlook | exact Hpj].
    + (* the user is appended *)
      destruct (IH _ _ Hrest) as (added & -> & Hlen & Hdist & Hall & Hfirst).
      exists ((user_key d0, user_entry d0) :: added).
      split; [now rewrite <- app_assoc|]. split; [simpl; lia|].
      assert (Htruthy : truthy (user_key d0) = true).
      { unfold post_user in Hd0.
        destruct post as [| | | | |p]; try discriminate Hd0.
        destruct (p !! "user") as [[| | | | |d]|]; try discriminate Hd0.
        destruct (truthy (user_key d)) eqn:Ht; [| discriminate Hd0].
        now injection Hd0 as <-. }
      split.
      { intros Hu. apply Hdist. now constructor. }
      split.
      * intros p d [->|Hin]%elem_of_cons Hp; [| exact (Hall p d Hin Hp)].
        assert (d = d0) as -> by congruence.
        rewrite !fmap_app, !existsb_app. cbn [fmap list_fmap fst existsb].
        rewrite Hrefl. now rewrite !orb_true_r.
      * intros k v [[= -> ->]|Hkv]%elem_of_cons.
        -- split; [exact Hout0|]. exists 0%nat, post, d0.
           split; [reflexivity|]. split; [exact Hd0|].
           split; [reflexivity|]. split; [reflexivity|].
           intros j pj dj Hj. lia.
        -- destruct (Hfirst k v Hkv)
             as (Hnew & i & p & d & Hi & Hp & Hk & Hv & Hbefore).
           rewrite fmap_app, existsb_app in Hnew.
           apply orb_false_iff in Hnew as [Hnew Hne0].
           cbn [fmap list_fmap fst existsb] in Hne0.
           rewrite orb_false_r in Hne0.
           split; [exact Hnew|]. exists (S i), p, d.
           split; [exact Hi|]. split; [exact Hp|].
           split; [exact Hk|]. split; [exact Hv|].
           intros [|j] pj dj Hj Hlook Hpj.
           ++ cbn in Hlook. injection Hlook as <-.
              assert (dj = d0) as -> by congruence. exact Hne0.
           ++ apply (Hbefore j pj dj); [lia | exact Hlook | exact Hpj].
Qed.

(** X25.  Whenever [extract_users_from_posts] returns, its dict holds
    every user of the posts exactly once, as first seen.
    - Complete: every post that names a user (its [user] is an object with
      a true [username] or else [id]) has its key in the dict, up to
      Python's [==] on keys.
    - First wins: every entry of the dict is the key and the entry
      ([username], [screen_name]) of some post, and no earlier post names
      a user with an equal key; a later post of the same user changes
      nothing.
    - No key equals a key inserted before it, every key is a true value,
      and there are at most as many users as posts. *)
Theorem extract_users_keeps_first_of_each
    (posts : list Json) (users : list (Json * Json)) :
  scripts_find_users.extract_users_from_posts posts = Returns users ->
  (forall post d,
     post ∈ posts -> post_user post = Some d ->
     exists k v,
       (k, v) ∈ users /\ scripts_find_users.py_eq (user_key d) k = true) /\
  (forall k v,
     (k, v) ∈ users ->
     exists i post d,
       posts !! i = Some post /\ post_user post = Some d /\
       k = user_key d /\ v = user_entry d /\
       forall j postj dj,
         (j < i)%nat -> posts !! j = Some postj ->
         post_user postj = Some dj ->
         scripts_find_users.py_eq k (user_key dj) = false) /\
  keys_distinct users /\ (length users <= length posts)%nat.
Proof.
  intros H. unfold scripts_find_users.extract_users_from_posts in H.
  destruct (users_loop_spec posts [] users H)
    as (added & Heq & Hlen & Hdist & Hall & Hfirst).
  cbn [app] in Heq. subst added.
  split.
  { intros post d Hin Hp. specialize (Hall post d Hin Hp).
    apply existsb_exists in Hall as (k & Hk & Heqk).
    apply list_elem_of_In, list_elem_of_fmap in Hk as ([k' v] & -> & Hkv).
    exists k', v. split; [exact Hkv | exact Heqk]. }
  split.
  { intros k v Hkv. exact (proj2 (Hfirst k v Hkv)). }
  split; [apply Hdist; constructor | exact Hlen].
Qed.

Lemma extract_users_keeps_first_of_each_witness :
  scripts_find_users.extract_users_from_posts
    [JObj {["user" := JObj (<["screenName" := JStr "Ann"]>
                            {["username" := JStr "ann"]})]};
     JObj {["content" := JStr "no user"]};
     JObj {["user" := JObj {["id" := JStr "u2"]}]};
     JObj {["user" := JObj (<["screenName" := JStr "Other"]>
                            {["username" := JStr "ann"]})]}]
  = Returns
      [(JStr "ann",
        JObj (<["screen_name" := JStr "Ann"]> {["username" := JStr "ann"]}));
       (JStr "u2",
        JObj (<["screen_name" := JStr ""]> {["username" := JStr "u2"]}))] /\
  keys_distinct
    [(JStr "ann",
      JObj (<["screen_name" := JStr "Ann"]> {["username" := JStr "ann"]}));
     (JStr "u2",
      JObj (<["screen_name" := JStr ""]> {["username" := JStr "u2"]}))] /\
  (2 <= 4)%nat.
Proof.
  assert (Hrun : scripts_find_users.extract_users_from_posts
            [JObj {["user" := JObj (<["screenName" := JStr "Ann"]>
                                    {["username" := JStr "ann"]})]};
             JObj {["content" := JStr "no user"]};
             JObj {["user" := JObj {["id" := JStr "u2"]}]};
             JObj {["user" := JObj (<["screenName" := JStr "Other"]>
                                    {["username" := JStr "ann"]})]}]
          = Returns
              [(JStr "ann",
                JObj (<["screen_name" := JStr "Ann"]>
                      {["username" := JStr "ann"]}));
               (JStr "u2",
                JObj (<["screen_name" := JStr ""]>
                      {["username" := JStr "u2"]}))]).
  { vm_compute. reflexivity. }
  split; [exact Hrun |].
  exact (proj2 (proj2 (extract_users_keeps_first_of_each _ _ Hrun))).
Defined.
